(** * Automated OMR evaluation: scoring, answer-key validation, flagging
      and the per-sheet pipeline

    A shallow embedding of
    - [app/core/omr_processor.py] (class [OMRProcessor]),
    - [app/backend/utils.py] and
    - the answer-key validators of [app/backend/schemas.py]
    together with the properties of the specification that concern them.

    Modelling conventions.
    - Python [str] values are [string]s; the model covers ASCII text (the
      question identifiers and answer letters of the system are ASCII).
      Characters above 127 are left alone by [upper] and rejected by [int].
    - Python [int] is [Z]; Python [float] is the binary64 primitive [float].
      An [int] converted to [float] goes through [float_of_Z], and the
      quotient of two [int]s through [quotient]; both round once, to the
      nearest binary64 number.
    - A Python [dict] is an insertion-ordered association list with unique
      keys ([Py.wf]); iteration visits the entries in list order.
    - A raised exception is a value of [Py.exn]; a function that can raise
      returns [Py.result]. *)

From Stdlib Require Import ZArith List String Ascii Bool Lia Permutation Sorted.
From Stdlib Require Import DecimalString DecimalZ DecimalPos.
From Stdlib Require Import Floats.
Import ListNotations.

Local Open Scope string_scope.
Local Open Scope list_scope.
Local Open Scope Z_scope.

(** ** Python primitives *)

Module Py.

(** Exceptions. All of them are subclasses of Python's [Exception], the
    class that [except Exception] catches; signals outside it
    ([KeyboardInterrupt], [SystemExit]) are not modelled. *)
Inductive exn : Type :=
| ValueError (msg : string)
| KeyError (key : string)
| IndexError
| ZeroDivisionError
| TypeError
| OtherError (msg : string).

Inductive result (A : Type) : Type :=
| Ok (a : A)
| Raise (e : exn).
Arguments Ok {A} a.
Arguments Raise {A} e.

Definition bind {A B} (m : result A) (f : A -> result B) : result B :=
  match m with
  | Ok a => f a
  | Raise e => Raise e
  end.

Definition is_ok {A} (m : result A) : bool :=
  match m with Ok _ => true | Raise _ => false end.

(** [repr(s)] of a string of ASCII characters: between single quotes,
    or between double quotes when the string holds a single quote and no
    double quote; the quote character and the backslash are escaped, tab,
    newline and carriage return are written [\t], [\n], [\r] and the other
    control characters [\xhh]. *)
Definition hex_digit (n : nat) : ascii :=
  ascii_of_nat (if (n <? 10)%nat then 48 + n else 87 + n).

Definition repr_char (quote c : ascii) : string :=
  let n := nat_of_ascii c in
  if (Ascii.eqb c quote || Ascii.eqb c "\")%bool then String "\" (String c EmptyString)
  else if (n =? 9)%nat then "\t"%string
  else if (n =? 10)%nat then "\n"%string
  else if (n =? 13)%nat then "\r"%string
  else if ((n <? 32)%nat || (n =? 127)%nat)%bool
       then String "\" (String "x" (String (hex_digit (n / 16))
                                      (String (hex_digit (n mod 16)) EmptyString)))
       else String c EmptyString.

Fixpoint contains_char (c : ascii) (s : string) : bool :=
  match s with
  | EmptyString => false
  | String a r => (Ascii.eqb a c || contains_char c r)%bool
  end.

Fixpoint repr_chars (quote : ascii) (s : string) : string :=
  match s with
  | EmptyString => EmptyString
  | String a r => (repr_char quote a ++ repr_chars quote r)%string
  end.

Definition repr (s : string) : string :=
  let double := ascii_of_nat 34 in
  let quote :=
    if (contains_char "'" s && negb (contains_char double s))%bool then double else "'"%char in
  String quote (repr_chars quote s ++ String quote EmptyString)%string.

(** [str(e)] of an exception, as used in the pipeline's error message.
    [str(KeyError(k))] is the [repr] of the key. *)
Definition exn_str (e : exn) : string :=
  match e with
  | ValueError m => m
  | KeyError k => repr k
  | IndexError => "list index out of range"
  | ZeroDivisionError => "integer division or modulo by zero"
  | TypeError => "type error"
  | OtherError m => m
  end.

(** *** Strings *)

Definition upper_ascii (c : ascii) : ascii :=
  let n := nat_of_ascii c in
  if ((97 <=? n)%nat && (n <=? 122)%nat)%bool then ascii_of_nat (n - 32) else c.

(** [s.upper()] *)
Fixpoint upper (s : string) : string :=
  match s with
  | EmptyString => EmptyString
  | String c r => String (upper_ascii c) (upper r)
  end.

(** [s.replace(c, new)] for a one-character pattern [c]. *)
Fixpoint replace_char (c : ascii) (new : string) (s : string) : string :=
  match s with
  | EmptyString => EmptyString
  | String a r =>
      if Ascii.eqb a c then (new ++ replace_char c new r)%string
      else String a (replace_char c new r)
  end.

(** ASCII white space, as [int] strips it: codes 9 to 13 and 32. *)
Definition is_space (c : ascii) : bool :=
  let n := nat_of_ascii c in
  (((9 <=? n)%nat && (n <=? 13)%nat) || (n =? 32)%nat)%bool.

Definition is_digit (c : ascii) : bool :=
  let n := nat_of_ascii c in
  ((48 <=? n)%nat && (n <=? 57)%nat)%bool.

Fixpoint lstrip (s : string) : string :=
  match s with
  | String c r => if is_space c then lstrip r else s
  | EmptyString => EmptyString
  end.

Fixpoint rstrip (s : string) : string :=
  match s with
  | EmptyString => EmptyString
  | String c r =>
      match rstrip r with
      | EmptyString => if is_space c then EmptyString else String c EmptyString
      | r' => String c r'
      end
  end.

Definition strip (s : string) : string := rstrip (lstrip s).

(** The digit groups of an integer literal: digits, with single
    underscores allowed between two digits. [after_digit] tells whether
    the previous character was a digit; the result is the string with the
    underscores removed, or [None] when the shape is wrong. *)
Fixpoint digit_groups (after_digit : bool) (s : string) : option string :=
  match s with
  | EmptyString => if after_digit then Some EmptyString else None
  | String c r =>
      if is_digit c then option_map (String c) (digit_groups true r)
      else if (Ascii.eqb c "_"%char && after_digit)%bool then
             match r with
             | String d _ => if is_digit d then digit_groups false r else None
             | EmptyString => None
             end
      else None
  end.

Definition int_unsigned (s : string) : option Z :=
  match digit_groups false s with
  | Some ds => option_map Z.of_uint (NilEmpty.uint_of_string ds)
  | None => None
  end.

(** [int(s)] in base 10: [None] stands for [ValueError]. The limit on
    the length of integer strings (4300 digits by default) is not
    modelled. *)
Definition int_opt (s : string) : option Z :=
  match strip s with
  | String "-"%char r => option_map Z.opp (int_unsigned r)
  | String "+"%char r => int_unsigned r
  | r => int_unsigned r
  end.

Definition int (s : string) : result Z :=
  match int_opt s with
  | Some z => Ok z
  | None => Raise (ValueError ("invalid literal for int() with base 10: " ++ repr s)%string)
  end.

(** [str(z)] for an integer. *)
Definition str (z : Z) : string := NilZero.string_of_int (Z.to_int z).

(** *** Further string operations *)



(** An ASCII letter or digit. *)
Definition is_alnum (c : ascii) : bool :=
  let n := nat_of_ascii c in
  (((48 <=? n)%nat && (n <=? 57)%nat)
   || ((65 <=? n)%nat && (n <=? 90)%nat)
   || ((97 <=? n)%nat && (n <=? 122)%nat))%bool.

Fixpoint all_chars (f : ascii -> bool) (s : string) : bool :=
  match s with
  | EmptyString => true
  | String c r => (f c && all_chars f r)%bool
  end.

(** [s.isalnum()]: not empty, and letters and digits only. *)
Definition isalnum (s : string) : bool :=
  match s with
  | EmptyString => false
  | String _ _ => all_chars is_alnum s
  end.



(** *** Lists: [l[i]] with negative indices counted from the end. *)
Definition list_get {A} (l : list A) (i : Z) : result A :=
  let n := Z.of_nat (List.length l) in
  let j := if i <? 0 then i + n else i in
  if (j <? 0) || (n <=? j) then Raise IndexError
  else match nth_error l (Z.to_nat j) with
       | Some a => Ok a
       | None => Raise IndexError
       end.

(** [range(a, b)] *)
Definition range (a b : Z) : list Z :=
  map (fun j => a + Z.of_nat j) (seq 0 (Z.to_nat (b - a))).

(** *** Dictionaries keyed by strings *)

Definition dict (V : Type) : Type := list (string * V).

Definition wf {V} (d : dict V) : Prop := NoDup (map fst d).

Fixpoint get {V} (d : dict V) (k : string) : option V :=
  match d with
  | [] => None
  | (k', v) :: r => if String.eqb k' k then Some v else get r k
  end.

(** [k in d] *)
Definition contains {V} (d : dict V) (k : string) : bool :=
  match get d k with Some _ => true | None => false end.

(** [d[k]] *)
Definition getitem {V} (d : dict V) (k : string) : result V :=
  match get d k with
  | Some v => Ok v
  | None => Raise (KeyError k)
  end.

(** [d[k] = v]: an existing key keeps its position. *)
Fixpoint set {V} (d : dict V) (k : string) (v : V) : dict V :=
  match d with
  | [] => [(k, v)]
  | (k', v') :: r => if String.eqb k' k then (k', v) :: r else (k', v') :: set r k v
  end.

Definition keys {V} (d : dict V) : list string := map fst d.
Definition values {V} (d : dict V) : list V := map snd d.

(** *** Numbers *)

(** [float(z)]: the integer rounded to the nearest binary64 number, ties
    to even. Python raises [OverflowError] where the rounding leaves the
    range of [float] (integers of more than 308 digits); the model gives an
    infinity there. *)
Definition float_of_Z (z : Z) : float :=
  SF2Prim (binary_normalize prec emax z 0 false).

(** An integer as an exact, unnormalised floating-point datum. *)
Definition exact (z : Z) : spec_float :=
  match z with
  | Z0 => S754_zero false
  | Zpos p => S754_finite false p 0
  | Zneg p => S754_finite true p 0
  end.

(** The quotient of two integers rounded once, to the nearest binary64
    number: what [int.__truediv__] computes (it does not round the
    operands first). *)
Definition quotient (a b : Z) : float :=
  SF2Prim (SFdiv prec emax (exact a) (exact b)).

Inductive num : Type :=
| NInt (z : Z)
| NFloat (x : float).

Definition to_float (a : num) : float :=
  match a with
  | NInt z => float_of_Z z
  | NFloat x => x
  end.

(** [a + b] *)
Definition add (a b : num) : num :=
  match a, b with
  | NInt x, NInt y => NInt (x + y)
  | _, _ => NFloat (PrimFloat.add (to_float a) (to_float b))
  end.

(** [a / b] on two integers (true division). A quotient beyond the range
    of [float], for which Python raises [OverflowError], is an infinity
    here; it takes an operand of more than 308 digits. *)
Definition truediv (a b : Z) : result float :=
  if b =? 0 then Raise ZeroDivisionError
  else Ok (quotient a b).

(** [sum(l)] *)
Definition sum (l : list num) : num := fold_left add l (NInt 0).

(** *** Code that mutates an object and may raise: the object is the
    state, and it keeps the mutations made before an exception. *)
Definition stateful (S A : Type) : Type := S -> result A * S.

Definition sret {S A} (a : A) : stateful S A := fun s => (Ok a, s).

Definition sbind {S A B} (m : stateful S A) (f : A -> stateful S B) : stateful S B :=
  fun s =>
    match m s with
    | (Ok a, s') => f a s'
    | (Raise e, s') => (Raise e, s')
    end.

Definition lift {S A} (r : result A) : stateful S A := fun s => (r, s).

Definition modify {S} (f : S -> S) : stateful S unit := fun s => (Ok tt, f s).

Fixpoint sfor_each {S A X} (body : X -> A -> stateful S X) (l : list A) (x : X)
    : stateful S X :=
  match l with
  | [] => sret x
  | a :: r => sbind (body x a) (sfor_each body r)
  end.

(** [opt[k]] on a dictionary read as a record: an absent key raises. *)
Definition field {A} (key : string) (o : option A) : result A :=
  match o with
  | Some a => Ok a
  | None => Raise (KeyError key)
  end.

(** [a == b] on numbers. *)
Definition num_eqb (a b : num) : bool :=
  match a, b with
  | NInt x, NInt y => x =? y
  | _, _ => PrimFloat.eqb (to_float a) (to_float b)
  end.

End Py.

Notation "x <- m ;; k" := (Py.bind m (fun x => k))
  (at level 61, m at next level, right associativity).
Notation "x <~ m ;; k" := (Py.sbind m (fun x => k))
  (at level 61, m at next level, right associativity).
Notation "m ;;; k" := (Py.sbind m (fun _ => k))
  (at level 61, right associativity).


(** ** [app/core/omr_processor.py]: the scorer of [OMRProcessor] *)

Module OMRProcessor.

(** A mapped student answer: [None] (no mark), a list of letters
    (several marks) or one string (the letter). *)
Inductive answer : Type :=
| ANone
| AMulti (letters : list string)
| ALetter (s : string).

(** [self.subject_config] *)
Record subject_config : Type := {
  cfg_subjects : list string;
  cfg_questions_per_subject : Z;
  cfg_total_questions : Z
}.

(** The configuration set by [__init__]. *)
Definition default_config : subject_config := {|
  cfg_subjects := ["Mathematics"; "Physics"; "Chemistry"; "Biology"; "English"];
  cfg_questions_per_subject := 20;
  cfg_total_questions := 100
|}.

(** One entry of [scores["subject_breakdown"]]. *)
Record breakdown : Type := {
  correct : Z;
  total : Z;
  percentage : Py.num
}.

(** The dictionary [scores] that [calculate_subject_scores] returns. *)
Record score_result : Type := {
  subject_scores : Py.dict Py.num;
  total_score : Py.num;
  correct_answers : Z;
  total_questions : Z;
  subject_breakdown : Py.dict breakdown
}.

(** The local state of the scoring loop: the two dictionaries being
    filled and the counters [total_correct] and [total_questions]. *)
Record loop_state : Type := {
  st_subject_scores : Py.dict Py.num;
  st_subject_breakdown : Py.dict breakdown;
  st_total_correct : Z;
  st_total_questions : Z
}.

(** Lines 72-78: every subject starts at score 0 with an empty breakdown. *)
Definition init_state (cfg : subject_config) : loop_state :=
  fold_left
    (fun st subject =>
       {| st_subject_scores := Py.set (st_subject_scores st) subject (Py.NInt 0);
          st_subject_breakdown :=
            Py.set (st_subject_breakdown st) subject
              {| correct := 0; total := cfg_questions_per_subject cfg; percentage := Py.NInt 0 |};
          st_total_correct := st_total_correct st;
          st_total_questions := st_total_questions st |})
    (cfg_subjects cfg)
    {| st_subject_scores := []; st_subject_breakdown := [];
       st_total_correct := 0; st_total_questions := 0 |}.

(** [a // b] *)
Definition floordiv (a b : Z) : Py.result Z :=
  if b =? 0 then Py.Raise Py.ZeroDivisionError else Py.Ok (a / b).

(** Lines 103-111: the correctness test of one answer. *)
Definition is_correct (student_answer : answer) (correct_answer : string) : bool :=
  match student_answer with
  | AMulti _ => false
  | ANone => false
  | ALetter s => String.eqb (Py.upper s) (Py.upper correct_answer)
  end.

(** Lines 92-96: the subject of a question number; [Ok None] when the
    loop skips the question ([continue]). *)
Definition subject_of_number (cfg : subject_config) (question_num : Z)
    : Py.result (option string) :=
  subject_index <- floordiv (question_num - 1) (cfg_questions_per_subject cfg) ;;
  if Z.of_nat (List.length (cfg_subjects cfg)) <=? subject_index then Py.Ok None
  else
    subject <- Py.list_get (cfg_subjects cfg) subject_index ;;
    Py.Ok (Some subject).

(** Lines 85-96: the subject a question key is scored under; a key that
    the answer key lacks is skipped as well. *)
Definition assigned_subject (cfg : subject_config) (correct_answers : Py.dict string)
    (question_key : string) : Py.result (option string) :=
  if negb (Py.contains correct_answers question_key) then Py.Ok None
  else
    question_num <- Py.int (Py.replace_char "Q" "" question_key) ;;
    subject_of_number cfg question_num.

(** Lines 97-116: a question of [subject] is counted, and credited when
    its answer is correct. *)
Definition record_answer (cfg : subject_config) (correct_answers : Py.dict string)
    (st : loop_state) (subject question_key : string) (student_answer : answer)
    : Py.result loop_state :=
  let total_questions := st_total_questions st + 1 in
  b <- Py.getitem (st_subject_breakdown st) subject ;;
  let bd := Py.set (st_subject_breakdown st) subject
              {| correct := correct b;
                 total := cfg_questions_per_subject cfg;
                 percentage := percentage b |} in
  correct_answer <- Py.getitem correct_answers question_key ;;
  if is_correct student_answer correct_answer then
    sc <- Py.getitem (st_subject_scores st) subject ;;
    b' <- Py.getitem bd subject ;;
    Py.Ok {| st_subject_scores := Py.set (st_subject_scores st) subject (Py.add sc (Py.NInt 1));
             st_subject_breakdown :=
               Py.set bd subject
                 {| correct := correct b' + 1; total := total b'; percentage := percentage b' |};
             st_total_correct := st_total_correct st + 1;
             st_total_questions := total_questions |}
  else
    Py.Ok {| st_subject_scores := st_subject_scores st;
             st_subject_breakdown := bd;
             st_total_correct := st_total_correct st;
             st_total_questions := total_questions |}.

(** Lines 84-116: the body of the loop over [student_answers.items()]. *)
Definition score_question (cfg : subject_config) (correct_answers : Py.dict string)
    (st : loop_state) (item : string * answer) : Py.result loop_state :=
  let (question_key, student_answer) := item in
  subject <- assigned_subject cfg correct_answers question_key ;;
  match subject with
  | None => Py.Ok st
  | Some subject => record_answer cfg correct_answers st subject question_key student_answer
  end.

(** A [for] loop whose body may raise. *)
Fixpoint for_each {A S} (body : S -> A -> Py.result S) (l : list A) (st : S) : Py.result S :=
  match l with
  | [] => Py.Ok st
  | a :: r => st' <- body st a ;; for_each body r st'
  end.

(** Lines 119-124: percentages and the 20-point scale, one subject. *)
Definition finalize_subject (st : loop_state) (subject : string) : Py.result loop_state :=
  b <- Py.getitem (st_subject_breakdown st) subject ;;
  if 0 <? total b then
    ratio <- Py.truediv (correct b) (total b) ;;
    let b1 := {| correct := correct b; total := total b;
                 percentage := Py.NFloat (PrimFloat.mul ratio 100%float) |} in
    ratio' <- Py.truediv (correct b1) (total b1) ;;
    Py.Ok {| st_subject_scores :=
               Py.set (st_subject_scores st) subject
                 (Py.NFloat (PrimFloat.mul ratio' 20%float));
             st_subject_breakdown := Py.set (st_subject_breakdown st) subject b1;
             st_total_correct := st_total_correct st;
             st_total_questions := st_total_questions st |}
  else Py.Ok st.

(** [OMRProcessor.calculate_subject_scores] *)
Definition calculate_subject_scores (cfg : subject_config)
    (student_answers : Py.dict answer) (correct_answers : Py.dict string)
    : Py.result score_result :=
  st <- for_each (score_question cfg correct_answers) student_answers (init_state cfg) ;;
  st <- for_each finalize_subject (cfg_subjects cfg) st ;;
  Py.Ok {| subject_scores := st_subject_scores st;
           total_score := Py.sum (Py.values (st_subject_scores st));
           correct_answers := st_total_correct st;
           total_questions := st_total_questions st;
           subject_breakdown := st_subject_breakdown st |}.

(** The entries of a sheet that are credited to [subject]: scored under
    it and correct. *)
Definition credited (cfg : subject_config) (correct_answers : Py.dict string)
    (subject : string) (item : string * answer) : bool :=
  match assigned_subject cfg correct_answers (fst item), Py.get correct_answers (fst item) with
  | Py.Ok (Some s), Some k => String.eqb s subject && is_correct (snd item) k
  | _, _ => false
  end.

Definition correct_count (cfg : subject_config) (correct_answers : Py.dict string)
    (subject : string) (student_answers : Py.dict answer) : Z :=
  Z.of_nat (List.length (filter (credited cfg correct_answers subject) student_answers)).

(** The question number read from a key by line 89. *)
Definition question_number (question_key : string) : option Z :=
  Py.int_opt (Py.replace_char "Q" "" question_key).

(** *** Images, detection results and the audit overlay *)

Definition color : Type := Z * Z * Z.

(** What [cv2.circle], [cv2.rectangle] and [cv2.putText] draw. *)
Inductive draw_op : Type :=
| DCircle (center : Z * Z) (radius : Z) (c : color) (thickness : Z)
| DRectangle (pt1 pt2 : Z * Z) (c : color) (thickness : Z)
| DText (text : string) (org : Z * Z) (c : color).

(** An 8-bit pixel array, as [cv2.imread] returns it: its [shape], its
    values, and the annotations drawn on it so far (in drawing order). *)
Record image : Type := {
  shape : list Z;
  pixels : list Z;
  drawn : list draw_op
}.

(** [cv2.cvtColor(img, cv2.COLOR_GRAY2BGR)]: three equal channels. *)
Definition cvtColor_GRAY2BGR (img : image) : image :=
  {| shape := shape img ++ [3];
     pixels := flat_map (fun p => [p; p; p]) (pixels img);
     drawn := drawn img |}.

(** An argument that OpenCV can convert to a C [int]. *)
Definition fits_int (v : Z) : bool := (- 2 ^ 31 <=? v) && (v <? 2 ^ 31).

(** The calls that OpenCV accepts: the coordinates fit a C [int] and the
    radius of a circle is not negative. The colours and thicknesses are the
    constants of the renderer. *)
Definition accepted (op : draw_op) : bool :=
  match op with
  | DCircle (x, y) r _ _ => fits_int x && fits_int y && fits_int r && (0 <=? r)
  | DRectangle (x1, y1) (x2, y2) _ _ =>
      fits_int x1 && fits_int y1 && fits_int x2 && fits_int y2
  | DText _ (x, y) _ => fits_int x && fits_int y
  end.

(** [cv2.circle], [cv2.rectangle], [cv2.putText] on the overlay: a call
    that OpenCV rejects raises and draws nothing. *)
Definition draw (op : draw_op) : Py.stateful image unit :=
  fun img =>
    if accepted op
    then (Py.Ok tt, {| shape := shape img; pixels := pixels img;
                       drawn := drawn img ++ [op] |})
    else (Py.Raise (Py.OtherError "OpenCV: bad argument"), img).

(** An entry of a grid row: a dictionary with the keys ["bubble"] (a
    tuple [(x, y, r)] or [(x, y, w, h)]) and ["index"]; [None] is an
    absent key. *)
Record bubble_info : Type := {
  bubble : option (list Z);
  index : option Z
}.

(** [bubble_results["grid_structure"]]: a dictionary with the key
    ["rows"], possibly absent, and possibly other keys. *)
Record grid : Type := {
  rows : option (list (list bubble_info));
  other_keys : list string
}.

(** The truth value of the dictionary: it is not empty. *)
Definition grid_truthy (g : grid) : bool :=
  match rows g, other_keys g with
  | None, [] => false
  | _, _ => true
  end.

(** The dictionary returned by [detect_and_classify_bubbles]; [None] is
    an absent key. The entry ["grid_structure"], which the renderer tests
    for truth, may also hold Python's [None]: [Some None]. *)
Record bubble_results : Type := {
  grid_structure : option (option grid);
  classifications : option (list bool);
  bubbles_detected : option Z;
  confidence_scores : option (list float)
}.

Definition options_per_question : nat := 4.

(** [row[i:i + 4] for i in range(0, len(row), 4)] *)
Fixpoint groups_of_4 {A} (row : list A) : list (list A) :=
  match row with
  | a :: b :: c :: d :: rest => [a; b; c; d] :: groups_of_4 rest
  | [] => []
  | short => [short]
  end.

(** Lines 161-184: one bubble of a question. *)
Definition draw_bubble (classifications : list bool) (_ : unit) (info : bubble_info)
    : Py.stateful image unit :=
  bubble <~ Py.lift (Py.field "bubble" (bubble info)) ;;
  bubble_index <~ Py.lift (Py.field "index" (index info)) ;;
  style <~
    (if bubble_index <? Z.of_nat (List.length classifications) then
       is_filled <~ Py.lift (Py.list_get classifications bubble_index) ;;
       Py.sret (if is_filled : bool then ((0, 255, 0), 3) else ((255, 0, 0), 1))
     else Py.sret ((128, 128, 128), 1)) ;;
  let '(c, thickness) := style in
  match bubble with
  | [x; y; r] => draw (DCircle (x, y) r c thickness)
  | [x; y; w; h] => draw (DRectangle (x, y) (x + w, y + h) c thickness)
  | _ => Py.lift (Py.Raise (Py.ValueError "not enough values to unpack"))
  end.

(** Lines 154-197: one group of a row; the value threaded through the
    loop is [question_num]. *)
Definition draw_question (classifications : list bool) (question_num : Z)
    (question_bubbles : list bubble_info) : Py.stateful image Z :=
  if (List.length question_bubbles <? options_per_question)%nat then Py.sret question_num
  else
    Py.sfor_each (draw_bubble classifications) question_bubbles tt ;;;
    match question_bubbles with
    | [] => Py.sret tt
    | first :: _ =>
        first_bubble <~ Py.lift (Py.field "bubble" (bubble first)) ;;
        x <~ Py.lift (Py.list_get first_bubble 0) ;;
        y <~ Py.lift (Py.list_get first_bubble 1) ;;
        label_y <~
          (if (List.length first_bubble =? 3)%nat then Py.sret y
           else h <~ Py.lift (Py.list_get first_bubble 3) ;; Py.sret (y + h / 2)) ;;
        draw (DText ("Q" ++ Py.str question_num)%string (x - 30, label_y) (0, 0, 255))
    end ;;;
    Py.sret (question_num + 1).

Definition draw_row (classifications : list bool) (question_num : Z)
    (row : list bubble_info) : Py.stateful image Z :=
  Py.sfor_each (draw_question classifications) (groups_of_4 row) question_num.

(** Lines 146-199: the body of the [try] block. *)
Definition draw_grid (results : bubble_results) (rows : list (list bubble_info))
    : Py.stateful image unit :=
  classifications <~ Py.lift (Py.field "classifications" (classifications results)) ;;
  Py.sfor_each (draw_row classifications) rows 1 ;;;
  Py.sret tt.

(** [OMRProcessor.create_overlay_image]. Lines 137-143 run outside the
    [try] block; an exception inside it is logged and the overlay, as
    drawn so far, is returned. *)
Definition create_overlay_image (original_image : image) (results : bubble_results)
    (student_answers : Py.dict answer) : Py.result image :=
  let overlay :=
    if (List.length (shape original_image) =? 2)%nat
    then cvtColor_GRAY2BGR original_image
    else original_image in
  match grid_structure results with
  | None | Some None => Py.Ok overlay
  | Some (Some g) =>
      if negb (grid_truthy g) then Py.Ok overlay
      else
        rows <- Py.field "rows" (rows g) ;;
        match rows with
        | [] => Py.Ok overlay
        | _ :: _ => Py.Ok (snd (draw_grid results rows overlay))
        end
  end.

(** *** The per-sheet pipeline *)

Definition processing_info : Type := Py.dict Py.num.

Record flagged_question : Type := {
  fq_question : string;
  fq_issue : string
}.

(** The dictionary returned by [map_bubbles_to_answers]. *)
Record answer_mapping : Type := {
  answers : Py.dict answer;
  am_flagged_questions : list flagged_question
}.

(** The collaborators of the pipeline that are not part of this module:
    [ImageProcessor], [BubbleDetector], OpenCV's file output, NumPy's
    reductions and the clock. Each call returns or raises. *)
Record components : Type := {
  preprocess_image : string -> Py.result (image * processing_info);
  load_image : string -> Py.result image;
  detect_and_classify_bubbles : image -> Py.result bubble_results;
  map_bubbles_to_answers : option grid -> list bool -> Py.result answer_mapping;
  imwrite : string -> image -> Py.result bool;
  np_mean : list float -> Py.result float;
  np_min : list float -> Py.result float;
  np_max : list float -> Py.result float;
  utcnow_isoformat : string
}.

(** The state of an [OMRProcessor] object. *)
Record processor : Type := {
  answer_keys : Py.dict (Py.dict string);
  subject_config_of : subject_config
}.

(** [OMRProcessor()] *)
Definition new_processor : processor :=
  {| answer_keys := []; subject_config_of := default_config |}.

(** [set_answer_key(sheet_version, answer_key)] *)
Definition set_answer_key (self : processor) (sheet_version : string)
    (answer_key : Py.dict string) : processor :=
  {| answer_keys := Py.set (answer_keys self) sheet_version answer_key;
     subject_config_of := subject_config_of self |}.

(** [detect_sheet_version(image)]: a placeholder returning ["A"]. *)
Definition detect_sheet_version (img : image) : string := "A".

(** [results["scores"]]: empty, the scorer's dictionary, or
    [{"error": msg}]. *)
Inductive score_section : Type :=
| NoScores
| Scored (s : score_result)
| ScoreError (msg : string).

Record confidence_metrics : Type := {
  average_confidence : float;
  min_confidence : float;
  max_confidence : float;
  low_confidence_count : Z
}.

Record file_paths : Type := {
  fp_original : string;
  fp_processed : option string;
  fp_overlay : option string
}.

(** The dictionary [results] of [process_omr_sheet]. *)
Record processing_result : Type := {
  success : bool;
  student_id : option string;
  sheet_version : option string;
  r_processing_info : option processing_info;
  bubble_detection : option bubble_results;
  student_answers : Py.dict answer;
  scores : score_section;
  flagged_questions : list flagged_question;
  r_confidence_metrics : option confidence_metrics;
  r_file_paths : file_paths;
  timestamp : string;
  error_message : option string
}.

(** Lines 208-225 *)
Definition initial_results (c : components) (image_path : string)
    (sheet_version student_id : option string) : processing_result :=
  {| success := false; student_id := student_id; sheet_version := sheet_version;
     r_processing_info := None; bubble_detection := None; student_answers := [];
     scores := NoScores; flagged_questions := []; r_confidence_metrics := None;
     r_file_paths := {| fp_original := image_path; fp_processed := None; fp_overlay := None |};
     timestamp := utcnow_isoformat c; error_message := None |}.

(** Assignments [results[key] = value]. *)
Definition set_success (v : bool) (r : processing_result) : processing_result :=
  {| success := v; student_id := student_id r; sheet_version := sheet_version r;
     r_processing_info := r_processing_info r; bubble_detection := bubble_detection r;
     student_answers := student_answers r; scores := scores r;
     flagged_questions := flagged_questions r;
     r_confidence_metrics := r_confidence_metrics r; r_file_paths := r_file_paths r;
     timestamp := timestamp r; error_message := error_message r |}.

Definition set_sheet_version (v : string) (r : processing_result) : processing_result :=
  {| success := success r; student_id := student_id r; sheet_version := Some v;
     r_processing_info := r_processing_info r; bubble_detection := bubble_detection r;
     student_answers := student_answers r; scores := scores r;
     flagged_questions := flagged_questions r;
     r_confidence_metrics := r_confidence_metrics r; r_file_paths := r_file_paths r;
     timestamp := timestamp r; error_message := error_message r |}.

Definition set_processing_info (v : processing_info) (r : processing_result)
    : processing_result :=
  {| success := success r; student_id := student_id r; sheet_version := sheet_version r;
     r_processing_info := Some v; bubble_detection := bubble_detection r;
     student_answers := student_answers r; scores := scores r;
     flagged_questions := flagged_questions r;
     r_confidence_metrics := r_confidence_metrics r; r_file_paths := r_file_paths r;
     timestamp := timestamp r; error_message := error_message r |}.

Definition set_bubble_detection (v : bubble_results) (r : processing_result)
    : processing_result :=
  {| success := success r; student_id := student_id r; sheet_version := sheet_version r;
     r_processing_info := r_processing_info r; bubble_detection := Some v;
     student_answers := student_answers r; scores := scores r;
     flagged_questions := flagged_questions r;
     r_confidence_metrics := r_confidence_metrics r; r_file_paths := r_file_paths r;
     timestamp := timestamp r; error_message := error_message r |}.

Definition set_student_answers (v : Py.dict answer) (r : processing_result)
    : processing_result :=
  {| success := success r; student_id := student_id r; sheet_version := sheet_version r;
     r_processing_info := r_processing_info r; bubble_detection := bubble_detection r;
     student_answers := v; scores := scores r;
     flagged_questions := flagged_questions r;
     r_confidence_metrics := r_confidence_metrics r; r_file_paths := r_file_paths r;
     timestamp := timestamp r; error_message := error_message r |}.

Definition set_scores (v : score_section) (r : processing_result) : processing_result :=
  {| success := success r; student_id := student_id r; sheet_version := sheet_version r;
     r_processing_info := r_processing_info r; bubble_detection := bubble_detection r;
     student_answers := student_answers r; scores := v;
     flagged_questions := flagged_questions r;
     r_confidence_metrics := r_confidence_metrics r; r_file_paths := r_file_paths r;
     timestamp := timestamp r; error_message := error_message r |}.

Definition set_flagged_questions (v : list flagged_question) (r : processing_result)
    : processing_result :=
  {| success := success r; student_id := student_id r; sheet_version := sheet_version r;
     r_processing_info := r_processing_info r; bubble_detection := bubble_detection r;
     student_answers := student_answers r; scores := scores r;
     flagged_questions := v;
     r_confidence_metrics := r_confidence_metrics r; r_file_paths := r_file_paths r;
     timestamp := timestamp r; error_message := error_message r |}.

Definition set_confidence_metrics (v : confidence_metrics) (r : processing_result)
    : processing_result :=
  {| success := success r; student_id := student_id r; sheet_version := sheet_version r;
     r_processing_info := r_processing_info r; bubble_detection := bubble_detection r;
     student_answers := student_answers r; scores := scores r;
     flagged_questions := flagged_questions r;
     r_confidence_metrics := Some v; r_file_paths := r_file_paths r;
     timestamp := timestamp r; error_message := error_message r |}.

Definition set_file_paths (v : file_paths) (r : processing_result) : processing_result :=
  {| success := success r; student_id := student_id r; sheet_version := sheet_version r;
     r_processing_info := r_processing_info r; bubble_detection := bubble_detection r;
     student_answers := student_answers r; scores := scores r;
     flagged_questions := flagged_questions r;
     r_confidence_metrics := r_confidence_metrics r; r_file_paths := v;
     timestamp := timestamp r; error_message := error_message r |}.

Definition set_processed_path (p : string) (r : processing_result) : processing_result :=
  set_file_paths {| fp_original := fp_original (r_file_paths r); fp_processed := Some p;
                    fp_overlay := fp_overlay (r_file_paths r) |} r.

Definition set_overlay_path (p : string) (r : processing_result) : processing_result :=
  set_file_paths {| fp_original := fp_original (r_file_paths r);
                    fp_processed := fp_processed (r_file_paths r);
                    fp_overlay := Some p |} r.

Definition set_error_message (v : string) (r : processing_result) : processing_result :=
  {| success := success r; student_id := student_id r; sheet_version := sheet_version r;
     r_processing_info := r_processing_info r; bubble_detection := bubble_detection r;
     student_answers := student_answers r; scores := scores r;
     flagged_questions := flagged_questions r;
     r_confidence_metrics := r_confidence_metrics r; r_file_paths := r_file_paths r;
     timestamp := timestamp r; error_message := Some v |}.

(** Lines 263-274: step 5, the scores. *)
Definition score_step (self : processor) (sheet_version : string)
    (mapping : answer_mapping) : Py.stateful processing_result unit :=
  if Py.contains (answer_keys self) sheet_version then
    correct_answers <~ Py.lift (Py.getitem (answer_keys self) sheet_version) ;;
    s <~ Py.lift (calculate_subject_scores (subject_config_of self)
                    (answers mapping) correct_answers) ;;
    Py.modify (set_scores (Scored s))
  else
    Py.modify (set_scores (ScoreError ("No answer key for version " ++ sheet_version)%string)).

(** Lines 276-284: step 6, the confidence metrics. The constant is the
    binary64 value of [0.7]. *)
Definition confidence_step (c : components) (results : bubble_results)
    : Py.stateful processing_result unit :=
  let confidence_scores :=
    match confidence_scores results with Some l => l | None => [] end in
  match confidence_scores with
  | [] => Py.sret tt
  | _ :: _ =>
      mean <~ Py.lift (np_mean c confidence_scores) ;;
      lo <~ Py.lift (np_min c confidence_scores) ;;
      hi <~ Py.lift (np_max c confidence_scores) ;;
      Py.modify (set_confidence_metrics
        {| average_confidence := mean; min_confidence := lo; max_confidence := hi;
           low_confidence_count :=
             Z.of_nat (List.length
               (filter (fun x => PrimFloat.ltb x 0x1.6666666666666p-1%float)
                       confidence_scores)) |})
  end.

(** Lines 286-300: step 7, the overlay image. *)
Definition overlay_step (c : components) (image_path : string)
    (results : bubble_results) (mapping : answer_mapping)
    : Py.stateful processing_result unit :=
  original_image <~ Py.lift (load_image c image_path) ;;
  overlay_image <~ Py.lift (create_overlay_image original_image results (answers mapping)) ;;
  let overlay_path := Py.replace_char "." "_overlay." image_path in
  Py.lift (imwrite c overlay_path overlay_image) ;;;
  Py.modify (set_overlay_path overlay_path) ;;;
  Py.modify (set_success true).

(** Lines 228-301: the body of the [try] block. *)
Definition process_steps (c : components) (self : processor) (image_path : string)
    (sheet_version : option string) : Py.stateful processing_result unit :=
  pre <~ Py.lift (preprocess_image c image_path) ;;
  let '(processed_image, info) := pre in
  Py.modify (set_processing_info info) ;;;
  let processed_path := Py.replace_char "." "_processed." image_path in
  Py.lift (imwrite c processed_path processed_image) ;;;
  Py.modify (set_processed_path processed_path) ;;;
  sheet_version <~
    match sheet_version with
    | None =>
        let v := detect_sheet_version processed_image in
        Py.modify (set_sheet_version v) ;;; Py.sret v
    | Some v => Py.sret v
    end ;;
  results <~ Py.lift (detect_and_classify_bubbles c processed_image) ;;
  Py.modify (set_bubble_detection results) ;;;
  detected <~ Py.lift (Py.field "bubbles_detected" (bubbles_detected results)) ;;
  if detected =? 0 then Py.lift (Py.Raise (Py.ValueError "No bubbles detected in the image"))
  else
    g <~ Py.lift (Py.field "grid_structure" (grid_structure results)) ;;
    cls <~ Py.lift (Py.field "classifications" (classifications results)) ;;
    mapping <~ Py.lift (map_bubbles_to_answers c g cls) ;;
    Py.modify (set_student_answers (answers mapping)) ;;;
    Py.modify (set_flagged_questions (am_flagged_questions mapping)) ;;;
    score_step self sheet_version mapping ;;;
    confidence_step c results ;;;
    overlay_step c image_path results mapping.

(** [OMRProcessor.process_omr_sheet]: the steps under
    [try ... except Exception]. *)
Definition process_omr_sheet (c : components) (self : processor) (image_path : string)
    (sheet_version student_id : option string) : processing_result :=
  match process_steps c self image_path sheet_version
          (initial_results c image_path sheet_version student_id) with
  | (Py.Ok _, results) => results
  | (Py.Raise e, results) =>
      set_success false
        (set_error_message ("Error processing OMR sheet: " ++ Py.exn_str e)%string results)
  end.

(** [lst[i] if lst and i < len(lst) else None] *)
Definition nth_or_none (lst : option (list string)) (i : nat) : option string :=
  match lst with
  | Some l => nth_error l i
  | None => None
  end.

(** [OMRProcessor.batch_process_omr_sheets] *)
Definition batch_process_omr_sheets (c : components) (self : processor)
    (image_paths : list string) (sheet_versions student_ids : option (list string))
    : list processing_result :=
  map (fun item : nat * string =>
         let (i, image_path) := item in
         process_omr_sheet c self image_path
           (nth_or_none sheet_versions i) (nth_or_none student_ids i))
      (combine (seq 0 (List.length image_paths)) image_paths).

(** *** The summary of a batch *)

(** The dictionary returned by [generate_summary_report]. Its entries
    ["score_distribution"], ["processing_time"] and ["confidence_summary"]
    are never assigned after their creation (empty, [None], empty) and are
    left out. *)
Record summary : Type := {
  total_sheets : Z;
  successful_processing : Z;
  failed_processing : Z;
  average_score : Py.num;
  common_issues : Py.dict Z
}.

(** Lines 347-348: the total scores of the results whose ["scores"] have a
    ["total_score"] entry. *)
Definition total_scores_of (successful_results : list processing_result) : list Py.num :=
  flat_map (fun r => match scores r with
                     | Scored s => [total_score s]
                     | NoScores | ScoreError _ => []
                     end)
           successful_results.

(** Lines 357-360: one flag is counted under its issue. A flag of this
    model always carries its issue, so the default ["unknown"] of
    [flag.get("issue", "unknown")] is never taken. *)
Definition count_issue (issue_counts : Py.dict Z) (flag : flagged_question) : Py.dict Z :=
  let issue := fq_issue flag in
  Py.set issue_counts issue
    (match Py.get issue_counts issue with Some n => n | None => 0 end + 1).

(** [OMRProcessor.generate_summary_report]; [np.mean] is the collaborator
    of [components]. *)
Definition generate_summary_report (c : components) (batch_results : list processing_result)
    : Py.result summary :=
  let total := Z.of_nat (List.length batch_results) in
  let successful_results := filter success batch_results in
  let successful := Z.of_nat (List.length successful_results) in
  let failed := total - successful in
  match successful_results with
  | [] =>
      Py.Ok {| total_sheets := total; successful_processing := successful;
               failed_processing := failed; average_score := Py.NInt 0;
               common_issues := [] |}
  | _ :: _ =>
      average <-
        match total_scores_of successful_results with
        | [] => Py.Ok (Py.NInt 0)
        | (_ :: _) as total_scores =>
            mean <- np_mean c (map Py.to_float total_scores) ;;
            Py.Ok (Py.NFloat mean)
        end ;;
      let all_flagged := flat_map flagged_questions successful_results in
      Py.Ok {| total_sheets := total; successful_processing := successful;
               failed_processing := failed; average_score := average;
               common_issues := fold_left count_issue all_flagged [] |}
  end.

End OMRProcessor.

(** ** [app/backend/utils.py] *)

Module Utils.

Import OMRProcessor.

(** *** [validate_answer_key] *)

(** The messages appended to [errors], by kind, with the values the
    message text is formatted from. *)
Inductive verror : Type :=
| ExpectedAnswers (expected got : Z)
| OutOfRange (q_num : string) (total_questions : Z)
| InvalidQuestionNumber (q_num : string)
| InvalidAnswer (answer q_num : string)
| MissingAnswers (questions : list string).

(** The messages appended to [warnings]. *)
Inductive vwarning : Type :=
| UnusuallyHigh (answer : string) (percentage : float)
| UnusuallyLow (answer : string) (percentage : float).

Record validation : Type := {
  valid : bool;
  errors : list verror;
  warnings : list vwarning;
  answer_distribution : Py.dict Z;
  v_total_questions : Z
}.

Definition valid_answers : list string := ["A"; "B"; "C"; "D"].

Definition in_valid_answers (answer : string) : bool :=
  existsb (String.eqb answer) valid_answers.

(** Lines 112-121: the checks of one entry of the key, appended to
    [errors]. *)
Definition check_entry (total_questions : Z) (errors : list verror)
    (item : string * string) : list verror :=
  let (q_num, answer) := item in
  let errors :=
    match Py.int q_num with
    | Py.Ok q_int =>
        if (q_int <? 1) || (total_questions <? q_int)
        then errors ++ [OutOfRange q_num total_questions]
        else errors
    | Py.Raise _ => errors ++ [InvalidQuestionNumber q_num]
    end in
  if negb (in_valid_answers answer)
  then errors ++ [InvalidAnswer answer q_num]
  else errors.

(** Lines 124-126, as line 129 lists them: the expected question
    numbers that are no key of [answer_key], in increasing order. *)
Definition missing_questions (answer_key : Py.dict string) (total_questions : Z) : list string :=
  filter (fun q => negb (Py.contains answer_key q))
         (map Py.str (Py.range 1 (total_questions + 1))).

(** Lines 132-135: [answer_counts]. *)
Definition count_answer (answer_counts : Py.dict Z) (answer : string) : Py.dict Z :=
  if in_valid_answers answer
  then Py.set answer_counts answer
         (match Py.get answer_counts answer with Some n => n | None => 0 end + 1)
  else answer_counts.

(** Lines 139-144: the skew check of one letter. *)
Definition check_distribution (total_valid : Z) (warnings : list vwarning)
    (item : string * Z) : Py.result (list vwarning) :=
  let (answer, count) := item in
  ratio <- Py.truediv count total_valid ;;
  let percentage := PrimFloat.mul ratio 100%float in
  if PrimFloat.ltb 40%float percentage
  then Py.Ok (warnings ++ [UnusuallyHigh answer percentage])
  else if PrimFloat.ltb percentage 15%float
       then Py.Ok (warnings ++ [UnusuallyLow answer percentage])
       else Py.Ok warnings.

Definition sum_Z (l : list Z) : Z := fold_left Z.add l 0.

(** [validate_answer_key(answer_key, total_questions)] *)
Definition validate_answer_key (answer_key : Py.dict string) (total_questions : Z)
    : Py.result validation :=
  let len := Z.of_nat (List.length answer_key) in
  let errors :=
    if negb (len =? total_questions)
    then [ExpectedAnswers total_questions len] else [] in
  let errors := fold_left (check_entry total_questions) answer_key errors in
  let missing := missing_questions answer_key total_questions in
  let errors :=
    match missing with
    | [] => errors
    | _ :: _ => errors ++ [MissingAnswers missing]
    end in
  let answer_counts := fold_left count_answer (Py.values answer_key) [] in
  warnings <-
    match answer_counts with
    | [] => Py.Ok []
    | _ :: _ =>
        let total_valid := sum_Z (Py.values answer_counts) in
        for_each (check_distribution total_valid) answer_counts []
    end ;;
  Py.Ok {| valid := match errors with [] => true | _ :: _ => false end;
           errors := errors;
           warnings := warnings;
           answer_distribution := answer_counts;
           v_total_questions := len |}.

(** *** [calculate_subject_scores] *)

Record subject_score : Type := {
  score : Z;
  s_total : Z;
  s_percentage : Py.num
}.

Record score_report : Type := {
  r_subject_scores : Py.dict subject_score;
  r_total_score : Z;
  r_total_questions : Z;
  r_overall_percentage : Py.num
}.

Definition default_subjects : list string :=
  ["Mathematics"; "Physics"; "Chemistry"; "Biology"; "English"].

(** [student_answers[q] == correct_answers[q]]: a string equals a
    string with the same characters and nothing else. *)
Definition answer_eqb (a : answer) (k : string) : bool :=
  match a with
  | ALetter s => String.eqb s k
  | ANone | AMulti _ => false
  end.

(** Lines 201-206: one question of a subject; the state is
    [(correct_count, subject_total)]. *)
Definition count_question (student_answers : Py.dict answer) (correct_answers : Py.dict string)
    (st : Z * Z) (q_num : Z) : Z * Z :=
  let (correct_count, subject_total) := st in
  let q_str := Py.str q_num in
  match Py.get student_answers q_str, Py.get correct_answers q_str with
  | Some a, Some k =>
      (if answer_eqb a k then correct_count + 1 else correct_count, subject_total + 1)
  | _, _ => (correct_count, subject_total)
  end.

(** [(c / t * 100) if t > 0 else 0] *)
Definition percentage_of (c t : Z) : Py.result Py.num :=
  if 0 <? t then
    ratio <- Py.truediv c t ;;
    Py.Ok (Py.NFloat (PrimFloat.mul ratio 100%float))
  else Py.Ok (Py.NInt 0).

Record report_state : Type := {
  rs_subject_scores : Py.dict subject_score;
  rs_total_correct : Z;
  rs_total_questions : Z
}.

(** Lines 194-215: one subject of the enumeration. *)
Definition score_subject (student_answers : Py.dict answer) (correct_answers : Py.dict string)
    (questions_per_subject : Z) (st : report_state) (item : Z * string)
    : Py.result report_state :=
  let (i, subject) := item in
  let start_q := i * questions_per_subject + 1 in
  let end_q := (i + 1) * questions_per_subject in
  let (correct_count, subject_total) :=
    fold_left (count_question student_answers correct_answers)
              (Py.range start_q (end_q + 1)) (0, 0) in
  pct <- percentage_of correct_count subject_total ;;
  Py.Ok {| rs_subject_scores :=
             Py.set (rs_subject_scores st) subject
               {| score := correct_count; s_total := subject_total; s_percentage := pct |};
           rs_total_correct := rs_total_correct st + correct_count;
           rs_total_questions := rs_total_questions st + subject_total |}.

(** [enumerate(l)] *)
Definition enumerate {A} (l : list A) : list (Z * A) :=
  combine (map Z.of_nat (seq 0 (List.length l))) l.

(** [calculate_subject_scores(student_answers, correct_answers, subjects,
    questions_per_subject)]; [subjects = None] is the default list. *)
Definition calculate_subject_scores (student_answers : Py.dict answer)
    (correct_answers : Py.dict string) (subjects : option (list string))
    (questions_per_subject : Z) : Py.result score_report :=
  let subjects := match subjects with Some l => l | None => default_subjects end in
  st <- for_each (score_subject student_answers correct_answers questions_per_subject)
          (enumerate subjects)
          {| rs_subject_scores := []; rs_total_correct := 0; rs_total_questions := 0 |} ;;
  let total_score := rs_total_correct st in
  overall <- percentage_of total_score (rs_total_questions st) ;;
  Py.Ok {| r_subject_scores := rs_subject_scores st;
           r_total_score := total_score;
           r_total_questions := rs_total_questions st;
           r_overall_percentage := overall |}.

(** *** [identify_flagged_questions] *)

(** Lines 233-235: the questions whose confidence is below the
    threshold, in the order of [confidence_scores]. *)
Definition low_confidence (confidence_scores : Py.dict float) (confidence_threshold : float)
    : list string :=
  map fst (filter (fun item => PrimFloat.ltb (snd item) confidence_threshold) confidence_scores).

(** Lines 238-241: the questions 1 to 100 with no detected answer. *)
Definition unanswered (student_answers : Py.dict answer) : list string :=
  filter (fun q_str =>
            match Py.get student_answers q_str with
            | None => true
            | Some a => answer_eqb a ""
            end)
         (map Py.str (Py.range 1 101)).

(** [set(l)], listed by first occurrence (Python fixes no order). *)
Fixpoint dedup (l : list string) : list string :=
  match l with
  | [] => []
  | x :: r => x :: filter (fun y => negb (String.eqb x y)) (dedup r)
  end.

(** The keys [int(x)] of every element, computed before sorting. *)
Fixpoint int_keys (l : list string) : Py.result (list (Z * string)) :=
  match l with
  | [] => Py.Ok []
  | x :: r => k <- Py.int x ;; ks <- int_keys r ;; Py.Ok ((k, x) :: ks)
  end.

Fixpoint insert_by_key (a : Z * string) (l : list (Z * string)) : list (Z * string) :=
  match l with
  | [] => [a]
  | b :: r => if fst b <? fst a then b :: insert_by_key a r else a :: l
  end.

(** [sorted(l, key=int)]: a stable sort on the integer keys. *)
Definition sorted_by_int (l : list string) : Py.result (list string) :=
  ks <- int_keys l ;;
  Py.Ok (map snd (fold_right insert_by_key [] ks)).

(** [identify_flagged_questions(student_answers, confidence_scores,
    confidence_threshold)] *)
Definition identify_flagged_questions (student_answers : Py.dict answer)
    (confidence_scores : Py.dict float) (confidence_threshold : float)
    : Py.result (list string) :=
  let flagged := low_confidence confidence_scores confidence_threshold
                 ++ unanswered student_answers in
  sorted_by_int (dedup flagged).

(** *** File names *)




(** *** [compare_answer_keys] *)

Record difference : Type := {
  d_question : string;
  key1_answer : string;
  key2_answer : string
}.

Record comparison : Type := {
  total_differences : Z;
  differences : list difference;
  only_in_key1 : list string;
  only_in_key2 : list string;
  similarity_percentage : Py.num
}.

(** [set(key1.keys()) & set(key2.keys())], listed in the order of
    [key1] (Python fixes no order). *)
Definition common_questions (key1 key2 : Py.dict string) : list string :=
  filter (Py.contains key2) (dedup (Py.keys key1)).

(** [set(key1.keys()) - set(key2.keys())] *)
Definition keys_only_in (key1 key2 : Py.dict string) : list string :=
  filter (fun q => negb (Py.contains key2 q)) (dedup (Py.keys key1)).

(** Lines 160-166: one common question. *)
Definition compare_question (key1 key2 : Py.dict string)
    (differences : list difference) (q_num : string) : Py.result (list difference) :=
  a1 <- Py.getitem key1 q_num ;;
  a2 <- Py.getitem key2 q_num ;;
  if negb (String.eqb a1 a2)
  then Py.Ok (differences ++ [{| d_question := q_num; key1_answer := a1; key2_answer := a2 |}])
  else Py.Ok differences.

(** [sorted(s, key=int) if s else []] *)
Definition sorted_if_any (l : list string) : Py.result (list string) :=
  match l with
  | [] => Py.Ok []
  | _ :: _ => sorted_by_int l
  end.

(** [compare_answer_keys(key1, key2)] *)
Definition compare_answer_keys (key1 key2 : Py.dict string) : Py.result comparison :=
  let common := common_questions key1 key2 in
  sorted_common <- sorted_by_int common ;;
  differences <- OMRProcessor.for_each (compare_question key1 key2) sorted_common [] ;;
  let only_in_key1 := keys_only_in key1 key2 in
  let only_in_key2 := keys_only_in key2 key1 in
  sorted1 <- sorted_if_any only_in_key1 ;;
  sorted2 <- sorted_if_any only_in_key2 ;;
  similarity <-
    match common with
    | [] => Py.Ok (Py.NInt 0)
    | _ :: _ =>
        ratio <- Py.truediv (Z.of_nat (List.length common)
                             - Z.of_nat (List.length differences))
                            (Z.of_nat (List.length common)) ;;
        Py.Ok (Py.NFloat (PrimFloat.mul ratio 100%float))
    end ;;
  Py.Ok {| total_differences := Z.of_nat (List.length differences);
           differences := differences;
           only_in_key1 := sorted1;
           only_in_key2 := sorted2;
           similarity_percentage := similarity |}.

(** *** [validate_student_id] and [validate_exam_name] *)

Inductive id_error : Type :=
| IdEmpty
| IdTooShort
| IdTooLong
| IdBadCharacters.

Record id_validation : Type := {
  id_valid : bool;
  id_errors : list id_error
}.

(** [validate_student_id(student_id)] *)
Definition validate_student_id (student_id : string) : id_validation :=
  let len := Z.of_nat (String.length student_id) in
  let errors :=
    match student_id with
    | EmptyString => [IdEmpty]
    | String _ _ =>
        if len <? 3 then [IdTooShort]
        else if 20 <? len then [IdTooLong]
        else if negb (Py.isalnum (Py.replace_char "_" "" (Py.replace_char "-" "" student_id)))
             then [IdBadCharacters]
             else []
    end in
  {| id_valid := match errors with [] => true | _ :: _ => false end;
     id_errors := errors |}.

Inductive name_error : Type :=
| NameEmpty
| NameTooShort
| NameTooLong.

Record name_validation : Type := {
  name_valid : bool;
  name_errors : list name_error
}.

(** [validate_exam_name(exam_name)] *)
Definition validate_exam_name (exam_name : string) : name_validation :=
  let len := Z.of_nat (String.length exam_name) in
  let errors :=
    match exam_name with
    | EmptyString => [NameEmpty]
    | String _ _ =>
        if len <? 3 then [NameTooShort]
        else if 100 <? len then [NameTooLong]
        else []
    end in
  {| name_valid := match errors with [] => true | _ :: _ => false end;
     name_errors := errors |}.

End Utils.

(** ** [app/backend/schemas.py]: the validator of [ExamBase.answer_keys] *)

Module Schemas.

(** Lines 54-56: one answer of a version. *)
Definition check_answer (st : unit) (item : string * string) : Py.result unit :=
  let (q_num, answer) := item in
  if negb (existsb (String.eqb answer) ["A"; "B"; "C"; "D"])
  then Py.Raise (Py.ValueError ("Invalid answer '" ++ answer ++ "' for question " ++ q_num)%string)
  else Py.Ok st.

(** Lines 51-56: one version. *)
Definition check_version (st : unit) (item : string * Py.dict string) : Py.result unit :=
  let (version, answers) := item in
  if negb (Z.of_nat (List.length answers) =? 100)
  then Py.Raise (Py.ValueError ("Answer key for version " ++ version
                                ++ " must have exactly 100 answers")%string)
  else OMRProcessor.for_each check_answer answers st.

(** [ExamBase.validate_answer_keys(v)]: returns [v] or raises
    [ValueError]. *)
Definition validate_answer_keys (v : Py.dict (Py.dict string))
    : Py.result (Py.dict (Py.dict string)) :=
  _ <- OMRProcessor.for_each check_version v tt ;;
  Py.Ok v.

(** Lines 239-244 of [AnswerKeyValidation.validate_answers]: the [try]
    around the question number. The [ValueError] raised for a number out of
    range is raised inside the [try], so the handler catches it as well. *)
Definition check_question_number (q_num : string) : Py.result unit :=
  match (q_int <- Py.int q_num ;;
         if (q_int <? 1) || (100 <? q_int)
         then Py.Raise (Py.ValueError ("Question number " ++ q_num
                                       ++ " out of range (1-100)")%string)
         else Py.Ok tt) with
  | Py.Ok _ => Py.Ok tt
  | Py.Raise (Py.ValueError _) =>
      Py.Raise (Py.ValueError ("Invalid question number format: " ++ q_num)%string)
  | Py.Raise e => Py.Raise e
  end.

(** Lines 238-247: one entry. *)
Definition check_numbered_answer (st : unit) (item : string * string) : Py.result unit :=
  let (q_num, answer) := item in
  _ <- check_question_number q_num ;;
  if negb (existsb (String.eqb answer) ["A"; "B"; "C"; "D"])
  then Py.Raise (Py.ValueError ("Invalid answer '" ++ answer ++ "' for question " ++ q_num)%string)
  else Py.Ok st.

(** [AnswerKeyValidation.validate_answers(v)] *)
Definition validate_answers (v : Py.dict string) : Py.result (Py.dict string) :=
  if negb (Z.of_nat (List.length v) =? 100)
  then Py.Raise (Py.ValueError "Answer key must have exactly 100 answers")
  else
    _ <- OMRProcessor.for_each check_numbered_answer v tt ;;
    Py.Ok v.

End Schemas.

(** ** Notions used to state the properties *)

Module Notions.

Import OMRProcessor.

(** *** The scorer *)

(** The state of the scoring loop after the entries [done]: both
    dictionaries still have the keys they were created with, and every
    subject holds the number of its credited entries. *)
Definition counting (cfg : subject_config) (ck : Py.dict string)
    (done : Py.dict answer) (st : loop_state) : Prop :=
  Py.keys (st_subject_scores st) = Py.keys (st_subject_scores (init_state cfg))
  /\ Py.keys (st_subject_breakdown st) = Py.keys (st_subject_breakdown (init_state cfg))
  /\ forall s, In s (cfg_subjects cfg) ->
       Py.get (st_subject_scores st) s = Some (Py.NInt (correct_count cfg ck s done))
       /\ Py.get (st_subject_breakdown st) s
          = Some {| correct := correct_count cfg ck s done;
                    total := cfg_questions_per_subject cfg;
                    percentage := Py.NInt 0 |}.

(** [(c / questions_per_subject) * 20] *)
Definition on_20_point_scale (cfg : subject_config) (c : Z) : float :=
  PrimFloat.mul
    (Py.quotient c (cfg_questions_per_subject cfg))
    20%float.

(** The state after the second loop has treated the subjects [done]. *)
Definition finalized (cfg : subject_config) (ck : Py.dict string) (sa : Py.dict answer)
    (done : list string) (st : loop_state) : Prop :=
  Py.keys (st_subject_scores st) = Py.keys (st_subject_scores (init_state cfg))
  /\ forall s, In s (cfg_subjects cfg) ->
       (exists b, Py.get (st_subject_breakdown st) s = Some b
                  /\ correct b = correct_count cfg ck s sa
                  /\ total b = cfg_questions_per_subject cfg)
       /\ (exists v, Py.get (st_subject_scores st) s = Some v)
       /\ (In s done ->
           Py.get (st_subject_scores st) s
           = Some (Py.NFloat (on_20_point_scale cfg (correct_count cfg ck s sa)))).

(** Whether question number [n] belongs to [subject] under the default
    configuration. *)
Definition numbered_in (subject : string) (n : option Z) : bool :=
  match n with
  | Some n =>
      match subject_of_number default_config n with
      | Py.Ok (Some s) => String.eqb s subject
      | _ => false
      end
  | None => false
  end.

(** An entry of the sheet that the scoring loop counts: its key is in
    the answer key and its number falls to one of the subjects. *)
Definition scored (cfg : subject_config) (ck : Py.dict string) (item : string * answer)
    : bool :=
  match assigned_subject cfg ck (fst item) with
  | Py.Ok (Some _) => true
  | _ => false
  end.

(** The entry answers its question as the key says, case apart. *)
Definition answered_correctly (ck : Py.dict string) (item : string * answer) : bool :=
  match Py.get ck (fst item) with
  | Some k => is_correct (snd item) k
  | None => false
  end.

(** *** Sheets keyed ["1"] to ["100"] *)

(** One upper-case letter. *)
Definition upper_letter (s : string) : Prop :=
  exists c, s = String c EmptyString /\ (65 <= nat_of_ascii c <= 90)%nat.

Definition upper_letter_answer (a : answer) : Prop :=
  exists s, a = ALetter s /\ upper_letter s.

(** Question [n] is answered as the key says. *)
Definition agree (sa : Py.dict answer) (ck : Py.dict string) (n : Z) : bool :=
  match Py.get sa (Py.str n), Py.get ck (Py.str n) with
  | Some a, Some k => Utils.answer_eqb a k
  | _, _ => false
  end.

(** The number of agreeing questions among [lo .. hi - 1]. *)
Definition agreeing (sa : Py.dict answer) (ck : Py.dict string) (lo hi : Z) : Z :=
  Z.of_nat (List.length (filter (agree sa ck) (Py.range lo hi))).

(** The entry of question [n] on the sheet. *)
Definition entry (sa : Py.dict answer) (n : Z) : string * answer :=
  (Py.str n, match Py.get sa (Py.str n) with Some a => a | None => ANone end).

(** *** Strings of digits *)

Fixpoint digits_only (s : string) : Prop :=
  match s with
  | EmptyString => True
  | String c r => Py.is_digit c = true /\ digits_only r
  end.

(** *** The validator *)

(** The errors one entry of the key adds. *)
Definition entry_errors (total_questions : Z) (item : string * string)
    : list Utils.verror :=
  Utils.check_entry total_questions [] item.

(** *** The overlay *)

(** The image the renderer starts from: the original, with three channels
    when it was a two-dimensional (grayscale) array. *)
Definition base_overlay (original_image : image) : image :=
  if (List.length (shape original_image) =? 2)%nat
  then cvtColor_GRAY2BGR original_image
  else original_image.

(** [img'] is [img] with further annotations drawn on it. *)
Definition annotated (img img' : image) : Prop :=
  shape img' = shape img /\ pixels img' = pixels img
  /\ exists ops, drawn img' = drawn img ++ ops.

(** A computation that, returning or raising, leaves an annotated image. *)
Definition annotates {A} (m : Py.stateful image A) : Prop :=
  forall img, annotated img (snd (m img)).

(** *** What the renderer draws *)

(** [img] with [ops] drawn on it. *)
Definition with_drawn (img : image) (ops : list draw_op) : image :=
  {| shape := shape img; pixels := pixels img; drawn := drawn img ++ ops |}.

(** A number small enough for every coordinate that the renderer
    computes from it to fit a C [int]. *)
Definition within (v : Z) : Prop := - 2 ^ 30 <= v < 2 ^ 30.

(** A grid entry the renderer can draw: a circle [(x, y, r)] whose radius
    is not negative or a rectangle [(x, y, w, h)], of numbers [within]
    range, with an index that is not negative. *)
Definition drawable (info : bubble_info) : Prop :=
  exists b i, bubble info = Some b
              /\ index info = Some i /\ 0 <= i
              /\ Forall within b
              /\ match b with
                 | [_; _; r] => 0 <= r
                 | [_; _; _; _] => True
                 | _ => False
                 end.

(** The outline of one bubble: green and thick when it is classified as
    filled, red when it is not, gray when the classifications do not reach
    its index. *)
Definition outline (classifications : list bool) (info : bubble_info) : list draw_op :=
  match bubble info, index info with
  | Some b, Some i =>
      let '(c, thickness) :=
        if i <? Z.of_nat (List.length classifications) then
          match nth_error classifications (Z.to_nat i) with
          | Some true => ((0, 255, 0), 3)
          | _ => ((255, 0, 0), 1)
          end
        else ((128, 128, 128), 1) in
      match b with
      | [x; y; r] => [DCircle (x, y) r c thickness]
      | [x; y; w; h] => [DRectangle (x, y) (x + w, y + h) c thickness]
      | _ => []
      end
  | _, _ => []
  end.

(** The label of a question, left of its first bubble. *)
Definition label (question_num : Z) (question_bubbles : list bubble_info) : list draw_op :=
  match question_bubbles with
  | first :: _ =>
      match bubble first with
      | Some [x; y; r] => [DText ("Q" ++ Py.str question_num)%string (x - 30, y) (0, 0, 255)]
      | Some [x; y; w; h] =>
          [DText ("Q" ++ Py.str question_num)%string (x - 30, y + h / 2) (0, 0, 255)]
      | _ => []
      end
  | [] => []
  end.

(** A group of four bubbles: a question. *)
Definition complete (group : list bubble_info) : bool :=
  negb (List.length group <? options_per_question)%nat.

(** The drawings of the groups, numbered from [question_num]: the four
    outlines and the label of every complete group; a shorter group
    neither draws nor takes a number. *)
Fixpoint question_drawings (classifications : list bool) (question_num : Z)
    (groups : list (list bubble_info)) : list draw_op :=
  match groups with
  | [] => []
  | group :: rest =>
      if complete group
      then flat_map (outline classifications) group ++ label question_num group
           ++ question_drawings classifications (question_num + 1) rest
      else question_drawings classifications question_num rest
  end.

(** The texts drawn, in order. *)
Definition label_texts (ops : list draw_op) : list string :=
  flat_map (fun op => match op with DText t _ _ => [t] | _ => [] end) ops.

(** *** Counting dictionaries *)

(** [d.get(k, 0)] *)
Definition count_of (d : Py.dict Z) (k : string) : Z :=
  match Py.get d k with Some n => n | None => 0 end.

(** The number of elements of [l] that [key] maps to [k]. *)
Definition occurrences {A} (key : A -> string) (k : string) (l : list A) : Z :=
  Z.of_nat (List.length (filter (fun a => String.eqb (key a) k) l)).

(** *** Sorting by [int] *)

(** Both strings are integer literals, and the first is not the larger. *)
Definition int_le (a b : string) : Prop :=
  match Py.int_opt a, Py.int_opt b with
  | Some x, Some y => x <= y
  | _, _ => False
  end.

(** *** Comparing two keys *)

(** The difference that question [q] contributes: one when both keys
    answer it, differently. *)
Definition difference_at (key1 key2 : Py.dict string) (q : string) : list Utils.difference :=
  match Py.get key1 q, Py.get key2 q with
  | Some a1, Some a2 =>
      if negb (String.eqb a1 a2)
      then [{| Utils.d_question := q; Utils.key1_answer := a1; Utils.key2_answer := a2 |}]
      else []
  | _, _ => []
  end.

(** *** Characters *)

(** Every character of [s] is an ASCII character (below 128); on these,
    the character classes of this file are Python's. *)
Definition ascii_only (s : string) : Prop :=
  Py.all_chars (fun a => (nat_of_ascii a <? 128)%nat) s = true.

(** *** Paths *)

(** [c] does not occur in [s]. *)
Definition without_char (c : ascii) (s : string) : Prop :=
  Py.all_chars (fun a => negb (Ascii.eqb a c)) s = true.

End Notions.

Import Notions.

(** ** Sample inputs used to exercise the definitions *)

Module Samples.

Import OMRProcessor.

Definition gray_image : image :=
  {| shape := [2; 2]; pixels := [0; 255; 255; 0]; drawn := [] |}.

Definition one_row_grid : grid :=
  {| rows := Some [[ {| bubble := Some [40; 10; 5]; index := Some 0 |};
                     {| bubble := Some [60; 10; 5]; index := Some 1 |};
                     {| bubble := Some [80; 10; 5]; index := Some 2 |};
                     {| bubble := Some [100; 10; 5]; index := Some 3 |} ]];
     other_keys := ["total_rows"] |}.

(** A detection with one question whose first bubble is filled. *)
Definition detected : bubble_results :=
  {| grid_structure := Some (Some one_row_grid);
     classifications := Some [true; false; false; false];
     bubbles_detected := Some 4;
     confidence_scores := None |}.

(** A detection that found nothing. *)
Definition nothing_detected : bubble_results :=
  {| grid_structure := Some (Some {| rows := Some []; other_keys := [] |});
     classifications := Some [];
     bubbles_detected := Some 0;
     confidence_scores := None |}.

(** A row of six circles, that is one question and a half, of which the
    second bubble is filled. *)
Definition six_bubbles : list bubble_info :=
  map (fun i => {| bubble := Some [10 * i; 5; 2]; index := Some i |}) (Py.range 0 6).

Definition six_bubble_grid : grid :=
  {| rows := Some [six_bubbles]; other_keys := [] |}.

Definition six_bubble_detection : bubble_results :=
  {| grid_structure := Some (Some six_bubble_grid);
     classifications := Some [false; true];
     bubbles_detected := Some 6;
     confidence_scores := None |}.

(** A grid dictionary that has entries but no ["rows"] entry. *)
Definition rowless : bubble_results :=
  {| grid_structure := Some (Some {| rows := None; other_keys := ["total_rows"] |});
     classifications := Some [];
     bubbles_detected := Some 0;
     confidence_scores := None |}.

(** A grid whose only question has bubble entries without a ["bubble"]
    key. *)
Definition keyless_bubbles : bubble_results :=
  {| grid_structure :=
       Some (Some {| rows := Some [map (fun i => {| bubble := None; index := Some i |})
                                       (Py.range 0 4)];
                     other_keys := [] |});
     classifications := Some [true; false; false; false];
     bubbles_detected := Some 4;
     confidence_scores := None |}.

(** The answer key of the module's self-test:
    [{f"Q{i}": chr(ord('A') + (i % 4)) for i in range(1, 101)}]. *)
Definition sample_answer_key : Py.dict string :=
  map (fun i => (("Q" ++ Py.str i)%string,
                 String (ascii_of_nat (65 + Z.to_nat (i mod 4))) EmptyString))
      (Py.range 1 101).

(** A sheet that answers every question of [sample_answer_key] with the
    right letter, in lower case. *)
Definition full_marks_sheet : Py.dict answer :=
  map (fun i => (("Q" ++ Py.str i)%string,
                 ALetter (String (ascii_of_nat (97 + Z.to_nat (i mod 4))) EmptyString)))
      (Py.range 1 101).

(** A key and a sheet with the bare numeric keys ["1"] to ["100"]: the
    key cycles through the four letters, the sheet answers ["A"]
    throughout. *)
Definition numeric_key : Py.dict string :=
  map (fun i => (Py.str i, String (ascii_of_nat (65 + Z.to_nat (i mod 4))) EmptyString))
      (Py.range 1 101).

Definition all_A_sheet : Py.dict answer :=
  map (fun i => (Py.str i, ALetter "A")) (Py.range 1 101).

(** A key of 100 entries that writes question 1 twice, as ["01"] and as
    ["1"], and has no question 100. *)
Definition padded_key : Py.dict string :=
  ("01", "A") :: map (fun i => (Py.str i, "A")) (Py.range 1 100).

(** Sample collaborators (their code lies outside the modules modelled
    here). They return on every image; the detector finds bubbles only on
    paths other than ["blank.png"], and the image writer, like OpenCV's,
    refuses a file name without extension (the text of the exception stands
    for OpenCV's, which varies with its version). *)
Definition collaborators : components :=
  {| preprocess_image := fun path =>
       Py.Ok ({| shape := shape gray_image; pixels := pixels gray_image;
                 drawn := if String.eqb path "blank.png" then [] else
                            [DText "marked" (0, 0) (0, 0, 0)] |}, []);
     load_image := fun _ => Py.Ok gray_image;
     detect_and_classify_bubbles := fun img =>
       match drawn img with
       | [] => Py.Ok nothing_detected
       | _ :: _ => Py.Ok detected
       end;
     map_bubbles_to_answers := fun _ _ =>
       Py.Ok {| answers := [("1", ALetter "A")]; am_flagged_questions := [] |};
     imwrite := fun name _ =>
       if Py.contains_char "." name then Py.Ok true
       else Py.Raise (Py.OtherError "could not find a writer for the specified extension");
     np_mean := fun _ => Py.Ok 1%float;
     np_min := fun _ => Py.Ok 1%float;
     np_max := fun _ => Py.Ok 1%float;
     utcnow_isoformat := "2024-01-01T00:00:00" |}.

(** The same collaborators with a preprocessor that raises on every
    path, as one does that finds no file (the text is a sample). *)
Definition unreadable : components :=
  {| preprocess_image := fun path =>
       Py.Raise (Py.ValueError ("Could not load image from " ++ path)%string);
     load_image := load_image collaborators;
     detect_and_classify_bubbles := detect_and_classify_bubbles collaborators;
     map_bubbles_to_answers := map_bubbles_to_answers collaborators;
     imwrite := imwrite collaborators;
     np_mean := np_mean collaborators;
     np_min := np_min collaborators;
     np_max := np_max collaborators;
     utcnow_isoformat := utcnow_isoformat collaborators |}.

End Samples.

(** ** Sample evaluations of the Python primitives *)

Example int_samples :
  map Py.int_opt ["7"; "007"; "+5"; "-0"; "1_0"; " 5 "; "-101";
                  "_1"; "1_"; "1__0"; "+ 5"; ""; "-"; "+-5"; "q1"; "1a"]
  = [Some 7; Some 7; Some 5; Some 0; Some 10; Some 5; Some (-101);
     None; None; None; None; None; None; None; None; None].
Proof. vm_compute. reflexivity. Qed.

Example str_samples : map Py.str [0; 7; 100; -3] = ["0"; "7"; "100"; "-3"].
Proof. vm_compute. reflexivity. Qed.

Example float_samples :
  (r <- Py.truediv 7 20 ;; Py.Ok (Py.add (Py.NInt 0) (Py.NFloat (PrimFloat.mul r 20%float))))
  = Py.Ok (Py.NFloat 7%float).
Proof. vm_compute. reflexivity. Qed.

(** Operands beyond [2^53]: the quotient is rounded once
    ([float(544715136012745184) / float(541)] ends in [...ee8p+49]). *)
Example rounding_samples :
  Py.truediv 544715136012745184 541 = Py.Ok (0x1.c9dec3d6c9ee7p+49)%float
  /\ Py.truediv (-7) 2 = Py.Ok (-3.5)%float
  /\ Py.truediv 1 0 = Py.Raise Py.ZeroDivisionError
  /\ map Py.float_of_Z [2 ^ 53 + 1; 2 ^ 53 + 3; 2 ^ 63 + 2 ^ 10 + 1; -7]
     = [9007199254740992%float; 9007199254740996%float;
        (0x1.0000000000001p+63)%float; (-7)%float].
Proof. repeat split. Qed.


(** ** The scorer of [OMRProcessor]: correctness of one answer *)

Section ScorerAnswers.

Import OMRProcessor.

Lemma is_correct_iff (a : answer) (k : string) :
  is_correct a k = true <-> exists s, a = ALetter s /\ Py.upper s = Py.upper k.
Proof.
  split.
  - destruct a as [|l|s]; simpl; try discriminate.
    intro H. exists s. split; [reflexivity|]. now apply String.eqb_eq.
  - intros (s & -> & H). simpl. now apply String.eqb_eq.
Qed.

(** What one iteration of the loop does to the counter [total_correct]:
    it moves only when the question is scored, and then by one. *)
Lemma score_question_total_correct cfg ck st q a st' :
  score_question cfg ck st (q, a) = Py.Ok st' ->
  (st_total_correct st' = st_total_correct st + 1 /\
   st_total_questions st' = st_total_questions st + 1 /\
   exists k, Py.get ck q = Some k /\ is_correct a k = true)
  \/
  (st_total_correct st' = st_total_correct st /\
   forall k, Py.get ck q = Some k ->
             st_total_questions st' = st_total_questions st + 1 ->
             is_correct a k = false).
Proof.
  unfold score_question.
  destruct (assigned_subject cfg ck q) as [[subject|]|e]; simpl; [| |discriminate].
  2:{ intros [= <-]. right. split; [reflexivity|]. intros; lia. }
  unfold record_answer, Py.getitem.
  destruct (Py.get (st_subject_breakdown st) subject) as [b|]; simpl; [|discriminate].
  destruct (Py.get ck q) as [k|] eqn:Hk; simpl; [|discriminate].
  destruct (is_correct a k) eqn:Hc.
  - destruct (Py.get (st_subject_scores st) subject); simpl; [|discriminate].
    destruct (Py.get (Py.set _ _ _) subject); simpl; [|discriminate].
    intros [= <-]. simpl. left. repeat split. now exists k.
  - intros [= <-]. simpl. right. split; [reflexivity|].
    intros k' [= <-] _. exact Hc.
Qed.

End ScorerAnswers.

(** ** The per-sheet pipeline and the batch *)

Section Pipeline.

Import OMRProcessor.

Variable c : components.
Variable self : processor.

Lemma batch_length image_paths sheet_versions student_ids :
  List.length (batch_process_omr_sheets c self image_paths sheet_versions student_ids)
  = List.length image_paths.
Proof.
  unfold batch_process_omr_sheets.
  now rewrite length_map, length_combine, length_seq, Nat.min_id.
Qed.

Lemma nth_error_enumerate {A} (l : list A) :
  forall start j a,
    nth_error l j = Some a ->
    nth_error (combine (seq start (List.length l)) l) j = Some ((start + j)%nat, a).
Proof.
  induction l as [|x l IH]; intros start [|j] a H; simpl in *; try discriminate.
  - inversion H. now rewrite Nat.add_0_r.
  - rewrite (IH (S start) j a H). f_equal. f_equal. lia.
Qed.

(** Every sheet of the batch gets the result of its own run. *)
Lemma batch_nth image_paths sheet_versions student_ids j p :
  nth_error image_paths j = Some p ->
  nth_error (batch_process_omr_sheets c self image_paths sheet_versions student_ids) j
  = Some (process_omr_sheet c self p (nth_or_none sheet_versions j) (nth_or_none student_ids j)).
Proof.
  intro H. unfold batch_process_omr_sheets.
  rewrite nth_error_map, (nth_error_enumerate _ 0%nat j p H). reflexivity.
Qed.

(** A sheet on which detection returns zero bubbles ends as a failed
    result that keeps what was computed before. *)
Lemma no_bubbles_result image_path sheet_version student_id processed_image info w results :
  preprocess_image c image_path = Py.Ok (processed_image, info) ->
  imwrite c (Py.replace_char "." "_processed." image_path) processed_image = Py.Ok w ->
  detect_and_classify_bubbles c processed_image = Py.Ok results ->
  bubbles_detected results = Some 0 ->
  let r := process_omr_sheet c self image_path sheet_version student_id in
  success r = false
  /\ error_message r = Some "Error processing OMR sheet: No bubbles detected in the image"
  /\ bubble_detection r = Some results
  /\ r_processing_info r = Some info
  /\ scores r = NoScores.
Proof.
  intros Hpre Hw Hdet Hzero.
  unfold process_omr_sheet, process_steps, Py.sbind, Py.lift, Py.modify, Py.sret.
  rewrite Hpre, Hw.
  destruct sheet_version as [v|]; rewrite Hdet, Hzero; simpl; repeat split.
Qed.

(** The outcome of steps 6 and 7 does not depend on the results gathered
    so far. *)
Lemma later_steps_outcome image_path results mapping (s s' : processing_result) :
  fst ((confidence_step c results ;;; overlay_step c image_path results mapping) s)
  = fst ((confidence_step c results ;;; overlay_step c image_path results mapping) s').
Proof.
  unfold confidence_step, overlay_step, Py.sbind, Py.lift, Py.modify, Py.sret.
  destruct (match confidence_scores results with Some l => l | None => [] end);
    [|destruct (np_mean c _); [destruct (np_min c _); [destruct (np_max c _)|]|]];
    simpl; try reflexivity;
    (destruct (load_image c image_path); [|reflexivity]);
    (destruct (create_overlay_image _ _ _); [|reflexivity]);
    (destruct (imwrite c _ _); reflexivity).
Qed.

(** Steps 6 and 7 leave the answers, the scores and the detection results
    of the state alone. *)
Lemma later_steps_frame image_path results mapping (s : processing_result) :
  let s' := snd ((confidence_step c results ;;; overlay_step c image_path results mapping) s) in
  scores s' = scores s /\ student_answers s' = student_answers s
  /\ flagged_questions s' = flagged_questions s /\ bubble_detection s' = bubble_detection s
  /\ (fst ((confidence_step c results ;;; overlay_step c image_path results mapping) s) = Py.Ok tt
      -> success s' = true /\ error_message s' = error_message s).
Proof.
  unfold confidence_step, overlay_step, Py.sbind, Py.lift, Py.modify, Py.sret.
  destruct (match confidence_scores results with Some l => l | None => [] end);
    [|destruct (np_mean c _); [destruct (np_min c _); [destruct (np_max c _)|]|]];
    simpl;
    try (destruct (load_image c image_path); simpl;
         [destruct (create_overlay_image _ _ _); simpl; [destruct (imwrite c _ _)|]|]);
    simpl; repeat split; discriminate.
Qed.

End Pipeline.

(** C3. In a batch that contains a sheet on which bubble detection finds
    zero bubbles, every input path still gets exactly one result, each of
    them the result of processing that path on its own, and the result of
    the sheet without bubbles records the failure ([success = false] and
    the error message) together with what was computed before it. *)
Theorem C3_zero_bubbles_captured_in_batch :
  forall (c : OMRProcessor.components) (self : OMRProcessor.processor)
         image_paths sheet_versions student_ids i image_path processed_image info w results,
    nth_error image_paths i = Some image_path ->
    OMRProcessor.preprocess_image c image_path = Py.Ok (processed_image, info) ->
    OMRProcessor.imwrite c (Py.replace_char "." "_processed." image_path) processed_image
      = Py.Ok w ->
    OMRProcessor.detect_and_classify_bubbles c processed_image = Py.Ok results ->
    OMRProcessor.bubbles_detected results = Some 0 ->
    let batch :=
      OMRProcessor.batch_process_omr_sheets c self image_paths sheet_versions student_ids in
    List.length batch = List.length image_paths
    /\ (forall j p,
           nth_error image_paths j = Some p ->
           nth_error batch j
           = Some (OMRProcessor.process_omr_sheet c self p
                     (OMRProcessor.nth_or_none sheet_versions j)
                     (OMRProcessor.nth_or_none student_ids j)))
    /\ exists r,
         nth_error batch i = Some r
         /\ OMRProcessor.success r = false
         /\ OMRProcessor.error_message r
            = Some "Error processing OMR sheet: No bubbles detected in the image"
         /\ OMRProcessor.bubble_detection r = Some results
         /\ OMRProcessor.r_processing_info r = Some info.
Proof.
  intros c self image_paths sheet_versions student_ids i image_path processed_image info w
         results Hi Hpre Hw Hdet Hzero batch. subst batch.
  split; [apply batch_length|].
  split; [intros j p Hj; apply batch_nth; exact Hj|].
  eexists. split; [apply batch_nth; exact Hi|].
  destruct (no_bubbles_result c self image_path
              (OMRProcessor.nth_or_none sheet_versions i)
              (OMRProcessor.nth_or_none student_ids i)
              processed_image info w results Hpre Hw Hdet Hzero)
    as (H1 & H2 & H3 & H4 & _).
  repeat split; assumption.
Qed.

(** C3, on a batch of three sheets whose second one is blank. *)
Lemma C3_witness :
  let batch :=
    OMRProcessor.batch_process_omr_sheets Samples.collaborators OMRProcessor.new_processor
      ["a.png"; "blank.png"; "c.png"] (Some ["A"]) None in
  List.length batch = 3%nat
  /\ (exists r, nth_error batch 1 = Some r /\ OMRProcessor.success r = false)
  /\ (exists r, nth_error batch 2 = Some r /\ OMRProcessor.success r = true).
Proof.
  pose proof (C3_zero_bubbles_captured_in_batch
                Samples.collaborators OMRProcessor.new_processor
                ["a.png"; "blank.png"; "c.png"] (Some ["A"]) None 1 "blank.png"
                _ _ _ _ eq_refl eq_refl eq_refl eq_refl eq_refl) as (Hlen & _ & r & Hr & Hs & _).
  split; [exact Hlen|].
  split; [exists r; split; assumption|].
  eexists. split; [vm_compute; reflexivity|reflexivity].
Defined.

(** C4. When the sheet's version (declared, or else detected) has no answer
    key, the result's scores are the error payload, the mapped answers, the
    flagged questions and the detection results are those of this sheet, and
    the sheet succeeds exactly when the remaining steps (confidence metrics
    and overlay) do: the missing key raises nothing. *)
Theorem C4_missing_key_is_an_error_payload :
  forall (c : OMRProcessor.components) (self : OMRProcessor.processor)
         image_path sheet_version student_id processed_image info w results n g cls mapping,
    OMRProcessor.preprocess_image c image_path = Py.Ok (processed_image, info) ->
    OMRProcessor.imwrite c (Py.replace_char "." "_processed." image_path) processed_image
      = Py.Ok w ->
    OMRProcessor.detect_and_classify_bubbles c processed_image = Py.Ok results ->
    OMRProcessor.bubbles_detected results = Some n ->
    n <> 0 ->
    OMRProcessor.grid_structure results = Some g ->
    OMRProcessor.classifications results = Some cls ->
    OMRProcessor.map_bubbles_to_answers c g cls = Py.Ok mapping ->
    let version :=
      match sheet_version with
      | Some v => v
      | None => OMRProcessor.detect_sheet_version processed_image
      end in
    Py.contains (OMRProcessor.answer_keys self) version = false ->
    let r := OMRProcessor.process_omr_sheet c self image_path sheet_version student_id in
    OMRProcessor.scores r
    = OMRProcessor.ScoreError ("No answer key for version " ++ version)%string
    /\ OMRProcessor.student_answers r = OMRProcessor.answers mapping
    /\ OMRProcessor.flagged_questions r = OMRProcessor.am_flagged_questions mapping
    /\ OMRProcessor.bubble_detection r = Some results
    /\ OMRProcessor.success r
       = Py.is_ok (fst (Py.sbind (OMRProcessor.confidence_step c results)
                          (fun _ => OMRProcessor.overlay_step c image_path results mapping)
                          (OMRProcessor.initial_results c image_path sheet_version student_id)))
    /\ (OMRProcessor.success r = true -> OMRProcessor.error_message r = None).
Proof.
  intros c self image_path sheet_version student_id processed_image info w results n g cls
         mapping Hpre Hw Hdet Hn Hn0 Hg Hcls Hmap version Hkey r.
  apply Z.eqb_neq in Hn0.
  assert (Hr : exists s3,
             (OMRProcessor.scores s3
              = OMRProcessor.ScoreError ("No answer key for version " ++ version)%string
              /\ OMRProcessor.student_answers s3 = OMRProcessor.answers mapping
              /\ OMRProcessor.flagged_questions s3 = OMRProcessor.am_flagged_questions mapping
              /\ OMRProcessor.bubble_detection s3 = Some results
              /\ OMRProcessor.error_message s3 = None)
             /\ r = match Py.sbind (OMRProcessor.confidence_step c results)
                            (fun _ => OMRProcessor.overlay_step c image_path results mapping)
                            s3 with
                    | (Py.Ok _, res) => res
                    | (Py.Raise e, res) =>
                        OMRProcessor.set_success false
                          (OMRProcessor.set_error_message
                             ("Error processing OMR sheet: " ++ Py.exn_str e)%string res)
                    end).
  { subst r. unfold OMRProcessor.process_omr_sheet, OMRProcessor.process_steps.
    unfold Py.sbind at 1, Py.lift at 1. rewrite Hpre.
    unfold Py.sbind at 1, Py.modify at 1.
    unfold Py.sbind at 1, Py.lift at 1. rewrite Hw.
    unfold Py.sbind at 1, Py.modify at 1.
    unfold Py.sbind at 1.
    set (s1 := OMRProcessor.set_processed_path _ _).
    assert (Hver : exists s2,
               (match sheet_version with
                | Some v => Py.sret v
                | None => Py.sbind
                            (Py.modify (OMRProcessor.set_sheet_version
                                          (OMRProcessor.detect_sheet_version processed_image)))
                            (fun _ => Py.sret (OMRProcessor.detect_sheet_version processed_image))
                end) s1 = (Py.Ok version, s2)
               /\ OMRProcessor.error_message s2 = None).
    { destruct sheet_version; eexists; split; reflexivity. }
    destruct Hver as (s2 & -> & Herr).
    unfold Py.sbind at 1, Py.lift at 1. rewrite Hdet.
    unfold Py.sbind at 1, Py.modify at 1.
    unfold Py.sbind at 1, Py.lift at 1. rewrite Hn. simpl Py.field. cbv iota.
    rewrite Hn0.
    unfold Py.sbind at 1, Py.lift at 1. rewrite Hg. simpl Py.field. cbv iota.
    unfold Py.sbind at 1, Py.lift at 1. rewrite Hcls. simpl Py.field. cbv iota.
    unfold Py.sbind at 1, Py.lift at 1. rewrite Hmap.
    unfold Py.sbind at 1, Py.modify at 1.
    unfold Py.sbind at 1, Py.modify at 1.
    unfold Py.sbind at 1, OMRProcessor.score_step. rewrite Hkey.
    unfold Py.modify at 1.
    eexists. split; [|reflexivity].
    repeat split. exact Herr. }
  destruct Hr as (s3 & (E1 & E2 & E3 & E4 & E5) & Hr).
  clearbody r. subst r.
  pose proof (later_steps_frame c image_path results mapping s3) as Hframe.
  pose proof (later_steps_outcome c image_path results mapping s3
                (OMRProcessor.initial_results c image_path sheet_version student_id)) as Hout.
  cbv zeta in Hframe. rewrite <- Hout.
  destruct (Py.sbind (OMRProcessor.confidence_step c results) _ s3) as [[[]|e] s4];
    cbn [fst snd] in Hframe; cbv beta iota;
    destruct Hframe as (H1 & H2 & H3 & H4 & H5).
  - destruct (H5 eq_refl) as (H6 & H7).
    rewrite H1, H2, H3, H4, H6, H7, E1, E2, E3, E4, E5. repeat split.
  - unfold OMRProcessor.set_success, OMRProcessor.set_error_message.
    cbn [OMRProcessor.scores OMRProcessor.student_answers OMRProcessor.flagged_questions
         OMRProcessor.bubble_detection OMRProcessor.success OMRProcessor.error_message
         fst Py.is_ok].
    rewrite H1, H2, H3, H4, E1, E2, E3, E4. repeat split. discriminate.
Qed.

(** C4, on a sheet declared as version ["Z"] for a processor without keys. *)
Lemma C4_witness :
  let r := OMRProcessor.process_omr_sheet Samples.collaborators OMRProcessor.new_processor
             "a.png" (Some "Z") (Some "STUDENT001") in
  OMRProcessor.scores r = OMRProcessor.ScoreError "No answer key for version Z"
  /\ OMRProcessor.student_answers r = [("1", OMRProcessor.ALetter "A")]
  /\ OMRProcessor.bubble_detection r = Some Samples.detected
  /\ OMRProcessor.success r = true.
Proof.
  assert (H40 : 4 <> 0) by discriminate.
  pose proof (C4_missing_key_is_an_error_payload
                Samples.collaborators OMRProcessor.new_processor
                "a.png" (Some "Z") (Some "STUDENT001") _ _ _ _ 4 _ _ _
                eq_refl eq_refl eq_refl eq_refl H40 eq_refl eq_refl eq_refl eq_refl)
    as (H1 & H2 & _ & H4 & H5 & _).
  split; [exact H1|]. split; [exact H2|]. split; [exact H4|exact H5].
Defined.

(** ** The audit overlay *)

Section Overlay.

Import OMRProcessor.

(** Without a grid (no entry, or [None]), with an empty grid dictionary or
    with an empty list of rows the renderer returns the base image, with
    nothing drawn on it. *)
Lemma create_overlay_without_rows img results sa :
  grid_structure results = None
  \/ grid_structure results = Some None
  \/ (exists g, grid_structure results = Some (Some g)
                /\ (grid_truthy g = false \/ rows g = Some [])) ->
  create_overlay_image img results sa = Py.Ok (base_overlay img)
  /\ drawn (base_overlay img) = drawn img.
Proof.
  intro H. split.
  - unfold create_overlay_image. fold (base_overlay img).
    destruct H as [->|[->|(g & -> & [Hg|Hr])]]; [reflexivity|reflexivity| |].
    + now rewrite Hg.
    + destruct (grid_truthy g); [|reflexivity]. now rewrite Hr.
  - unfold base_overlay. now destruct (_ =? _)%nat.
Qed.

(** With a ["rows"] entry in the grid the renderer returns, whatever the
    rows hold. *)
Lemma create_overlay_with_rows img results sa g rs :
  grid_structure results = Some (Some g) ->
  rows g = Some rs ->
  exists overlay, create_overlay_image img results sa = Py.Ok overlay.
Proof.
  intros Hg Hr. unfold create_overlay_image. rewrite Hg.
  assert (Ht : grid_truthy g = true) by (unfold grid_truthy; now rewrite Hr).
  rewrite Ht, Hr. simpl. destruct rs; eexists; reflexivity.
Qed.

(** A grid dictionary that is not empty and has no ["rows"] entry makes
    line 142 raise [KeyError], before the [try] block is entered. *)
Lemma create_overlay_rowless img results sa g :
  grid_structure results = Some (Some g) ->
  rows g = None ->
  other_keys g <> [] ->
  create_overlay_image img results sa = Py.Raise (Py.KeyError "rows").
Proof.
  intros Hg Hr Hk. unfold create_overlay_image. rewrite Hg.
  unfold grid_truthy. rewrite Hr. destruct (other_keys g); [contradiction|reflexivity].
Qed.

End Overlay.

(** ** Facts about dictionaries and loops *)

Section DictFacts.

Context {V : Type}.
Implicit Types (d : Py.dict V) (k : string) (v : V).

Lemma get_set_eq d k v : Py.get (Py.set d k v) k = Some v.
Proof.
  induction d as [|[k' v'] d IH]; simpl.
  - now rewrite String.eqb_refl.
  - destruct (String.eqb k' k) eqn:E; simpl; rewrite E; [reflexivity|exact IH].
Qed.

Lemma get_set_ne d k k' v : k <> k' -> Py.get (Py.set d k v) k' = Py.get d k'.
Proof.
  intro Hne. induction d as [|[k0 v0] d IH]; simpl.
  - destruct (String.eqb k k') eqn:E; [apply String.eqb_eq in E; contradiction|reflexivity].
  - destruct (String.eqb k0 k) eqn:E; simpl.
    + apply String.eqb_eq in E. subst k0.
      destruct (String.eqb k k') eqn:E'; [apply String.eqb_eq in E'; contradiction|reflexivity].
    + now rewrite IH.
Qed.

Lemma keys_set_present d k v :
  Py.get d k <> None -> Py.keys (Py.set d k v) = Py.keys d.
Proof.
  unfold Py.keys. induction d as [|[k' v'] d IH]; simpl; [congruence|].
  destruct (String.eqb k' k); simpl; [reflexivity|]. intro H. now rewrite IH.
Qed.

Lemma get_some_in_keys d k v : Py.get d k = Some v -> In k (Py.keys d).
Proof.
  unfold Py.keys. induction d as [|[k' v'] d IH]; simpl; [discriminate|].
  destruct (String.eqb k' k) eqn:E; [apply String.eqb_eq in E; now left|].
  intro H. right. now apply IH.
Qed.

Lemma in_keys_get d k : In k (Py.keys d) -> exists v, Py.get d k = Some v.
Proof.
  unfold Py.keys. induction d as [|[k' v'] d IH]; simpl; [contradiction|].
  intros [->|H].
  - rewrite String.eqb_refl. now exists v'.
  - destruct (String.eqb k' k); [now exists v'|now apply IH].
Qed.

Lemma contains_in_keys d k : Py.contains d k = true <-> In k (Py.keys d).
Proof.
  unfold Py.contains. split.
  - destruct (Py.get d k) eqn:E; [|discriminate]. intros _. eapply get_some_in_keys; eauto.
  - intro H. apply in_keys_get in H. destruct H as (v & ->). reflexivity.
Qed.

(** In a dictionary (unique keys), an entry is what [get] finds. *)
Lemma wf_in_get d k v : Py.wf d -> In (k, v) d -> Py.get d k = Some v.
Proof.
  unfold Py.wf. induction d as [|[k' v'] d IH]; simpl; [contradiction|].
  intros Hnd [[= -> ->]|Hin].
  - now rewrite String.eqb_refl.
  - inversion Hnd as [|? ? Hk Hnd']; subst.
    destruct (String.eqb k' k) eqn:E; [|now apply IH].
    apply String.eqb_eq in E. subst k'. exfalso. apply Hk.
    change k with (fst (k, v)). now apply in_map.
Qed.

(** A dictionary is determined by its keys, in order, and its lookups. *)
Lemma dict_ext d d' :
  Py.wf d -> Py.keys d = Py.keys d' ->
  (forall k, In k (Py.keys d) -> Py.get d k = Py.get d' k) ->
  d = d'.
Proof.
  unfold Py.wf, Py.keys. revert d'.
  induction d as [|[k v] d IH]; intros [|[k' v'] d'] Hnd Hk Hg; simpl in *;
    try discriminate; [reflexivity|].
  inversion Hk; subst k'. inversion Hnd as [|? ? Hnk Hnd']; subst.
  pose proof (Hg k (or_introl eq_refl)) as H0. simpl in H0.
  rewrite String.eqb_refl in H0. inversion H0; subst v'.
  f_equal. apply IH; [assumption|assumption|].
  intros k0 Hin. specialize (Hg k0 (or_intror Hin)). simpl in Hg.
  destruct (String.eqb k k0) eqn:E; [|exact Hg].
  apply String.eqb_eq in E. subst k0. contradiction.
Qed.

End DictFacts.

Section LoopFacts.

Import OMRProcessor.

(** A loop invariant that every iteration preserves holds at the end. *)
Lemma for_each_invariant {A S} (body : S -> A -> Py.result S)
    (P : A -> Prop) (I : list A -> S -> Prop) :
  (forall done a st st', P a -> I done st -> body st a = Py.Ok st' -> I (done ++ [a]) st') ->
  forall l done st st',
    Forall P l -> I done st -> for_each body l st = Py.Ok st' -> I (done ++ l) st'.
Proof.
  intros Hstep. induction l as [|a l IH]; intros done st st' HP HI H; simpl in H.
  - inversion H; subst. now rewrite app_nil_r.
  - destruct (body st a) as [st1|e] eqn:E; simpl in H; [|discriminate].
    inversion HP; subst.
    replace (done ++ a :: l) with ((done ++ [a]) ++ l) by now rewrite <- app_assoc.
    eapply IH; [assumption| |exact H]. eapply Hstep; eauto.
Qed.

(** A loop whose iterations all return, returns. *)
Lemma for_each_total {A S} (body : S -> A -> Py.result S)
    (P : A -> Prop) (I : list A -> S -> Prop) :
  (forall done a st, P a -> I done st ->
                     exists st', body st a = Py.Ok st' /\ I (done ++ [a]) st') ->
  forall l done st,
    Forall P l -> I done st ->
    exists st', for_each body l st = Py.Ok st' /\ I (done ++ l) st'.
Proof.
  intros Hstep. induction l as [|a l IH]; intros done st HP HI; simpl.
  - exists st. now rewrite app_nil_r.
  - inversion HP; subst.
    destruct (Hstep done a st) as (st1 & -> & Hst1); [assumption|assumption|]. simpl.
    replace (done ++ a :: l) with ((done ++ [a]) ++ l) by now rewrite <- app_assoc.
    now apply IH.
Qed.

Lemma list_get_in {A} (l : list A) i a : Py.list_get l i = Py.Ok a -> In a l.
Proof.
  unfold Py.list_get. destruct (_ || _); [discriminate|].
  destruct (nth_error l _) eqn:E; [|discriminate].
  intros [= <-]. eapply nth_error_In; eauto.
Qed.

End LoopFacts.

(** ** The scoring loop of [OMRProcessor.calculate_subject_scores] *)

Section ScorerInvariant.

Import OMRProcessor.

Variable cfg : subject_config.
Variable ck : Py.dict string.

Lemma init_state_get :
  forall subjects st s,
    let st' :=
      fold_left
        (fun st subject =>
           {| st_subject_scores := Py.set (st_subject_scores st) subject (Py.NInt 0);
              st_subject_breakdown :=
                Py.set (st_subject_breakdown st) subject
                  {| correct := 0; total := cfg_questions_per_subject cfg;
                     percentage := Py.NInt 0 |};
              st_total_correct := st_total_correct st;
              st_total_questions := st_total_questions st |})
        subjects st in
    (In s subjects ->
     Py.get (st_subject_scores st') s = Some (Py.NInt 0)
     /\ Py.get (st_subject_breakdown st') s
        = Some {| correct := 0; total := cfg_questions_per_subject cfg;
                  percentage := Py.NInt 0 |})
    /\ (~ In s subjects ->
        Py.get (st_subject_scores st') s = Py.get (st_subject_scores st) s
        /\ Py.get (st_subject_breakdown st') s = Py.get (st_subject_breakdown st) s).
Proof.
  induction subjects as [|a l IH]; intros st s; simpl.
  - split; [contradiction|auto].
  - destruct (IH
      {| st_subject_scores := Py.set (st_subject_scores st) a (Py.NInt 0);
         st_subject_breakdown :=
           Py.set (st_subject_breakdown st) a
             {| correct := 0; total := cfg_questions_per_subject cfg;
                percentage := Py.NInt 0 |};
         st_total_correct := st_total_correct st;
         st_total_questions := st_total_questions st |} s) as [Hin Hout].
    split.
    + intros [->|Hs].
      * destruct (in_dec string_dec s l) as [Hl|Hl]; [now apply Hin|].
        destruct (Hout Hl) as [-> ->]. simpl. now rewrite !get_set_eq.
      * now apply Hin.
    + intro Hn. destruct (Hout (fun H => Hn (or_intror H))) as [-> ->]. simpl.
      split; apply get_set_ne; intros ->; apply Hn; now left.
Qed.

Lemma counting_init : (counting cfg ck) [] (init_state cfg).
Proof.
  split; [reflexivity|]. split; [reflexivity|].
  intros s Hs. unfold correct_count. simpl.
  now apply (init_state_get (cfg_subjects cfg)).
Qed.

Lemma correct_count_snoc s done item :
  correct_count cfg ck s (done ++ [item])
  = correct_count cfg ck s done + (if credited cfg ck s item then 1 else 0).
Proof.
  unfold correct_count. rewrite filter_app, length_app. simpl.
  destruct (credited cfg ck s item); simpl; lia.
Qed.

Lemma subject_of_number_in n s :
  subject_of_number cfg n = Py.Ok (Some s) -> In s (cfg_subjects cfg).
Proof.
  unfold subject_of_number.
  destruct (floordiv _ _) as [i|]; simpl; [|discriminate].
  destruct (_ <=? i); [discriminate|].
  destruct (Py.list_get _ _) eqn:E; simpl; [|discriminate].
  intros [= <-]. eapply list_get_in; eauto.
Qed.

Lemma assigned_subject_in q s :
  assigned_subject cfg ck q = Py.Ok (Some s) ->
  In s (cfg_subjects cfg) /\ exists k, Py.get ck q = Some k.
Proof.
  unfold assigned_subject, Py.contains.
  destruct (Py.get ck q) as [k|]; simpl; [|discriminate].
  destruct (Py.int _); simpl; [|discriminate].
  intro H. split; [eapply subject_of_number_in; eauto|now exists k].
Qed.

(** One iteration, once the subject of the question is known. *)
Lemma record_answer_counting done st subject q a k :
  (counting cfg ck) done st ->
  In subject (cfg_subjects cfg) ->
  Py.get ck q = Some k ->
  exists st',
    record_answer cfg ck st subject q a = Py.Ok st'
    /\ Py.keys (st_subject_scores st') = Py.keys (st_subject_scores st)
    /\ Py.keys (st_subject_breakdown st') = Py.keys (st_subject_breakdown st)
    /\ forall s, In s (cfg_subjects cfg) ->
         let c := correct_count cfg ck s done
                  + (if String.eqb subject s && is_correct a k then 1 else 0) in
         Py.get (st_subject_scores st') s = Some (Py.NInt c)
         /\ Py.get (st_subject_breakdown st') s
            = Some {| correct := c; total := cfg_questions_per_subject cfg;
                      percentage := Py.NInt 0 |}.
Proof.
  intros (Hk1 & Hk2 & Hget) Hsub Hq.
  destruct (Hget subject Hsub) as (Hsc & Hbd).
  unfold record_answer, Py.getitem. rewrite Hbd, Hq. simpl.
  destruct (is_correct a k) eqn:Hc.
  - rewrite Hsc, get_set_eq. simpl. eexists. split; [reflexivity|]. simpl.
    split; [apply keys_set_present; congruence|].
    split; [rewrite !keys_set_present; [reflexivity|congruence|rewrite get_set_eq; congruence]|].
    intros s Hs. destruct (String.eqb subject s) eqn:E; simpl.
    + apply String.eqb_eq in E. subst s. now rewrite !get_set_eq.
    + assert (subject <> s) by (intros ->; now rewrite String.eqb_refl in E).
      rewrite !get_set_ne by assumption. rewrite Z.add_0_r. now apply Hget.
  - eexists. split; [reflexivity|]. simpl.
    split; [reflexivity|].
    split; [apply keys_set_present; congruence|].
    intros s Hs. rewrite andb_false_r, Z.add_0_r.
    destruct (String.eqb subject s) eqn:E.
    + apply String.eqb_eq in E. subst s. now rewrite get_set_eq.
    + assert (subject <> s) by (intros ->; now rewrite String.eqb_refl in E).
      rewrite get_set_ne by assumption. now apply Hget.
Qed.

(** An iteration returns exactly when the subject lookup does, and then
    the invariant holds for one more entry. *)
Lemma score_question_counting done st item o :
  (counting cfg ck) done st ->
  assigned_subject cfg ck (fst item) = Py.Ok o ->
  exists st', score_question cfg ck st item = Py.Ok st' /\ (counting cfg ck) (done ++ [item]) st'.
Proof.
  intros Hinv Ha. destruct item as [q a]. simpl in Ha.
  unfold score_question. rewrite Ha. simpl.
  destruct o as [subject|].
  - destruct (assigned_subject_in _ _ Ha) as (Hsub & k & Hq).
    destruct (record_answer_counting done st subject q a k Hinv Hsub Hq)
      as (st' & -> & Hk1 & Hk2 & Hget).
    exists st'. split; [reflexivity|].
    destruct Hinv as (Hi1 & Hi2 & _).
    split; [congruence|]. split; [congruence|].
    intros s Hs. rewrite correct_count_snoc. unfold credited. simpl.
    rewrite Ha, Hq. now apply Hget.
  - exists st. split; [reflexivity|].
    destruct Hinv as (Hi1 & Hi2 & Hget).
    split; [assumption|]. split; [assumption|].
    intros s Hs. rewrite correct_count_snoc. unfold credited. simpl.
    rewrite Ha. rewrite Z.add_0_r. now apply Hget.
Qed.

Lemma score_question_ok_assigned st item st' :
  score_question cfg ck st item = Py.Ok st' ->
  exists o, assigned_subject cfg ck (fst item) = Py.Ok o.
Proof.
  destruct item as [q a]. unfold score_question. simpl.
  destruct (assigned_subject cfg ck q) as [o|e]; [now exists o|discriminate].
Qed.

(** The loop over the sheet: if it returns, the invariant holds for the
    whole sheet. *)
Lemma scoring_loop_counting sa st :
  for_each (score_question cfg ck) sa (init_state cfg) = Py.Ok st ->
  (counting cfg ck) sa st.
Proof.
  intro H.
  apply (for_each_invariant (score_question cfg ck) (fun _ => True) (counting cfg ck))
    with (l := sa) (done := []) (st := init_state cfg).
  - intros done a st0 st1 _ Hinv Hstep.
    destruct (score_question_ok_assigned _ _ _ Hstep) as (o & Ho).
    destruct (score_question_counting done st0 a o Hinv Ho) as (st2 & Hst2 & Hinv2).
    congruence.
  - apply Forall_forall. auto.
  - apply counting_init.
  - exact H.
Qed.

(** The loop returns when every subject lookup returns. *)
Lemma scoring_loop_total sa :
  Forall (fun item => exists o, assigned_subject cfg ck (fst item) = Py.Ok o) sa ->
  exists st, for_each (score_question cfg ck) sa (init_state cfg) = Py.Ok st /\ (counting cfg ck) sa st.
Proof.
  intro H.
  apply (for_each_total (score_question cfg ck)
           (fun item => exists o, assigned_subject cfg ck (fst item) = Py.Ok o) (counting cfg ck))
    with (l := sa) (done := []) (st := init_state cfg).
  - intros done a st0 (o & Ho) Hinv. eapply score_question_counting; eauto.
  - exact H.
  - apply counting_init.
Qed.

End ScorerInvariant.

(** ** The 20-point scale and the total *)

Section ScorerFinal.

Import OMRProcessor.

Variable cfg : subject_config.
Variable ck : Py.dict string.
Variable sa : Py.dict answer.
Hypothesis Hk : 0 < cfg_questions_per_subject cfg.

Lemma counting_finalized st : counting cfg ck sa st -> (finalized cfg ck sa) [] st.
Proof.
  intros (Hk1 & _ & Hget). split; [assumption|].
  intros s Hs. destruct (Hget s Hs) as (Hsc & Hbd).
  split; [eexists; split; [exact Hbd|split; reflexivity]|].
  split; [eexists; exact Hsc|contradiction].
Qed.

Lemma finalize_subject_finalized done st a :
  In a (cfg_subjects cfg) ->
  (finalized cfg ck sa) done st ->
  exists st', finalize_subject st a = Py.Ok st' /\ (finalized cfg ck sa) (done ++ [a]) st'.
Proof.
  intros Ha (Hk1 & Hget).
  destruct (Hget a Ha) as ((b & Hb & Hc & Ht) & (v & Hv) & _).
  unfold finalize_subject, Py.getitem. rewrite Hb. simpl.
  rewrite Ht. destruct (Z.ltb_spec 0 (cfg_questions_per_subject cfg)) as [_|]; [|lia].
  unfold Py.truediv. simpl.
  destruct (Z.eqb_spec (cfg_questions_per_subject cfg) 0) as [|_]; [lia|]. simpl.
  eexists. split; [reflexivity|]. split; simpl.
  - rewrite keys_set_present; [assumption|congruence].
  - intros s Hs. destruct (Hget s Hs) as ((b' & Hb' & Hc' & Ht') & (v' & Hv') & Hdone).
    destruct (string_dec a s) as [->|Hne].
    + rewrite !get_set_eq. split; [eexists; split; [reflexivity|split; [exact Hc|reflexivity]]|].
      split; [eexists; reflexivity|]. intros _. unfold on_20_point_scale. now rewrite Hc.
    + rewrite !get_set_ne by assumption.
      split; [eexists; split; [exact Hb'|split; assumption]|].
      split; [eexists; exact Hv'|].
      intro Hin. apply in_app_or in Hin. destruct Hin as [Hin|[->|[]]]; [|contradiction].
      now apply Hdone.
Qed.

Lemma finalize_loop st :
  counting cfg ck sa st ->
  exists st', for_each finalize_subject (cfg_subjects cfg) st = Py.Ok st'
              /\ (finalized cfg ck sa) (cfg_subjects cfg) st'.
Proof.
  intro Hc.
  apply (for_each_total finalize_subject (fun a => In a (cfg_subjects cfg)) (finalized cfg ck sa))
    with (l := cfg_subjects cfg) (done := []) (st := st).
  - intros done a st0 Ha Hf. now apply finalize_subject_finalized.
  - apply Forall_forall. auto.
  - now apply counting_finalized.
Qed.

(** What a returned score dictionary holds. *)
Lemma calculate_subject_scores_spec r :
  calculate_subject_scores cfg sa ck = Py.Ok r ->
  Py.keys (subject_scores r) = Py.keys (st_subject_scores (init_state cfg))
  /\ total_score r = Py.sum (Py.values (subject_scores r))
  /\ forall s, In s (cfg_subjects cfg) ->
       (exists b, Py.get (subject_breakdown r) s = Some b
                  /\ correct b = correct_count cfg ck s sa
                  /\ total b = cfg_questions_per_subject cfg)
       /\ Py.get (subject_scores r) s
          = Some (Py.NFloat ((on_20_point_scale cfg) (correct_count cfg ck s sa))).
Proof.
  unfold calculate_subject_scores.
  destruct (for_each (score_question cfg ck) sa (init_state cfg)) as [st|e] eqn:E1; simpl;
    [|discriminate].
  apply scoring_loop_counting in E1.
  destruct (finalize_loop st E1) as (st' & -> & Hk1 & Hget). simpl.
  intros [= <-]. simpl. split; [assumption|]. split; [reflexivity|].
  intros s Hs. destruct (Hget s Hs) as (Hb & _ & Hdone). split; [assumption|now apply Hdone].
Qed.

(** The scorer returns as soon as every subject lookup of the first loop
    returns. *)
Lemma calculate_subject_scores_returns :
  Forall (fun item => exists o, assigned_subject cfg ck (fst item) = Py.Ok o) sa ->
  exists r, calculate_subject_scores cfg sa ck = Py.Ok r.
Proof.
  intro H. unfold calculate_subject_scores.
  destruct (scoring_loop_total cfg ck sa H) as (st & -> & Hc). simpl.
  destruct (finalize_loop st Hc) as (st' & -> & _). simpl. eexists. reflexivity.
Qed.

End ScorerFinal.

(** ** The counters of the scorer *)

Section ScorerCounters.

Import OMRProcessor.

Variable cfg : subject_config.
Variable ck : Py.dict string.

Lemma score_question_counters st item st' :
  score_question cfg ck st item = Py.Ok st' ->
  st_total_questions st'
  = st_total_questions st + (if scored cfg ck item then 1 else 0)
  /\ st_total_correct st'
     = st_total_correct st
       + (if scored cfg ck item && answered_correctly ck item then 1 else 0).
Proof.
  destruct item as [q a]. unfold score_question, scored, answered_correctly. cbn [fst snd].
  destruct (assigned_subject cfg ck q) as [[subject|]|e]; cbn [Py.bind]; [| |discriminate].
  2:{ intros [= <-]. cbn [andb]. lia. }
  unfold record_answer, Py.getitem.
  destruct (Py.get (st_subject_breakdown st) subject) as [b|]; cbn [Py.bind]; [|discriminate].
  destruct (Py.get ck q) as [k|]; cbn [Py.bind]; [|discriminate].
  destruct (is_correct a k).
  - destruct (Py.get (st_subject_scores st) subject); cbn [Py.bind]; [|discriminate].
    destruct (Py.get (Py.set _ _ _) subject); cbn [Py.bind]; [|discriminate].
    intros [= <-]. cbn. lia.
  - intros [= <-]. cbn. lia.
Qed.

Lemma scoring_loop_counters sa :
  forall st st',
    for_each (score_question cfg ck) sa st = Py.Ok st' ->
    st_total_questions st'
    = st_total_questions st + Z.of_nat (List.length (filter (scored cfg ck) sa))
    /\ st_total_correct st'
       = st_total_correct st
         + Z.of_nat (List.length
                       (filter (fun item => scored cfg ck item && answered_correctly ck item)
                               sa)).
Proof.
  induction sa as [|item sa IH]; intros st st'; cbn [for_each filter].
  - intros [= <-]. simpl. lia.
  - destruct (score_question cfg ck st item) as [st1|e] eqn:E; cbn [Py.bind]; [|discriminate].
    intro H. apply IH in H. apply score_question_counters in E.
    destruct (scored cfg ck item); destruct (answered_correctly ck item);
      cbn [andb List.length] in *; rewrite ?Nat2Z.inj_succ; lia.
Qed.

Lemma finalize_loop_counters l :
  forall st st',
    for_each finalize_subject l st = Py.Ok st' ->
    st_total_questions st' = st_total_questions st
    /\ st_total_correct st' = st_total_correct st.
Proof.
  induction l as [|s l IH]; intros st st'; cbn [for_each].
  - intros [= <-]. now split.
  - destruct (finalize_subject st s) as [st1|e] eqn:E; cbn [Py.bind]; [|discriminate].
    intro H. apply IH in H. destruct H as (-> & ->).
    unfold finalize_subject, Py.getitem in E.
    destruct (Py.get (st_subject_breakdown st) s) as [b|]; cbn [Py.bind] in E; [|discriminate].
    destruct (0 <? total b); [|injection E as <-; now split].
    destruct (Py.truediv (correct b) (total b)); cbn [Py.bind] in E; [|discriminate].
    cbn in E. destruct (Py.truediv (correct b) (total b)); cbn [Py.bind] in E; [|discriminate].
    injection E as <-. now split.
Qed.

Lemma init_state_counters :
  st_total_questions (init_state cfg) = 0 /\ st_total_correct (init_state cfg) = 0.
Proof.
  unfold init_state.
  match goal with |- context [fold_left ?f _ _] => set (step := f) end.
  assert (H : forall l st,
             st_total_questions (fold_left step l st) = st_total_questions st
             /\ st_total_correct (fold_left step l st) = st_total_correct st).
  { induction l as [|s l IH]; intro st; [now split|].
    cbn [fold_left]. destruct (IH (step st s)) as (-> & ->). now split. }
  destruct (H (cfg_subjects cfg)
              {| st_subject_scores := []; st_subject_breakdown := [];
                 st_total_correct := 0; st_total_questions := 0 |}) as (-> & ->).
  now split.
Qed.

(** The two counters of a returned score dictionary. *)
Lemma scorer_counters sa r :
  calculate_subject_scores cfg sa ck = Py.Ok r ->
  total_questions r = Z.of_nat (List.length (filter (scored cfg ck) sa))
  /\ correct_answers r
     = Z.of_nat (List.length
                   (filter (fun item => scored cfg ck item && answered_correctly ck item) sa)).
Proof.
  unfold calculate_subject_scores.
  destruct (for_each (score_question cfg ck) sa (init_state cfg)) as [st|e] eqn:E1;
    cbn [Py.bind]; [|discriminate].
  destruct (for_each finalize_subject (cfg_subjects cfg) st) as [st'|e] eqn:E2;
    cbn [Py.bind]; [|discriminate].
  intros [= <-]. cbn [total_questions correct_answers].
  apply scoring_loop_counters in E1. apply finalize_loop_counters in E2.
  destruct init_state_counters as (H0 & H1).
  destruct E1 as (Hq & Hc), E2 as (-> & ->). rewrite Hq, Hc, H0, H1. now split.
Qed.

End ScorerCounters.

(** ** Credit is a whole point or nothing *)

Section ScorerCredit.

Import OMRProcessor.

Variable cfg : subject_config.
Variable ck : Py.dict string.

(** The entries that count for [subject]: scored under it, with a single
    letter that matches the key. *)
Lemma credited_iff subject q a :
  credited cfg ck subject (q, a) = true
  <-> assigned_subject cfg ck q = Py.Ok (Some subject)
      /\ exists letter k, a = ALetter letter /\ Py.get ck q = Some k
                          /\ Py.upper letter = Py.upper k.
Proof.
  unfold credited. cbn [fst snd]. split.
  - destruct (assigned_subject cfg ck q) as [[s|]|e]; try discriminate.
    destruct (Py.get ck q) as [k|]; [|discriminate].
    intro H. apply andb_true_iff in H. destruct H as (Hs & Hc).
    apply String.eqb_eq in Hs. subst s. split; [reflexivity|].
    apply is_correct_iff in Hc. destruct Hc as (letter & -> & Hu). now exists letter, k.
  - intros (-> & letter & k & -> & -> & Hu). rewrite String.eqb_refl. cbn [andb].
    apply is_correct_iff. now exists letter.
Qed.

Lemma counted_correct_iff q a :
  scored cfg ck (q, a) && answered_correctly ck (q, a) = true
  <-> (exists subject, assigned_subject cfg ck q = Py.Ok (Some subject))
      /\ exists letter k, a = ALetter letter /\ Py.get ck q = Some k
                          /\ Py.upper letter = Py.upper k.
Proof.
  unfold scored, answered_correctly. cbn [fst snd]. split.
  - destruct (assigned_subject cfg ck q) as [[s|]|e]; try discriminate.
    destruct (Py.get ck q) as [k|]; [|discriminate]. cbn [andb].
    intro Hc. split; [now exists s|].
    apply is_correct_iff in Hc. destruct Hc as (letter & -> & Hu). now exists letter, k.
  - intros ((s & ->) & letter & k & -> & -> & Hu). cbn [andb].
    apply is_correct_iff. now exists letter.
Qed.

(** One iteration of the loop: a correct answer adds one point to the
    score and to the count of its subject and to [total_correct]; any other
    entry leaves every score and every count of correct answers as it
    was. *)
Lemma score_question_credit st q a st' :
  score_question cfg ck st (q, a) = Py.Ok st' ->
  (scored cfg ck (q, a) && answered_correctly ck (q, a) = true
   /\ exists subject sc b,
        assigned_subject cfg ck q = Py.Ok (Some subject)
        /\ Py.get (st_subject_scores st) subject = Some sc
        /\ Py.get (st_subject_breakdown st) subject = Some b
        /\ st_subject_scores st'
           = Py.set (st_subject_scores st) subject (Py.add sc (Py.NInt 1))
        /\ option_map correct (Py.get (st_subject_breakdown st') subject)
           = Some (correct b + 1)
        /\ (forall s, s <> subject ->
                      Py.get (st_subject_breakdown st') s = Py.get (st_subject_breakdown st) s)
        /\ st_total_correct st' = st_total_correct st + 1)
  \/ (scored cfg ck (q, a) && answered_correctly ck (q, a) = false
      /\ st_subject_scores st' = st_subject_scores st
      /\ (forall s, option_map correct (Py.get (st_subject_breakdown st') s)
                    = option_map correct (Py.get (st_subject_breakdown st) s))
      /\ st_total_correct st' = st_total_correct st).
Proof.
  unfold score_question, scored, answered_correctly. cbn [fst snd].
  destruct (assigned_subject cfg ck q) as [[subject|]|e]; cbn [Py.bind]; [| |discriminate].
  2:{ intros [= <-]. right. repeat split. }
  unfold record_answer, Py.getitem.
  destruct (Py.get (st_subject_breakdown st) subject) as [b|] eqn:Hb; cbn [Py.bind];
    [|discriminate].
  destruct (Py.get ck q) as [k|]; cbn [Py.bind andb]; [|discriminate].
  destruct (is_correct a k).
  - destruct (Py.get (st_subject_scores st) subject) as [sc|] eqn:Hsc; cbn [Py.bind];
      [|discriminate].
    rewrite get_set_eq. cbn [Py.bind]. intros [= <-]. left. split; [reflexivity|].
    exists subject, sc, b. cbn [st_subject_scores st_subject_breakdown st_total_correct].
    split; [reflexivity|]. split; [exact Hsc|]. split; [exact Hb|].
    split; [reflexivity|]. split; [now rewrite get_set_eq|]. split; [|reflexivity].
    intros s Hs. now rewrite !get_set_ne by congruence.
  - intros [= <-]. right. cbn [st_subject_scores st_subject_breakdown st_total_correct].
    split; [reflexivity|]. split; [reflexivity|]. split; [|reflexivity].
    intro s. destruct (string_dec subject s) as [<-|Hne].
    + now rewrite get_set_eq, Hb.
    + now rewrite get_set_ne.
Qed.

(** Without a positive number of questions per subject the second loop
    changes nothing. *)
Lemma finalize_loop_skips sa st l :
  cfg_questions_per_subject cfg <= 0 ->
  counting cfg ck sa st ->
  incl l (cfg_subjects cfg) ->
  for_each finalize_subject l st = Py.Ok st.
Proof.
  intros Hk (_ & _ & Hget). induction l as [|s l IH]; intro Hl; [reflexivity|].
  cbn [for_each]. destruct (Hget s (Hl s (or_introl eq_refl))) as (_ & Hb).
  unfold finalize_subject at 1, Py.getitem. rewrite Hb. cbn [Py.bind total].
  destruct (Z.ltb_spec 0 (cfg_questions_per_subject cfg)); [lia|]. cbn [Py.bind].
  apply IH. intros x Hx. apply Hl. now right.
Qed.

(** What a returned score dictionary holds, whatever the configuration. *)
Lemma scorer_credit sa r :
  calculate_subject_scores cfg sa ck = Py.Ok r ->
  total_score r = Py.sum (Py.values (subject_scores r))
  /\ forall s, In s (cfg_subjects cfg) ->
       exists b, Py.get (subject_breakdown r) s = Some b
                 /\ correct b = correct_count cfg ck s sa
                 /\ Py.get (subject_scores r) s
                    = Some (if 0 <? cfg_questions_per_subject cfg
                            then Py.NFloat (on_20_point_scale cfg (correct_count cfg ck s sa))
                            else Py.NInt (correct_count cfg ck s sa)).
Proof.
  intro Hr. destruct (Z.ltb_spec 0 (cfg_questions_per_subject cfg)) as [Hk|Hk].
  - destruct (calculate_subject_scores_spec cfg ck sa Hk r Hr) as (_ & Hsum & Hget).
    split; [exact Hsum|]. intros s Hs.
    destruct (Hget s Hs) as ((b & Hb & Hc & _) & Hsc). now exists b.
  - unfold calculate_subject_scores in Hr.
    destruct (for_each (score_question cfg ck) sa (init_state cfg)) as [st|e] eqn:E1;
      cbn [Py.bind] in Hr; [|discriminate].
    apply scoring_loop_counting in E1.
    rewrite (finalize_loop_skips sa st (cfg_subjects cfg) Hk E1 (incl_refl _)) in Hr.
    cbn [Py.bind] in Hr. injection Hr as <-. cbn [total_score subject_scores subject_breakdown].
    split; [reflexivity|]. intros s Hs.
    destruct E1 as (_ & _ & Hget). destruct (Hget s Hs) as (Hsc & Hb).
    eexists. split; [exact Hb|]. split; [reflexivity|exact Hsc].
Qed.

End ScorerCredit.

(** C1. A question counts as correct exactly when the mapped answer is a
    single string equal to the key's letter after upper-casing both; [None]
    and a list of letters are never correct. In the loop, a correct answer
    adds exactly one point to the score and to the count of its subject and
    to [total_correct]; every other entry leaves all scores and all counts of
    correct answers as they were. So, in the dictionary the scorer returns,
    [correct_answers] is the number of scored entries with a matching single
    letter, every subject's count of correct answers is the number of such
    entries scored under it, its score is that count on the 20-point scale
    (the count itself when the number of questions per subject is not
    positive), and the total is the sum of the subject scores: credit is a
    whole point or nothing. *)
Theorem C1_correct_iff_single_letter_match :
  (forall a k,
      OMRProcessor.is_correct a k = true
      <-> exists s, a = OMRProcessor.ALetter s /\ Py.upper s = Py.upper k)
  /\ (forall k, OMRProcessor.is_correct OMRProcessor.ANone k = false)
  /\ (forall letters k, OMRProcessor.is_correct (OMRProcessor.AMulti letters) k = false)
  /\ (forall cfg ck st q a st',
         OMRProcessor.score_question cfg ck st (q, a) = Py.Ok st' ->
         (OMRProcessor.st_total_correct st' = OMRProcessor.st_total_correct st + 1
          <-> (OMRProcessor.st_total_questions st' = OMRProcessor.st_total_questions st + 1 /\
               exists s k, a = OMRProcessor.ALetter s /\ Py.get ck q = Some k /\
                           Py.upper s = Py.upper k))
         /\ (OMRProcessor.st_total_correct st' = OMRProcessor.st_total_correct st \/
             OMRProcessor.st_total_correct st' = OMRProcessor.st_total_correct st + 1))
  /\ (forall cfg ck subject q a,
         (OMRProcessor.credited cfg ck subject (q, a) = true
          <-> OMRProcessor.assigned_subject cfg ck q = Py.Ok (Some subject)
              /\ exists letter k, a = OMRProcessor.ALetter letter /\ Py.get ck q = Some k
                                  /\ Py.upper letter = Py.upper k)
         /\ (scored cfg ck (q, a) && answered_correctly ck (q, a) = true
             <-> (exists s, OMRProcessor.assigned_subject cfg ck q = Py.Ok (Some s))
                 /\ exists letter k, a = OMRProcessor.ALetter letter /\ Py.get ck q = Some k
                                     /\ Py.upper letter = Py.upper k))
  /\ (forall cfg ck st q a st',
         OMRProcessor.score_question cfg ck st (q, a) = Py.Ok st' ->
         (scored cfg ck (q, a) && answered_correctly ck (q, a) = true
          /\ exists subject sc b,
               OMRProcessor.assigned_subject cfg ck q = Py.Ok (Some subject)
               /\ Py.get (OMRProcessor.st_subject_scores st) subject = Some sc
               /\ Py.get (OMRProcessor.st_subject_breakdown st) subject = Some b
               /\ OMRProcessor.st_subject_scores st'
                  = Py.set (OMRProcessor.st_subject_scores st) subject
                      (Py.add sc (Py.NInt 1))
               /\ option_map OMRProcessor.correct
                    (Py.get (OMRProcessor.st_subject_breakdown st') subject)
                  = Some (OMRProcessor.correct b + 1)
               /\ (forall s, s <> subject ->
                             Py.get (OMRProcessor.st_subject_breakdown st') s
                             = Py.get (OMRProcessor.st_subject_breakdown st) s)
               /\ OMRProcessor.st_total_correct st' = OMRProcessor.st_total_correct st + 1)
         \/ (scored cfg ck (q, a) && answered_correctly ck (q, a) = false
             /\ OMRProcessor.st_subject_scores st' = OMRProcessor.st_subject_scores st
             /\ (forall s, option_map OMRProcessor.correct
                             (Py.get (OMRProcessor.st_subject_breakdown st') s)
                           = option_map OMRProcessor.correct
                               (Py.get (OMRProcessor.st_subject_breakdown st) s))
             /\ OMRProcessor.st_total_correct st' = OMRProcessor.st_total_correct st))
  /\ (forall cfg sa ck r,
         OMRProcessor.calculate_subject_scores cfg sa ck = Py.Ok r ->
         OMRProcessor.correct_answers r
         = Z.of_nat (List.length
                       (filter (fun item => scored cfg ck item && answered_correctly ck item)
                               sa))
         /\ OMRProcessor.total_score r = Py.sum (Py.values (OMRProcessor.subject_scores r))
         /\ forall s, In s (OMRProcessor.cfg_subjects cfg) ->
              exists b,
                Py.get (OMRProcessor.subject_breakdown r) s = Some b
                /\ OMRProcessor.correct b
                   = Z.of_nat (List.length (filter (OMRProcessor.credited cfg ck s) sa))
                /\ Py.get (OMRProcessor.subject_scores r) s
                   = Some (if 0 <? OMRProcessor.cfg_questions_per_subject cfg
                           then Py.NFloat (on_20_point_scale cfg (OMRProcessor.correct b))
                           else Py.NInt (OMRProcessor.correct b))).
Proof.
  split; [exact is_correct_iff|].
  split; [reflexivity|].
  split; [reflexivity|].
  split.
  { intros cfg ck st q a st' H.
    destruct (score_question_total_correct _ _ _ _ _ _ H)
      as [(Hc & Hq & k & Hk & Hm)|(Hc & Hn)].
    - split; [|now right]. split; [intros _|intros _; exact Hc].
      split; [exact Hq|].
      apply is_correct_iff in Hm. destruct Hm as (s & -> & Hu). now exists s, k.
    - split; [|now left]. split; [lia|].
      intros (Hq & s & k & -> & Hk & Hu).
      specialize (Hn k Hk Hq).
      assert (Hm : OMRProcessor.is_correct (OMRProcessor.ALetter s) k = true)
        by (apply is_correct_iff; now exists s).
      congruence. }
  split.
  { intros cfg ck subject q a. split; [apply credited_iff|apply counted_correct_iff]. }
  split; [intros cfg ck st q a st'; apply score_question_credit|].
  intros cfg sa ck r Hr.
  split; [exact (proj2 (scorer_counters cfg ck sa r Hr))|].
  destruct (scorer_credit cfg ck sa r Hr) as (Hsum & Hget).
  split; [exact Hsum|].
  intros s Hs. destruct (Hget s Hs) as (b & Hb & Hc & Hsc).
  exists b. split; [exact Hb|]. split; [exact Hc|]. now rewrite Hc.
Qed.

(** C1, on a sheet of three questions of the first subject: a lower-case
    letter that matches the key, no answer, and two letters. Only the first
    earns a point. *)
Lemma C1_witness :
  exists r b,
    OMRProcessor.calculate_subject_scores OMRProcessor.default_config
      [("Q1", OMRProcessor.ALetter "b"); ("Q2", OMRProcessor.ANone);
       ("Q3", OMRProcessor.AMulti ["A"; "C"])]
      [("Q1", "B"); ("Q2", "A"); ("Q3", "A")] = Py.Ok r
    /\ OMRProcessor.correct_answers r = 1
    /\ Py.get (OMRProcessor.subject_breakdown r) "Mathematics" = Some b
    /\ OMRProcessor.correct b = 1
    /\ Py.get (OMRProcessor.subject_scores r) "Mathematics" = Some (Py.NFloat 1%float)
    /\ OMRProcessor.total_score r = Py.NFloat 1%float.
Proof.
  assert (E : exists r,
             OMRProcessor.calculate_subject_scores OMRProcessor.default_config
               [("Q1", OMRProcessor.ALetter "b"); ("Q2", OMRProcessor.ANone);
                ("Q3", OMRProcessor.AMulti ["A"; "C"])]
               [("Q1", "B"); ("Q2", "A"); ("Q3", "A")] = Py.Ok r)
    by (eexists; vm_compute; reflexivity).
  destruct E as (r & E).
  destruct (proj2 (proj2 (proj2 (proj2 (proj2 (proj2
              C1_correct_iff_single_letter_match))))) _ _ _ r E) as (Hc & Hsum & Hget).
  destruct (Hget "Mathematics") as (b & Hb & Hcb & Hsc); [now left|].
  assert (Hb1 : OMRProcessor.correct b = 1) by (rewrite Hcb; reflexivity).
  exists r, b. split; [exact E|]. split; [rewrite Hc; reflexivity|].
  split; [exact Hb|]. split; [exact Hb1|]. split.
  - rewrite Hsc, Hb1. vm_compute. reflexivity.
  - vm_compute in E. injection E as <-. reflexivity.
Defined.

(** ** Counting over a sheet whose question numbers are known *)

Section Counting.

Lemma filter_length_perm {A} (f : A -> bool) (l l' : list A) :
  Permutation l l' -> List.length (filter f l) = List.length (filter f l').
Proof.
  induction 1 as [|x l l' _ IH|x y l|l l' l'' _ IH1 _ IH2]; simpl.
  - reflexivity.
  - destruct (f x); simpl; now rewrite IH.
  - destruct (f x), (f y); reflexivity.
  - now rewrite IH1.
Qed.

Lemma filter_length_map {A B} (g : B -> bool) (f : A -> B) (l : list A) :
  List.length (filter g (map f l)) = List.length (filter (fun a => g (f a)) l).
Proof.
  induction l as [|a l IH]; simpl; [reflexivity|].
  destruct (g (f a)); simpl; now rewrite IH.
Qed.

Lemma filter_length_ext_in {A} (f g : A -> bool) (l : list A) :
  (forall a, In a l -> f a = g a) ->
  List.length (filter f l) = List.length (filter g l).
Proof. intro H. now rewrite (filter_ext_in f g l H). Qed.

Lemma in_range a b z : In z (Py.range a b) <-> a <= z < b.
Proof.
  unfold Py.range. rewrite in_map_iff. split.
  - intros (j & <- & Hj). apply in_seq in Hj. lia.
  - intro H. exists (Z.to_nat (z - a)). split; [lia|]. apply in_seq. lia.
Qed.

Lemma forallb_range (f : Z -> bool) a b :
  forallb f (Py.range a b) = true -> forall z, a <= z < b -> f z = true.
Proof.
  intros H z Hz. rewrite forallb_forall in H. apply H. now apply in_range.
Qed.

End Counting.

Section FullMarks.

Import OMRProcessor.

Variable ck : Py.dict string.
Variable sa : Py.dict answer.

(** The question numbers of the sheet are 1 to 100, each once. *)
Hypothesis Hnumbers :
  Permutation (map (fun item => question_number (fst item)) sa) (map Some (Py.range 1 101)).

(** Every answer is correct. *)
Hypothesis Hcorrect :
  Forall (fun item => exists k, Py.get ck (fst item) = Some k /\ is_correct (snd item) k = true)
         sa.

Lemma item_number item :
  In item sa -> exists n, question_number (fst item) = Some n /\ 1 <= n < 101.
Proof.
  intro Hin.
  assert (H : In (question_number (fst item)) (map Some (Py.range 1 101))).
  { eapply Permutation_in; [exact Hnumbers|].
    apply (in_map (fun item => question_number (fst item))). exact Hin. }
  apply in_map_iff in H. destruct H as (n & Hn & Hr).
  exists n. split; [now symmetry|now apply in_range].
Qed.

Lemma item_assigned item n :
  In item sa -> question_number (fst item) = Some n ->
  assigned_subject default_config ck (fst item) = subject_of_number default_config n.
Proof.
  intros Hin Hn. pose proof (proj1 (Forall_forall _ _) Hcorrect) as Hall.
  destruct (Hall item Hin) as (k & Hk & _).
  unfold assigned_subject, Py.contains, Py.int. rewrite Hk. simpl.
  unfold question_number in Hn. now rewrite Hn.
Qed.

Lemma subject_of_number_1_100 :
  forall n, 1 <= n < 101 ->
    Py.is_ok (subject_of_number default_config n) = true.
Proof. apply forallb_range. vm_compute. reflexivity. Qed.

Lemma full_marks_assigned :
  Forall (fun item => exists o, assigned_subject default_config ck (fst item) = Py.Ok o) sa.
Proof.
  apply Forall_forall. intros item Hin.
  destruct (item_number item Hin) as (n & Hn & Hr).
  rewrite (item_assigned item n Hin Hn).
  pose proof (subject_of_number_1_100 n Hr) as H.
  destruct (subject_of_number default_config n) as [o|]; [now exists o|discriminate].
Qed.

Lemma full_marks_count subject :
  correct_count default_config ck subject sa
  = Z.of_nat (List.length (filter (numbered_in subject) (map Some (Py.range 1 101)))).
Proof.
  unfold correct_count. f_equal.
  rewrite <- (filter_length_perm _ _ _ Hnumbers), filter_length_map.
  apply filter_length_ext_in. intros item Hin.
  destruct (item_number item Hin) as (n & Hn & Hr).
  pose proof (proj1 (Forall_forall _ _) Hcorrect) as Hall.
  destruct (Hall item Hin) as (k & Hk & Hc).
  unfold credited. rewrite (item_assigned item n Hin Hn), Hk, Hc, Hn. simpl.
  destruct (subject_of_number default_config n) as [[s|]|]; try reflexivity.
  now rewrite andb_true_r.
Qed.

Lemma full_marks_total :
  exists r, calculate_subject_scores default_config sa ck = Py.Ok r
            /\ total_score r = Py.NFloat 100%float.
Proof.
  assert (Hk : 0 < cfg_questions_per_subject default_config) by reflexivity.
  destruct (calculate_subject_scores_returns default_config ck sa Hk full_marks_assigned)
    as (r & Hr).
  exists r. split; [exact Hr|].
  destruct (calculate_subject_scores_spec default_config ck sa Hk r Hr) as (Hkeys & -> & Hget).
  assert (Hd : subject_scores r
               = map (fun s => (s, Py.NFloat 20%float)) (cfg_subjects default_config)).
  { apply dict_ext.
    - unfold Py.wf. fold (Py.keys (subject_scores r)). rewrite Hkeys. vm_compute.
      repeat constructor; simpl; intuition discriminate.
    - rewrite Hkeys. reflexivity.
    - rewrite Hkeys. intros s Hs.
      assert (Hs' : In s (cfg_subjects default_config)) by exact Hs.
      destruct (Hget s Hs') as (_ & ->). rewrite full_marks_count.
      simpl in Hs'. destruct Hs' as [<-|[<-|[<-|[<-|[<-|[]]]]]]; vm_compute; reflexivity. }
  rewrite Hd. vm_compute. reflexivity.
Qed.

End FullMarks.


(** C2. For every sheet the scorer returns on (with a positive number of
    questions per subject), each subject's score is its number of correct
    answers divided by the subject total, times 20, and the total score is
    the sum of the subject scores; a sheet whose questions are numbered 1 to
    100 and all answered correctly gets, under the default configuration, the
    total score 100. *)
Theorem C2_scores_scaled_and_summed :
  (forall cfg sa ck r,
      0 < OMRProcessor.cfg_questions_per_subject cfg ->
      OMRProcessor.calculate_subject_scores cfg sa ck = Py.Ok r ->
      (forall s, In s (OMRProcessor.cfg_subjects cfg) ->
         exists b ratio,
           Py.get (OMRProcessor.subject_breakdown r) s = Some b
           /\ OMRProcessor.correct b = OMRProcessor.correct_count cfg ck s sa
           /\ OMRProcessor.total b = OMRProcessor.cfg_questions_per_subject cfg
           /\ Py.truediv (OMRProcessor.correct b) (OMRProcessor.total b) = Py.Ok ratio
           /\ Py.get (OMRProcessor.subject_scores r) s
              = Some (Py.NFloat (PrimFloat.mul ratio 20%float)))
      /\ OMRProcessor.total_score r
         = Py.sum (Py.values (OMRProcessor.subject_scores r)))
  /\ (forall sa ck,
         Permutation (map (fun item => OMRProcessor.question_number (fst item)) sa)
                     (map Some (Py.range 1 101)) ->
         Forall (fun item => exists k, Py.get ck (fst item) = Some k
                                       /\ OMRProcessor.is_correct (snd item) k = true) sa ->
         exists r,
           OMRProcessor.calculate_subject_scores OMRProcessor.default_config sa ck = Py.Ok r
           /\ OMRProcessor.total_score r = Py.NFloat 100%float).
Proof.
  split.
  - intros cfg sa ck r Hk Hr.
    destruct (calculate_subject_scores_spec cfg ck sa Hk r Hr) as (_ & Hsum & Hget).
    split; [|exact Hsum].
    intros s Hs. destruct (Hget s Hs) as ((b & Hb & Hc & Ht) & Hsc).
    exists b. eexists. split; [exact Hb|]. split; [exact Hc|]. split; [exact Ht|].
    split.
    + unfold Py.truediv. rewrite Ht.
      destruct (Z.eqb_spec (OMRProcessor.cfg_questions_per_subject cfg) 0) as [E|_]; [lia|].
      reflexivity.
    + rewrite Hsc, Hc. reflexivity.
  - intros sa ck Hp Hc. now apply full_marks_total.
Qed.

Lemma all_correct_check (ck : Py.dict string) (sa : Py.dict OMRProcessor.answer) :
  forallb (fun item =>
             match Py.get ck (fst item) with
             | Some k => OMRProcessor.is_correct (snd item) k
             | None => false
             end) sa = true ->
  Forall (fun item => exists k, Py.get ck (fst item) = Some k
                                /\ OMRProcessor.is_correct (snd item) k = true) sa.
Proof.
  intro H. apply Forall_forall. intros item Hin.
  rewrite forallb_forall in H. specialize (H item Hin).
  destruct (Py.get ck (fst item)) as [k|]; [now exists k|discriminate].
Qed.

(** C2, on the self-test's answer key and a sheet that gets every answer
    right: five subjects at 20 points, 100 in total. *)
Lemma C2_witness :
  exists r,
    OMRProcessor.calculate_subject_scores OMRProcessor.default_config
      Samples.full_marks_sheet Samples.sample_answer_key = Py.Ok r
    /\ OMRProcessor.total_score r = Py.NFloat 100%float
    /\ Py.get (OMRProcessor.subject_scores r) "Physics" = Some (Py.NFloat 20%float).
Proof.
  destruct (proj2 C2_scores_scaled_and_summed
              Samples.full_marks_sheet Samples.sample_answer_key)
    as (r & Hr & Ht).
  - vm_compute. apply Permutation_refl.
  - apply all_correct_check. vm_compute. reflexivity.
  - exists r. split; [exact Hr|]. split; [exact Ht|].
    assert (Hk : 0 < OMRProcessor.cfg_questions_per_subject OMRProcessor.default_config)
      by reflexivity.
    destruct (proj1 (proj1 C2_scores_scaled_and_summed _ _ _ r Hk Hr) "Physics")
      as (b & ratio & Hb & Hc & Htot & Hdiv & Hs).
    + simpl. auto.
    + rewrite Hs. f_equal. f_equal.
      assert (E : OMRProcessor.calculate_subject_scores OMRProcessor.default_config
                    Samples.full_marks_sheet Samples.sample_answer_key
                  = Py.Ok r) by exact Hr.
      vm_compute in E. inversion E; subst r. clear E.
      vm_compute in Hb. inversion Hb; subst b. clear Hb.
      vm_compute in Hdiv. inversion Hdiv; subst ratio. vm_compute. reflexivity.
Defined.

(** ** Question numbers and subjects *)

Section SubjectRanges.

Import OMRProcessor.

Variable cfg : subject_config.
Hypothesis Hk : 0 < cfg_questions_per_subject cfg.

Lemma list_get_nonneg {A} (l : list A) i :
  0 <= i < Z.of_nat (List.length l) ->
  exists a, Py.list_get l i = Py.Ok a /\ nth_error l (Z.to_nat i) = Some a.
Proof.
  intro H. unfold Py.list_get.
  destruct (Z.ltb_spec i 0); [lia|].
  destruct (Z.ltb_spec i 0); [lia|].
  destruct (Z.leb_spec (Z.of_nat (List.length l)) i); [lia|]. simpl.
  destruct (nth_error l (Z.to_nat i)) as [a|] eqn:E; [now exists a|].
  apply nth_error_None in E. lia.
Qed.

Lemma list_get_negative {A} (l : list A) i :
  - Z.of_nat (List.length l) <= i < 0 ->
  exists a, Py.list_get l i = Py.Ok a
            /\ nth_error l (Z.to_nat (i + Z.of_nat (List.length l))) = Some a.
Proof.
  intro H. unfold Py.list_get.
  destruct (Z.ltb_spec i 0); [|lia].
  destruct (Z.ltb_spec (i + Z.of_nat (List.length l)) 0); [lia|].
  destruct (Z.leb_spec (Z.of_nat (List.length l)) (i + Z.of_nat (List.length l))); [lia|].
  simpl.
  destruct (nth_error l _) as [a|] eqn:E; [now exists a|].
  apply nth_error_None in E. lia.
Qed.

(** For a question number from 1 on, the subject is the one at position
    [(n - 1) // k], and there is none past the last subject. *)
Lemma subject_of_number_positive n :
  1 <= n ->
  subject_of_number cfg n
  = Py.Ok (nth_error (cfg_subjects cfg) (Z.to_nat ((n - 1) / cfg_questions_per_subject cfg))).
Proof.
  intro Hn. unfold subject_of_number, floordiv.
  destruct (Z.eqb_spec (cfg_questions_per_subject cfg) 0); [lia|]. simpl.
  assert (Hi : 0 <= (n - 1) / cfg_questions_per_subject cfg)
    by (apply Z.div_pos; lia).
  destruct (Z.leb_spec (Z.of_nat (List.length (cfg_subjects cfg)))
                       ((n - 1) / cfg_questions_per_subject cfg)) as [Hge|Hlt].
  - symmetry. f_equal. apply nth_error_None. lia.
  - destruct (list_get_nonneg (cfg_subjects cfg) _ (conj Hi Hlt)) as (a & -> & ->).
    reflexivity.
Qed.

(** Position [i] of the subject list owns the question numbers
    [i*k + 1 .. (i+1)*k], among the numbers from 1 on. *)
Lemma subject_ranges n s :
  1 <= n ->
  (subject_of_number cfg n = Py.Ok (Some s)
   <-> exists i, nth_error (cfg_subjects cfg) i = Some s
                 /\ Z.of_nat i * cfg_questions_per_subject cfg + 1 <= n
                    <= (Z.of_nat i + 1) * cfg_questions_per_subject cfg).
Proof.
  intro Hn. rewrite (subject_of_number_positive n Hn).
  set (k := cfg_questions_per_subject cfg) in *.
  assert (Hi : 0 <= (n - 1) / k) by (apply Z.div_pos; lia).
  pose proof (Z.div_mod (n - 1) k ltac:(lia)) as Hdm.
  pose proof (Z.mod_pos_bound (n - 1) k Hk) as Hmod.
  split.
  - intros [= H]. exists (Z.to_nat ((n - 1) / k)). split; [exact H|].
    rewrite Z2Nat.id by assumption. nia.
  - intros (i & Hs & Hlo & Hhi).
    assert (E : (n - 1) / k = Z.of_nat i).
    { symmetry. apply (Z.div_unique_pos (n - 1) k (Z.of_nat i) (n - 1 - Z.of_nat i * k)); lia. }
    rewrite E, Nat2Z.id. now rewrite Hs.
Qed.

(** A question number past the last subject is skipped. *)
Lemma subject_of_number_beyond n :
  Z.of_nat (List.length (cfg_subjects cfg)) * cfg_questions_per_subject cfg < n ->
  subject_of_number cfg n = Py.Ok None.
Proof.
  intro Hn.
  assert (H1 : 1 <= n) by nia.
  rewrite (subject_of_number_positive n H1). f_equal.
  apply nth_error_None.
  assert (Z.of_nat (List.length (cfg_subjects cfg)) <= (n - 1) / cfg_questions_per_subject cfg).
  { apply Z.div_le_lower_bound; lia. }
  lia.
Qed.

(** The subject lookup returns for every number above
    [- len(subjects) * k]. *)
Lemma subject_of_number_returns n :
  - Z.of_nat (List.length (cfg_subjects cfg)) * cfg_questions_per_subject cfg < n ->
  exists o, subject_of_number cfg n = Py.Ok o.
Proof.
  intro Hn. unfold subject_of_number, floordiv.
  destruct (Z.eqb_spec (cfg_questions_per_subject cfg) 0); [lia|]. simpl.
  destruct (Z.leb_spec (Z.of_nat (List.length (cfg_subjects cfg)))
                       ((n - 1) / cfg_questions_per_subject cfg)) as [Hge|Hlt];
    [now eexists|].
  assert (Hlo : - Z.of_nat (List.length (cfg_subjects cfg))
                <= (n - 1) / cfg_questions_per_subject cfg).
  { apply Z.div_le_lower_bound; lia. }
  destruct (Z.ltb_spec ((n - 1) / cfg_questions_per_subject cfg) 0) as [Hneg|Hpos].
  - destruct (list_get_negative (cfg_subjects cfg) _ (conj Hlo Hneg)) as (a & -> & _).
    now eexists.
  - destruct (list_get_nonneg (cfg_subjects cfg) _ (conj Hpos Hlt)) as (a & -> & _).
    now eexists.
Qed.

(** The scorer returns on every sheet whose keys shared with the answer
    key carry a number above [- len(subjects) * k], in particular a number
    from 1 on. *)
Lemma scorer_returns_on_numbered_keys sa ck :
  (forall item, In item sa -> Py.contains ck (fst item) = true ->
     exists n, question_number (fst item) = Some n
               /\ - Z.of_nat (List.length (cfg_subjects cfg)) * cfg_questions_per_subject cfg < n) ->
  exists r, calculate_subject_scores cfg sa ck = Py.Ok r.
Proof.
  intro H. apply calculate_subject_scores_returns; [exact Hk|].
  apply Forall_forall. intros item Hin. unfold assigned_subject.
  destruct (Py.contains ck (fst item)) eqn:Hc; simpl; [|now eexists].
  destruct (H item Hin Hc) as (n & Hn & Hlo).
  unfold question_number in Hn. unfold Py.int. rewrite Hn. simpl.
  now apply subject_of_number_returns.
Qed.

End SubjectRanges.

(** C6, the failing input. Question number 0 lies outside every subject's
    range, yet the scorer counts it for the last subject: the index
    [(0 - 1) // 20 = -1] passes the test of line 93 and selects
    [subjects[-1]]. *)
Theorem C6_question_zero_scored_for_last_subject :
  OMRProcessor.question_number "Q0" = Some 0
  /\ OMRProcessor.assigned_subject OMRProcessor.default_config [("Q0", "A")] "Q0"
     = Py.Ok (Some "English")
  /\ exists r,
       OMRProcessor.calculate_subject_scores OMRProcessor.default_config
         [("Q0", OMRProcessor.ALetter "A")] [("Q0", "A")] = Py.Ok r
       /\ Py.get (OMRProcessor.subject_scores r) "English" = Some (Py.NFloat 1%float)
       /\ OMRProcessor.total_score r = Py.NFloat 1%float
       /\ OMRProcessor.total_questions r = 1.
Proof.
  split; [reflexivity|]. split; [reflexivity|].
  eexists. split; [vm_compute; reflexivity|]. repeat split.
Qed.

(** C9, the failing input. The shared key ["-101"] parses as the decimal
    integer -101, and the scorer raises [IndexError]: the index
    [(-101 - 1) // 20 = -6] passes the test of line 93 and [subjects[-6]]
    is out of range. *)
Theorem C9_negative_number_raises_index_error :
  OMRProcessor.question_number "-101" = Some (-101)
  /\ OMRProcessor.calculate_subject_scores OMRProcessor.default_config
       [("-101", OMRProcessor.ALetter "A")] [("-101", "A")]
     = Py.Raise Py.IndexError.
Proof. split; reflexivity. Qed.

(** Keys that carry no number make the scorer raise [ValueError]. *)
Lemma scorer_raises_value_error :
  OMRProcessor.calculate_subject_scores OMRProcessor.default_config
    [("q1", OMRProcessor.ALetter "A")] [("q1", "A")]
  = Py.Raise (Py.ValueError "invalid literal for int() with base 10: 'q1'")
  /\ OMRProcessor.calculate_subject_scores OMRProcessor.default_config
       [("1a", OMRProcessor.ALetter "A")] [("1a", "A")]
     = Py.Raise (Py.ValueError "invalid literal for int() with base 10: '1a'").
Proof. split; reflexivity. Qed.

(** ** Comparisons of binary64 numbers *)

Section FloatOrder.

Lemma SF_lt_le_trans (a b c : spec_float) :
  SFltb a b = true -> SFleb b c = true -> SFltb a c = true.
Proof.
  unfold SFltb, SFleb, SFcompare.
  destruct a as [sa|sa| |sa ma ea], b as [sb|sb| |sb mb eb], c as [sc|sc| |sc mc ec];
    try destruct sa; try destruct sb; try destruct sc; simpl;
    try congruence;
    repeat match goal with
      | |- context [Z.compare ?x ?y] => destruct (Z.compare_spec x y)
      | |- context [Pos.compare_cont Eq ?x ?y] =>
          change (Pos.compare_cont Eq x y) with (Pos.compare x y);
          destruct (Pos.compare_spec x y)
      end; simpl; try congruence; try lia.
Qed.

(** [x < y] and [y <= z] give [x < z], also with infinities and NaN. *)
Lemma float_lt_le_trans (x y z : float) :
  PrimFloat.ltb x y = true -> PrimFloat.leb y z = true -> PrimFloat.ltb x z = true.
Proof. rewrite !FloatAxioms.ltb_spec, FloatAxioms.leb_spec. apply SF_lt_le_trans. Qed.

End FloatOrder.

(** ** [identify_flagged_questions] *)

Section Flagging.

Import OMRProcessor Utils.

Lemma dedup_in l x : In x (dedup l) <-> In x l.
Proof.
  induction l as [|a l IH]; simpl; [tauto|].
  rewrite filter_In, IH.
  destruct (String.eqb_spec a x) as [->|Hne]; simpl; [tauto|].
  split; [intros [H|[H _]]; tauto|intros [H|H]; [tauto|right; split; [exact H|reflexivity]]].
Qed.

Lemma dedup_nodup l : NoDup (dedup l).
Proof.
  induction l as [|a l IH]; simpl; constructor.
  - rewrite filter_In. intros [_ H]. now rewrite String.eqb_refl in H.
  - now apply NoDup_filter.
Qed.

Lemma dedup_length_incl l l' :
  incl l l' -> (List.length (dedup l) <= List.length (dedup l'))%nat.
Proof.
  intro H. apply NoDup_incl_length; [apply dedup_nodup|].
  intros x Hx. apply dedup_in. apply H. exact (proj1 (dedup_in _ _) Hx).
Qed.

Lemma int_keys_ok l :
  Forall (fun x => Py.int_opt x <> None) l ->
  exists ks, int_keys l = Py.Ok ks /\ List.length ks = List.length l.
Proof.
  induction 1 as [|x l Hx _ (ks & IH & Hlen)]; simpl; [now exists []|].
  unfold Py.int. destruct (Py.int_opt x) as [k|]; [|contradiction]. simpl.
  rewrite IH. simpl. eexists. split; [reflexivity|]. simpl. now rewrite Hlen.
Qed.

Lemma int_keys_parsed l ks :
  int_keys l = Py.Ok ks -> Forall (fun x => Py.int_opt x <> None) l.
Proof.
  revert ks. induction l as [|x l IH]; intros ks; simpl; [constructor|].
  unfold Py.int. destruct (Py.int_opt x) as [k|] eqn:E; simpl; [|discriminate].
  destruct (int_keys l) as [ks'|]; simpl; [|discriminate].
  intros _. constructor; [congruence|]. eapply IH. reflexivity.
Qed.

Lemma insert_by_key_length a l :
  List.length (insert_by_key a l) = S (List.length l).
Proof.
  induction l as [|b l IH]; simpl; [reflexivity|].
  destruct (fst b <? fst a); simpl; [now rewrite IH|reflexivity].
Qed.

Lemma sorted_by_int_length l r :
  sorted_by_int l = Py.Ok r -> List.length r = List.length l.
Proof.
  unfold sorted_by_int. destruct (int_keys l) as [ks|] eqn:E; simpl; [|discriminate].
  intros [= <-]. rewrite length_map.
  apply int_keys_parsed in E as Hp. destruct (int_keys_ok l Hp) as (ks' & E' & Hlen).
  rewrite E in E'. inversion E'; subst ks'. rewrite <- Hlen. clear.
  induction ks as [|a ks IH]; simpl; [reflexivity|]. now rewrite insert_by_key_length, IH.
Qed.

Lemma sorted_by_int_ok l :
  Forall (fun x => Py.int_opt x <> None) l -> exists r, sorted_by_int l = Py.Ok r.
Proof.
  intro H. destruct (int_keys_ok l H) as (ks & E & _).
  unfold sorted_by_int. rewrite E. simpl. now eexists.
Qed.

Lemma sorted_by_int_parsed l r :
  sorted_by_int l = Py.Ok r -> Forall (fun x => Py.int_opt x <> None) l.
Proof.
  unfold sorted_by_int. destruct (int_keys l) as [ks|] eqn:E; simpl; [|discriminate].
  intros _. eapply int_keys_parsed; eauto.
Qed.

(** A lower threshold flags a part of what a higher one flags. *)
Lemma low_confidence_incl cs t1 t2 :
  PrimFloat.leb t1 t2 = true ->
  incl (low_confidence cs t1) (low_confidence cs t2).
Proof.
  intros Hle q. unfold low_confidence. rewrite !in_map_iff.
  intros (item & Hq & Hin). exists item. split; [exact Hq|].
  apply filter_In in Hin. destruct Hin as (Hin & Hlt).
  apply filter_In. split; [exact Hin|]. eapply float_lt_le_trans; eauto.
Qed.

Lemma unanswered_parsed sa :
  Forall (fun x => Py.int_opt x <> None) (unanswered sa).
Proof.
  apply Forall_forall. intros x Hx. unfold unanswered in Hx.
  apply filter_In in Hx. destruct Hx as (Hx & _).
  assert (H : forallb (fun x => match Py.int_opt x with Some _ => true | None => false end)
                (map Py.str (Py.range 1 101)) = true) by (vm_compute; reflexivity).
  rewrite forallb_forall in H. specialize (H x Hx).
  destruct (Py.int_opt x); [discriminate|discriminate H].
Qed.

End Flagging.

(** C7. For a fixed answer map and confidence map and thresholds
    [t1 <= t2]: whenever the call at [t2] returns, the call at [t1] returns
    too and flags at most as many questions; and both calls return when every
    key of the confidence map is an integer literal. *)
Theorem C7_flagged_count_monotone :
  forall (sa : Py.dict OMRProcessor.answer) (cs : Py.dict float) (t1 t2 : float),
    PrimFloat.leb t1 t2 = true ->
    (forall l2,
        Utils.identify_flagged_questions sa cs t2 = Py.Ok l2 ->
        exists l1, Utils.identify_flagged_questions sa cs t1 = Py.Ok l1
                   /\ (List.length l1 <= List.length l2)%nat)
    /\ (Forall (fun q => Py.int_opt q <> None) (Py.keys cs) ->
        exists l1 l2,
          Utils.identify_flagged_questions sa cs t1 = Py.Ok l1
          /\ Utils.identify_flagged_questions sa cs t2 = Py.Ok l2
          /\ (List.length l1 <= List.length l2)%nat).
Proof.
  intros sa cs t1 t2 Hle.
  assert (Hincl : incl (Utils.low_confidence cs t1 ++ Utils.unanswered sa)
                       (Utils.low_confidence cs t2 ++ Utils.unanswered sa)).
  { apply incl_app; [apply incl_appl; now apply low_confidence_incl|apply incl_appr, incl_refl]. }
  assert (Hstep : forall l2,
             Utils.identify_flagged_questions sa cs t2 = Py.Ok l2 ->
             exists l1, Utils.identify_flagged_questions sa cs t1 = Py.Ok l1
                        /\ (List.length l1 <= List.length l2)%nat).
  { intros l2 H2. unfold Utils.identify_flagged_questions in *.
    pose proof (sorted_by_int_parsed _ _ H2) as Hp.
    destruct (sorted_by_int_ok
                (Utils.dedup (Utils.low_confidence cs t1 ++ Utils.unanswered sa)))
      as (l1 & H1).
    { rewrite Forall_forall in Hp |- *. intros x Hx. apply Hp.
      apply dedup_in. apply Hincl. exact (proj1 (dedup_in _ _) Hx). }
    exists l1. split; [exact H1|].
    rewrite (sorted_by_int_length _ _ H1), (sorted_by_int_length _ _ H2).
    now apply dedup_length_incl. }
  split; [exact Hstep|].
  intro Hkeys.
  destruct (sorted_by_int_ok
              (Utils.dedup (Utils.low_confidence cs t2 ++ Utils.unanswered sa)))
    as (l2 & H2).
  { apply Forall_forall. intros x Hx. apply (proj1 (dedup_in _ _)) in Hx.
    apply in_app_or in Hx.
    destruct Hx as [Hx|Hx].
    - unfold Utils.low_confidence in Hx. apply in_map_iff in Hx.
      destruct Hx as (item & <- & Hin). apply filter_In in Hin. destruct Hin as (Hin & _).
      rewrite Forall_forall in Hkeys. apply Hkeys. unfold Py.keys. now apply in_map.
    - pose proof (unanswered_parsed sa) as Hu. rewrite Forall_forall in Hu. now apply Hu. }
  destruct (Hstep l2 H2) as (l1 & H1 & Hlen).
  exists l1, l2. repeat split; assumption.
Qed.

(** C7, on a sheet with all 100 answers and two confidences: nothing is
    flagged at threshold 0.5, two questions at 0.75. *)
Lemma C7_witness :
  exists l1 l2,
    Utils.identify_flagged_questions
      (map (fun i => (Py.str i, OMRProcessor.ALetter "A")) (Py.range 1 101))
      [("5", 0.5%float); ("7", 0.625%float)] 0.5%float = Py.Ok l1
    /\ Utils.identify_flagged_questions
         (map (fun i => (Py.str i, OMRProcessor.ALetter "A")) (Py.range 1 101))
         [("5", 0.5%float); ("7", 0.625%float)] 0.75%float = Py.Ok l2
    /\ (List.length l1 <= List.length l2)%nat
    /\ l1 = [] /\ l2 = ["5"; "7"].
Proof.
  destruct (proj2 (C7_flagged_count_monotone
                     (map (fun i => (Py.str i, OMRProcessor.ALetter "A")) (Py.range 1 101))
                     [("5", 0.5%float); ("7", 0.625%float)] 0.5%float 0.75%float eq_refl))
    as (l1 & l2 & H1 & H2 & Hlen).
  - repeat constructor; discriminate.
  - exists l1, l2. split; [exact H1|]. split; [exact H2|]. split; [exact Hlen|].
    vm_compute in H1, H2. inversion H1. inversion H2. split; reflexivity.
Defined.

(** ** Integer literals: [int(str(z)) = z] *)

Section IntStr.

Lemma string_of_uint_digits d : digits_only (NilEmpty.string_of_uint d).
Proof. induction d; simpl; auto. Qed.

Lemma digit_not_space c : Py.is_digit c = true -> Py.is_space c = false.
Proof.
  unfold Py.is_digit, Py.is_space. intro H.
  apply andb_true_iff in H. destruct H as (H1 & H2).
  apply Nat.leb_le in H1. apply Nat.leb_le in H2.
  apply orb_false_iff. split.
  - apply andb_false_iff. right. apply Nat.leb_gt. lia.
  - apply Nat.eqb_neq. lia.
Qed.

Lemma rstrip_digits s : digits_only s -> Py.rstrip s = s.
Proof.
  induction s as [|c r IH]; simpl; [reflexivity|].
  intros (Hc & Hr). rewrite (IH Hr).
  destruct r; [now rewrite (digit_not_space c Hc)|reflexivity].
Qed.

Lemma strip_digits c r : digits_only (String c r) -> Py.strip (String c r) = String c r.
Proof.
  intro H. unfold Py.strip. simpl Py.lstrip.
  destruct H as (Hc & Hr). rewrite (digit_not_space c Hc).
  apply rstrip_digits. now split.
Qed.

Lemma digit_groups_digits s b : digits_only s -> (b = true \/ s <> EmptyString) ->
  Py.digit_groups b s = Some s.
Proof.
  revert b. induction s as [|c r IH]; intros b; simpl.
  - intros _ [->|H]; [reflexivity|contradiction].
  - intros (Hc & Hr) _. rewrite Hc. rewrite (IH true Hr (or_introl eq_refl)). reflexivity.
Qed.

Lemma int_unsigned_digits d :
  d <> Decimal.Nil ->
  Py.int_unsigned (NilEmpty.string_of_uint d) = Some (Z.of_uint d).
Proof.
  intro Hd. unfold Py.int_unsigned.
  rewrite digit_groups_digits.
  - now rewrite NilEmpty.usu.
  - apply string_of_uint_digits.
  - right. destruct d; simpl; congruence.
Qed.

Lemma int_opt_digits c r :
  digits_only (String c r) -> Py.int_opt (String c r) = Py.int_unsigned (String c r).
Proof.
  intro H. unfold Py.int_opt. rewrite (strip_digits c r H).
  destruct H as (Hc & _).
  destruct c as [[] [] [] [] [] [] [] []]; try discriminate Hc; reflexivity.
Qed.

Lemma str_pos p : Py.str (Z.pos p) = NilEmpty.string_of_uint (Pos.to_uint p).
Proof.
  unfold Py.str, NilZero.string_of_int, NilZero.string_of_uint. simpl.
  pose proof (DecimalPos.Unsigned.to_uint_nonnil p) as H.
  destruct (Pos.to_uint p); [contradiction|reflexivity..].
Qed.

Lemma int_opt_str_pos p : Py.int_opt (Py.str (Z.pos p)) = Some (Z.pos p).
Proof.
  rewrite str_pos.
  pose proof (DecimalPos.Unsigned.to_uint_nonnil p) as Hn.
  pose proof (string_of_uint_digits (Pos.to_uint p)) as Hd.
  destruct (NilEmpty.string_of_uint (Pos.to_uint p)) as [|c r] eqn:E.
  { destruct (Pos.to_uint p); simpl in E; congruence. }
  rewrite (int_opt_digits c r Hd), <- E, (int_unsigned_digits _ Hn).
  unfold Z.of_uint. now rewrite DecimalPos.Unsigned.of_to.
Qed.

(** Parsing the decimal text of a number from 0 on gives the number back. *)
Lemma int_opt_str z : 0 <= z -> Py.int_opt (Py.str z) = Some z.
Proof.
  destruct z as [|p|p]; intro H; [reflexivity|apply int_opt_str_pos|lia].
Qed.

Lemma str_inj a b : 0 <= a -> 0 <= b -> Py.str a = Py.str b -> a = b.
Proof.
  intros Ha Hb H. apply (f_equal Py.int_opt) in H.
  rewrite !int_opt_str in H by assumption. congruence.
Qed.

Lemma range_nodup a b : NoDup (Py.range a b).
Proof.
  unfold Py.range. apply Finite.Injective_map_NoDup; [|apply seq_NoDup].
  intros x y H. lia.
Qed.

Lemma range_length a b : List.length (Py.range a b) = Z.to_nat (b - a).
Proof. unfold Py.range. now rewrite length_map, length_seq. Qed.

Lemma str_range_nodup a b : 0 <= a -> NoDup (map Py.str (Py.range a b)).
Proof.
  intro Ha. assert (H := range_nodup a b).
  assert (Hr : forall z, In z (Py.range a b) -> 0 <= z)
    by (intros z Hz; apply in_range in Hz; lia).
  induction (Py.range a b) as [|x l IH]; simpl; constructor.
  - rewrite in_map_iff. intros (y & Hy & Hin).
    apply str_inj in Hy; [|apply Hr; now right|apply Hr; now left].
    subst y. now inversion H.
  - apply IH; [now inversion H|intros z Hz; apply Hr; now right].
Qed.

End IntStr.

(** ** [validate_answer_key] *)

Section Validate.

Import Utils.

Lemma check_entry_app n errs item :
  check_entry n errs item = errs ++ entry_errors n item.
Proof.
  unfold entry_errors, check_entry. destruct item as [q a].
  destruct (Py.int q) as [z|e]; [destruct (_ || _)|]; destruct (negb _); simpl;
    rewrite ?app_nil_r, <- ?app_assoc; reflexivity.
Qed.

Lemma fold_check_entry n l errs :
  fold_left (check_entry n) l errs = errs ++ flat_map (entry_errors n) l.
Proof.
  revert errs. induction l as [|item l IH]; intro errs; simpl.
  - now rewrite app_nil_r.
  - now rewrite IH, check_entry_app, <- app_assoc.
Qed.

(** An entry adds no error exactly when its key is an integer literal in
    range and its value one of the four letters. *)
Lemma entry_errors_nil n q a :
  entry_errors n (q, a) = []
  <-> (exists z, Py.int_opt q = Some z /\ 1 <= z <= n) /\ In a valid_answers.
Proof.
  unfold entry_errors, check_entry, Py.int.
  assert (Hv : in_valid_answers a = true <-> In a valid_answers).
  { unfold in_valid_answers. rewrite existsb_exists. split.
    - intros (x & Hx & E). apply String.eqb_eq in E. now subst.
    - intro H. exists a. split; [exact H|apply String.eqb_refl]. }
  destruct (Py.int_opt q) as [z|]; simpl;
    [destruct (Z.ltb_spec z 1); destruct (Z.ltb_spec n z); simpl|];
    destruct (in_valid_answers a) eqn:E; simpl;
    (split;
     [ intro Hnil;
       first [ discriminate Hnil
             | (split; [exists z; split; [reflexivity|lia]|apply Hv; reflexivity]) ]
     | intros ((z' & Hz' & Hr) & Ha);
       first [ reflexivity
             | discriminate Hz'
             | (apply Hv in Ha; discriminate Ha)
             | (inversion Hz'; subst; lia) ] ]).
Qed.

Lemma flat_map_nil {A B} (f : A -> list B) l :
  flat_map f l = [] <-> Forall (fun a => f a = []) l.
Proof.
  induction l as [|a l IH]; simpl; [split; auto|].
  split.
  - intro H. apply app_eq_nil in H. destruct H as (H1 & H2).
    constructor; [exact H1|now apply IH].
  - intro H. inversion H; subst. rewrite H2. now apply IH.
Qed.

(** The counts of the valid letters are all positive, so their sum is. *)
Lemma values_set_forall {V} (P : V -> Prop) (d : Py.dict V) k v :
  Forall P (Py.values d) -> P v -> Forall P (Py.values (Py.set d k v)).
Proof.
  unfold Py.values. induction d as [|[k' v'] d IH]; simpl; intros H Hv.
  - constructor; [exact Hv|constructor].
  - inversion H; subst. destruct (String.eqb k' k); simpl; constructor; auto.
Qed.

Lemma get_values_forall {V} (P : V -> Prop) (d : Py.dict V) k v :
  Forall P (Py.values d) -> Py.get d k = Some v -> P v.
Proof.
  unfold Py.values. induction d as [|[k' v'] d IH]; simpl; [discriminate|].
  intros H. inversion H; subst. destruct (String.eqb k' k); [now intros [= <-]|auto].
Qed.

Lemma answer_counts_positive l :
  forall d, Forall (fun c => 1 <= c) (Py.values d) ->
            Forall (fun c => 1 <= c) (Py.values (fold_left count_answer l d)).
Proof.
  induction l as [|a l IH]; intros d Hd; simpl; [exact Hd|].
  apply IH. unfold count_answer. destruct (in_valid_answers a); [|exact Hd].
  apply values_set_forall; [exact Hd|].
  destruct (Py.get d a) as [c|] eqn:E; [|lia].
  pose proof (get_values_forall _ d a c Hd E). simpl in *. lia.
Qed.

Lemma sum_Z_positive l :
  Forall (fun c => 1 <= c) l -> l <> [] -> 0 < sum_Z l.
Proof.
  unfold sum_Z.
  assert (H : forall l acc, Forall (fun c => 1 <= c) l ->
                            acc + Z.of_nat (List.length l) <= fold_left Z.add l acc).
  { clear. induction l as [|c l IH]; intros acc Hl; simpl; [lia|].
    inversion Hl; subst. specialize (IH (acc + c) H2). lia. }
  intros Hl Hne. specialize (H l 0 Hl). destruct l; [contradiction|].
  simpl List.length in H. rewrite Nat2Z.inj_succ in H. lia.
Qed.

Lemma distribution_returns total_valid l :
  total_valid <> 0 ->
  forall ws, exists ws',
    OMRProcessor.for_each (check_distribution total_valid) l ws = Py.Ok ws'.
Proof.
  intro Hne. induction l as [|[a c] l IH]; intro ws; simpl; [now eexists|].
  unfold Py.truediv. destruct (Z.eqb_spec total_valid 0); [contradiction|]. simpl.
  destruct (PrimFloat.ltb _ _); simpl; [apply IH|].
  destruct (PrimFloat.ltb _ _); simpl; apply IH.
Qed.

(** The validator always returns, and its verdict and errors are those
    of the three checks. *)
Lemma validate_answer_key_returns answer_key n :
  exists v,
    validate_answer_key answer_key n = Py.Ok v
    /\ errors v
       = ((if negb (Z.of_nat (List.length answer_key) =? n)
           then [ExpectedAnswers n (Z.of_nat (List.length answer_key))] else [])
          ++ flat_map (entry_errors n) answer_key)
         ++ match missing_questions answer_key n with
            | [] => []
            | _ :: _ => [MissingAnswers (missing_questions answer_key n)]
            end
    /\ valid v = match errors v with [] => true | _ :: _ => false end.
Proof.
  unfold validate_answer_key.
  set (counts := fold_left count_answer (Py.values answer_key) []).
  assert (Hw : exists ws,
             match counts with
             | [] => Py.Ok []
             | _ :: _ =>
                 OMRProcessor.for_each (check_distribution (sum_Z (Py.values counts))) counts []
             end = Py.Ok ws).
  { destruct counts as [|x l] eqn:E; [now eexists|]. rewrite <- E.
    apply distribution_returns.
    assert (0 < sum_Z (Py.values counts)); [|lia].
    apply sum_Z_positive.
    - apply answer_counts_positive. constructor.
    - rewrite E. discriminate. }
  destruct Hw as (ws & ->). simpl.
  eexists. split; [reflexivity|]. simpl.
  rewrite fold_check_entry.
  split; [destruct (missing_questions answer_key n); [now rewrite app_nil_r|reflexivity]|].
  reflexivity.
Qed.

Lemma missing_questions_nil answer_key n :
  missing_questions answer_key n = []
  <-> incl (map Py.str (Py.range 1 (n + 1))) (Py.keys answer_key).
Proof.
  unfold missing_questions. split.
  - intros H q Hq. apply contains_in_keys.
    destruct (Py.contains answer_key q) eqn:E; [reflexivity|].
    assert (Hin : In q (filter (fun q => negb (Py.contains answer_key q))
                               (map Py.str (Py.range 1 (n + 1))))).
    { apply filter_In. split; [exact Hq|now rewrite E]. }
    rewrite H in Hin. contradiction.
  - intro H. destruct (filter _ _) as [|q l] eqn:E; [reflexivity|].
    assert (Hin : In q (filter (fun q => negb (Py.contains answer_key q))
                               (map Py.str (Py.range 1 (n + 1)))))
      by (rewrite E; now left).
    apply filter_In in Hin. destruct Hin as (Hq & Hc).
    apply H, contains_in_keys in Hq. rewrite Hq in Hc. discriminate.
Qed.

End Validate.

(** C8. For a dictionary [k] (unique keys) and a question count [N >= 0],
    [validate_answer_key(k, N)] returns, and reports [valid = true] exactly
    when the keys of [k] are the strings ["1"] to ["N"] and every value is one
    of [A], [B], [C], [D]; the verdict is computed from the errors alone, so
    the distribution warnings never change it. *)
Theorem C8_valid_iff_exact_keys_and_letters :
  forall (k : Py.dict string) (N : Z),
    Py.wf k ->
    0 <= N ->
    exists v,
      Utils.validate_answer_key k N = Py.Ok v
      /\ (Utils.valid v = true
          <-> ((forall q, In q (Py.keys k) <-> exists i, 1 <= i <= N /\ q = Py.str i)
               /\ Forall (fun a => In a ["A"; "B"; "C"; "D"]) (Py.values k)))
      /\ Utils.valid v = match Utils.errors v with [] => true | _ :: _ => false end.
Proof.
  intros k N Hwf HN.
  destruct (validate_answer_key_returns k N) as (v & Hv & Herr & Hvalid).
  exists v. split; [exact Hv|]. split; [|exact Hvalid].
  rewrite Hvalid, Herr. clear v Hv Herr Hvalid.
  set (expected := map Py.str (Py.range 1 (N + 1))).
  assert (Hexp_nodup : NoDup expected) by (apply str_range_nodup; lia).
  assert (Hexp_len : List.length expected = Z.to_nat N).
  { unfold expected. rewrite length_map, range_length. f_equal. lia. }
  assert (Hexp_in : forall q, In q expected <-> exists i, 1 <= i <= N /\ q = Py.str i).
  { intro q. unfold expected. rewrite in_map_iff. split.
    - intros (i & <- & Hi). apply in_range in Hi. exists i. split; [lia|reflexivity].
    - intros (i & Hi & ->). exists i. split; [reflexivity|apply in_range; lia]. }
  assert (Hlen_keys : List.length (Py.keys k) = List.length k)
    by (unfold Py.keys; apply length_map).
  split.
  - intro H.
    destruct (_ ++ _) as [|e l] eqn:E in H; [clear H|discriminate].
    apply app_eq_nil in E. destruct E as (E12 & E3).
    apply app_eq_nil in E12. destruct E12 as (E1 & E2).
    assert (Hlen : Z.of_nat (List.length k) = N).
    { destruct (Z.eqb_spec (Z.of_nat (List.length k)) N); [assumption|discriminate]. }
    assert (Hmiss : incl expected (Py.keys k)).
    { apply missing_questions_nil.
      destruct (Utils.missing_questions k N); [reflexivity|discriminate]. }
    assert (Hback : incl (Py.keys k) expected).
    { apply NoDup_length_incl; [exact Hexp_nodup| |exact Hmiss].
      rewrite Hlen_keys, Hexp_len. lia. }
    split.
    + intro q. rewrite <- Hexp_in. split; [apply Hback|apply Hmiss].
    + apply flat_map_nil in E2. rewrite Forall_forall in E2.
      apply Forall_forall. intros a Ha. unfold Py.values in Ha.
      apply in_map_iff in Ha. destruct Ha as ([q a'] & <- & Hin).
      specialize (E2 _ Hin). apply entry_errors_nil in E2. exact (proj2 E2).
  - intros (Hkeys & Hvals).
    assert (Hmiss : incl expected (Py.keys k))
      by (intros q Hq; apply Hkeys, Hexp_in, Hq).
    assert (Hback : incl (Py.keys k) expected)
      by (intros q Hq; apply Hexp_in, Hkeys, Hq).
    assert (Hlen : Z.of_nat (List.length k) = N).
    { pose proof (NoDup_incl_length Hwf Hback) as H1.
      pose proof (NoDup_incl_length Hexp_nodup Hmiss) as H2.
      fold (Py.keys k) in H1. rewrite Hlen_keys, Hexp_len in *. lia. }
    rewrite (proj2 (Z.eqb_eq _ _) Hlen). simpl.
    rewrite (proj2 (missing_questions_nil k N) Hmiss), app_nil_r.
    rewrite (proj2 (flat_map_nil (entry_errors N) k)); [reflexivity|].
    apply Forall_forall. intros [q a] Hin. apply entry_errors_nil. split.
    + assert (Hq : In q (Py.keys k)) by (unfold Py.keys; now apply (in_map fst) in Hin).
      apply Hkeys in Hq. destruct Hq as (i & Hi & ->).
      exists i. split; [apply int_opt_str; lia|exact Hi].
    + rewrite Forall_forall in Hvals. apply Hvals. unfold Py.values.
      now apply (in_map snd) in Hin.
Qed.

(** C8, on a four-question key that is all ["A"]: valid, with a
    distribution warning. *)
Lemma C8_witness :
  exists v,
    Utils.validate_answer_key [("1", "A"); ("2", "A"); ("3", "A"); ("4", "A")] 4 = Py.Ok v
    /\ Utils.valid v = true
    /\ Utils.warnings v = [Utils.UnusuallyHigh "A" 100%float].
Proof.
  assert (Hwf : Py.wf [("1", "A"); ("2", "A"); ("3", "A"); ("4", "A")]).
  { unfold Py.wf. simpl. repeat constructor; simpl; intuition discriminate. }
  assert (H4 : 0 <= 4) by discriminate.
  destruct (C8_valid_iff_exact_keys_and_letters
              [("1", "A"); ("2", "A"); ("3", "A"); ("4", "A")] 4 Hwf H4)
    as (v & Hv & Hiff & _).
  exists v. split; [exact Hv|]. split.
  - apply Hiff. split.
    + intro q. simpl. split.
      * intros [<-|[<-|[<-|[<-|[]]]]];
          [exists 1|exists 2|exists 3|exists 4]; split; (lia || reflexivity).
      * intros (i & Hi & ->).
        assert (Hc : i = 1 \/ i = 2 \/ i = 3 \/ i = 4) by lia.
        destruct Hc as [-> | [-> | [-> | ->]]]; simpl; auto.
    + repeat constructor; simpl; auto.
  - vm_compute in Hv. inversion Hv. reflexivity.
Defined.

(** ** The two scorers on sheets keyed ["1"] to ["100"] *)

Section RangeFacts.

Lemma range_split a b c : a <= b <= c -> Py.range a c = Py.range a b ++ Py.range b c.
Proof.
  intro H. unfold Py.range.
  replace (Z.to_nat (c - a)) with (Z.to_nat (b - a) + Z.to_nat (c - b))%nat by lia.
  rewrite seq_app, map_app. f_equal.
  simpl. generalize (Z.to_nat (c - b)). intro n.
  assert (G : forall n s, map (fun j => a + Z.of_nat j) (seq (Z.to_nat (b - a) + s) n)
                          = map (fun j => b + Z.of_nat j) (seq s n)).
  { clear n. induction n as [|n IH]; intro s; simpl; [reflexivity|].
    f_equal; [lia|]. replace (S (Z.to_nat (b - a) + s)) with (Z.to_nat (b - a) + S s)%nat by lia.
    apply IH. }
  specialize (G n 0%nat). now rewrite Nat.add_0_r in G.
Qed.

Lemma filter_length_le {A} (f : A -> bool) l :
  (List.length (filter f l) <= List.length l)%nat.
Proof. induction l as [|a l IH]; simpl; [lia|]. destruct (f a); simpl; lia. Qed.

Lemma filter_none {A} (f : A -> bool) l :
  (forall a, In a l -> f a = false) -> filter f l = [].
Proof.
  induction l as [|a l IH]; simpl; intro H; [reflexivity|].
  rewrite (H a (or_introl eq_refl)). apply IH. intros; apply H; now right.
Qed.

(** Filtering 1..100 by "in the block [lo, hi) and [g]" is filtering the
    block by [g]. *)
Lemma filter_block (p g : Z -> bool) lo hi :
  1 <= lo <= hi -> hi <= 101 ->
  (forall n, 1 <= n < 101 -> p n = (lo <=? n) && (n <? hi)) ->
  List.length (filter (fun n => p n && g n) (Py.range 1 101))
  = List.length (filter g (Py.range lo hi)).
Proof.
  intros Hlo Hhi Hp.
  rewrite (range_split 1 lo 101), (range_split lo hi 101) by lia.
  rewrite !filter_app, !length_app.
  rewrite (filter_none _ (Py.range 1 lo)), (filter_none _ (Py.range hi 101)).
  - simpl. rewrite Nat.add_0_r. f_equal. apply filter_ext_in.
    intros n Hn. apply in_range in Hn. rewrite Hp by lia.
    destruct (Z.leb_spec lo n), (Z.ltb_spec n hi); try lia. reflexivity.
  - intros n Hn. apply in_range in Hn. rewrite Hp by lia.
    destruct (Z.leb_spec lo n), (Z.ltb_spec n hi); try lia; reflexivity.
  - intros n Hn. apply in_range in Hn. rewrite Hp by lia.
    destruct (Z.leb_spec lo n), (Z.ltb_spec n hi); try lia; reflexivity.
Qed.

End RangeFacts.

Section FloatCounts.

(** Small counts survive the 20-point scaling and the summation of the
    subject scores without rounding. *)
Lemma scale_exact c :
  0 <= c < 21 -> on_20_point_scale OMRProcessor.default_config c = Py.float_of_Z c.
Proof.
  revert c.
  assert (H : forall c, 0 <= c < 21 ->
                PrimFloat.Leibniz.eqb (on_20_point_scale OMRProcessor.default_config c)
                                      (Py.float_of_Z c) = true).
  { apply forallb_range. vm_compute. reflexivity. }
  intros c Hc. apply FloatAxioms.Leibniz.eqb_spec. now apply H.
Qed.

Lemma add_exact a b :
  0 <= a < 81 -> 0 <= b < 21 ->
  PrimFloat.add (Py.float_of_Z a) (Py.float_of_Z b) = Py.float_of_Z (a + b).
Proof.
  revert a b.
  assert (H : forall a, 0 <= a < 81 -> forall b, 0 <= b < 21 ->
                PrimFloat.Leibniz.eqb (PrimFloat.add (Py.float_of_Z a) (Py.float_of_Z b))
                                      (Py.float_of_Z (a + b)) = true).
  { intros a Ha. apply forallb_range. revert a Ha.
    apply (forallb_range
             (fun a => forallb (fun b => PrimFloat.Leibniz.eqb
                                           (PrimFloat.add (Py.float_of_Z a) (Py.float_of_Z b))
                                           (Py.float_of_Z (a + b)))
                               (Py.range 0 21))).
    vm_compute. reflexivity. }
  intros a b Ha Hb. apply FloatAxioms.Leibniz.eqb_spec. now apply H.
Qed.

End FloatCounts.

Section Agreement.

Import OMRProcessor.

Variable sa : Py.dict answer.
Variable ck : Py.dict string.

Hypothesis Hwf_sa : Py.wf sa.
Hypothesis Hkeys_sa : forall q, In q (Py.keys sa) <-> In q (map Py.str (Py.range 1 101)).
Hypothesis Hkeys_ck : forall q, In q (Py.keys ck) <-> In q (map Py.str (Py.range 1 101)).
Hypothesis Hup_sa : Forall upper_letter_answer (Py.values sa).
Hypothesis Hup_ck : Forall upper_letter (Py.values ck).

Lemma agreeing_bounds lo hi : 0 <= (agreeing sa ck) lo hi <= Z.of_nat (Z.to_nat (hi - lo)).
Proof.
  unfold agreeing. rewrite <- (range_length lo hi).
  pose proof (filter_length_le (agree sa ck) (Py.range lo hi)). lia.
Qed.

(** *** The scorer of [utils] *)

Lemma count_questions_fst l :
  forall c t,
    fst (fold_left (Utils.count_question sa ck) l (c, t))
    = c + Z.of_nat (List.length (filter (agree sa ck) l)).
Proof.
  induction l as [|n l IH]; intros c t; [simpl; lia|].
  cbn [fold_left filter].
  destruct (Utils.count_question sa ck (c, t) n) as [c' t'] eqn:E.
  rewrite IH.
  assert (Hc : c' = c + if (agree sa ck) n then 1 else 0).
  { unfold Utils.count_question, agree in *.
    destruct (Py.get sa (Py.str n)) as [a|], (Py.get ck (Py.str n)) as [k|];
      try (inversion E; lia).
    destruct (Utils.answer_eqb a k); inversion E; lia. }
  destruct ((agree sa ck) n); simpl List.length; lia.
Qed.

Lemma percentage_of_returns c t : exists p, Utils.percentage_of c t = Py.Ok p.
Proof.
  unfold Utils.percentage_of, Py.truediv.
  destruct (Z.ltb_spec 0 t); [|now eexists].
  destruct (Z.eqb_spec t 0); [lia|]. simpl. now eexists.
Qed.

Lemma score_subject_total q st i s :
  exists st',
    Utils.score_subject sa ck q st (i, s) = Py.Ok st'
    /\ Utils.rs_total_correct st'
       = Utils.rs_total_correct st + (agreeing sa ck) (i * q + 1) ((i + 1) * q + 1).
Proof.
  unfold Utils.score_subject.
  pose proof (count_questions_fst (Py.range (i * q + 1) ((i + 1) * q + 1)) 0 0) as Hc.
  destruct (fold_left _ _ _) as [cc tt]. simpl in Hc.
  destruct (percentage_of_returns cc tt) as (p & ->). simpl.
  eexists. split; [reflexivity|]. simpl. unfold agreeing. lia.
Qed.

Lemma utils_total :
  exists r,
    Utils.calculate_subject_scores sa ck None 20 = Py.Ok r
    /\ Utils.r_total_score r
       = (agreeing sa ck) 1 21 + (agreeing sa ck) 21 41 + (agreeing sa ck) 41 61 + (agreeing sa ck) 61 81 + (agreeing sa ck) 81 101.
Proof.
  unfold Utils.calculate_subject_scores.
  change (Utils.enumerate Utils.default_subjects)
    with [(0, "Mathematics"); (1, "Physics"); (2, "Chemistry"); (3, "Biology"); (4, "English")].
  cbn [for_each].
  set (st0 := {| Utils.rs_subject_scores := []; Utils.rs_total_correct := 0;
                 Utils.rs_total_questions := 0 |}).
  destruct (score_subject_total 20 st0 0 "Mathematics") as (st1 & -> & H1).
  cbn [Py.bind].
  destruct (score_subject_total 20 st1 1 "Physics") as (st2 & -> & H2).
  cbn [Py.bind].
  destruct (score_subject_total 20 st2 2 "Chemistry") as (st3 & -> & H3).
  cbn [Py.bind].
  destruct (score_subject_total 20 st3 3 "Biology") as (st4 & -> & H4).
  cbn [Py.bind].
  destruct (score_subject_total 20 st4 4 "English") as (st5 & -> & H5).
  cbn [Py.bind].
  destruct (percentage_of_returns (Utils.rs_total_correct st5) (Utils.rs_total_questions st5))
    as (p & ->).
  cbn [Py.bind]. eexists. split; [reflexivity|].
  cbn [Utils.r_total_score]. rewrite H5, H4, H3, H2, H1. subst st0. simpl. lia.
Qed.

(** *** The scorer of [OMRProcessor] *)

Lemma upper_letter_upper s : upper_letter s -> Py.upper s = s.
Proof.
  intros (c & -> & Hc). simpl. f_equal. unfold Py.upper_ascii.
  destruct (Nat.leb_spec 97 (nat_of_ascii c)); [lia|reflexivity].
Qed.

Lemma numbers_1_100 :
  forall n, 1 <= n < 101 ->
    String.eqb (Py.replace_char "Q" "" (Py.str n)) (Py.str n) = true.
Proof. apply forallb_range. vm_compute. reflexivity. Qed.

Lemma key_number n : 1 <= n < 101 -> question_number (Py.str n) = Some n.
Proof.
  intro Hn. unfold question_number.
  rewrite (proj1 (String.eqb_eq _ _) (numbers_1_100 n Hn)).
  apply int_opt_str. lia.
Qed.

Lemma sa_entry n :
  1 <= n < 101 -> exists a, Py.get sa (Py.str n) = Some a /\ upper_letter_answer a.
Proof.
  intro Hn.
  destruct (in_keys_get sa (Py.str n)) as (a & Ha).
  { apply Hkeys_sa. apply in_map. now apply in_range. }
  exists a. split; [exact Ha|]. eapply get_values_forall; eauto.
Qed.

Lemma ck_entry n :
  1 <= n < 101 -> exists k, Py.get ck (Py.str n) = Some k /\ upper_letter k.
Proof.
  intro Hn.
  destruct (in_keys_get ck (Py.str n)) as (k & Hk).
  { apply Hkeys_ck. apply in_map. now apply in_range. }
  exists k. split; [exact Hk|]. eapply get_values_forall; eauto.
Qed.

Lemma get_some_in {V} (d : Py.dict V) k v : Py.get d k = Some v -> In (k, v) d.
Proof.
  induction d as [|[k' v'] d IH]; simpl; [discriminate|].
  destruct (String.eqb_spec k' k) as [->|_]; [intros [= ->]; now left|].
  intro H. right. now apply IH.
Qed.

Lemma sheet_entries : Permutation sa (map (entry sa) (Py.range 1 101)).
Proof.
  apply NoDup_Permutation.
  - unfold Py.wf in Hwf_sa. eapply NoDup_map_inv. exact Hwf_sa.
  - apply Finite.Injective_map_NoDup_in; [|apply range_nodup].
    intros x y Hx Hy H. apply in_range in Hx. apply in_range in Hy.
    unfold entry in H. inversion H as [[H1 H2]]. apply str_inj in H1; lia.
  - intros [q a]. split.
    + intro Hin.
      assert (Hq : In q (Py.keys sa)) by (unfold Py.keys; now apply (in_map fst) in Hin).
      apply Hkeys_sa in Hq. apply in_map_iff in Hq. destruct Hq as (n & <- & Hn).
      apply in_map_iff. exists n. split; [|exact Hn].
      unfold entry. now rewrite (wf_in_get sa _ _ Hwf_sa Hin).
    + intro Hin. apply in_map_iff in Hin. destruct Hin as (n & Hn & Hr).
      apply in_range in Hr. destruct (sa_entry n Hr) as (a' & Ha' & _).
      unfold entry in Hn. rewrite Ha' in Hn. inversion Hn; subst.
      now apply get_some_in.
Qed.

Lemma credited_entry s n :
  1 <= n < 101 ->
  credited default_config ck s ((entry sa) n) = numbered_in s (Some n) && (agree sa ck) n.
Proof.
  intro Hn. destruct (sa_entry n Hn) as (a & Ha & s0 & -> & Hs0).
  destruct (ck_entry n Hn) as (k & Hk & Hkup).
  unfold credited, entry, agree, assigned_subject, Py.contains, Py.int. simpl fst. simpl snd.
  rewrite Ha, Hk. simpl negb. cbv iota.
  pose proof (key_number n Hn) as Hq. unfold question_number in Hq. rewrite Hq.
  simpl. unfold is_correct.
  rewrite (upper_letter_upper s0 Hs0), (upper_letter_upper k Hkup).
  destruct (subject_of_number default_config n) as [[s'|]|]; reflexivity.
Qed.

Lemma block_of_subject :
  forall i, 0 <= i < 5 ->
    match nth_error (cfg_subjects default_config) (Z.to_nat i) with
    | Some s =>
        forallb (fun n => Bool.eqb (numbered_in s (Some n))
                                   ((20 * i + 1 <=? n) && (n <? 20 * i + 21)))
                (Py.range 1 101)
    | None => false
    end = true.
Proof. apply forallb_range. vm_compute. reflexivity. Qed.

Lemma omr_count i s :
  0 <= i < 5 ->
  nth_error (cfg_subjects default_config) (Z.to_nat i) = Some s ->
  correct_count default_config ck s sa = (agreeing sa ck) (20 * i + 1) (20 * i + 21).
Proof.
  intros Hi Hs. unfold correct_count, agreeing. f_equal.
  rewrite (filter_length_perm _ _ _ sheet_entries), filter_length_map.
  rewrite (filter_length_ext_in _ (fun n => numbered_in s (Some n) && (agree sa ck) n)).
  - apply filter_block; [lia|lia|].
    intros n Hn. pose proof (block_of_subject i Hi) as Hb. rewrite Hs in Hb.
    rewrite forallb_forall in Hb. specialize (Hb n (proj2 (in_range 1 101 n) Hn)).
    now apply Bool.eqb_prop in Hb.
  - intros n Hn. apply in_range in Hn. now apply credited_entry.
Qed.

Lemma omr_returns : exists r, calculate_subject_scores default_config sa ck = Py.Ok r.
Proof.
  apply scorer_returns_on_numbered_keys; [reflexivity|].
  intros [q a] Hin _. simpl fst.
  assert (Hq : In q (Py.keys sa)) by (unfold Py.keys; now apply (in_map fst) in Hin).
  apply Hkeys_sa in Hq. apply in_map_iff in Hq. destruct Hq as (n & <- & Hn).
  apply in_range in Hn. exists n. split; [now apply key_number|simpl; lia].
Qed.

Lemma omr_total r :
  calculate_subject_scores default_config sa ck = Py.Ok r ->
  total_score r
  = Py.NFloat (Py.float_of_Z ((agreeing sa ck) 1 21 + (agreeing sa ck) 21 41 + (agreeing sa ck) 41 61
                              + (agreeing sa ck) 61 81 + (agreeing sa ck) 81 101)).
Proof.
  intro Hr.
  assert (Hk : 0 < cfg_questions_per_subject default_config) by reflexivity.
  destruct (calculate_subject_scores_spec default_config ck sa Hk r Hr) as (Hkeys & -> & Hget).
  pose proof (agreeing_bounds 1 21) as B0. pose proof (agreeing_bounds 21 41) as B1.
  pose proof (agreeing_bounds 41 61) as B2. pose proof (agreeing_bounds 61 81) as B3.
  pose proof (agreeing_bounds 81 101) as B4.
  change (Z.of_nat (Z.to_nat (21 - 1))) with 20 in B0.
  change (Z.of_nat (Z.to_nat (41 - 21))) with 20 in B1.
  change (Z.of_nat (Z.to_nat (61 - 41))) with 20 in B2.
  change (Z.of_nat (Z.to_nat (81 - 61))) with 20 in B3.
  change (Z.of_nat (Z.to_nat (101 - 81))) with 20 in B4.
  assert (Hd : subject_scores r
               = [("Mathematics", Py.NFloat (Py.float_of_Z ((agreeing sa ck) 1 21)));
                  ("Physics", Py.NFloat (Py.float_of_Z ((agreeing sa ck) 21 41)));
                  ("Chemistry", Py.NFloat (Py.float_of_Z ((agreeing sa ck) 41 61)));
                  ("Biology", Py.NFloat (Py.float_of_Z ((agreeing sa ck) 61 81)));
                  ("English", Py.NFloat (Py.float_of_Z ((agreeing sa ck) 81 101)))]).
  { apply dict_ext.
    - unfold Py.wf. fold (Py.keys (subject_scores r)). rewrite Hkeys. vm_compute.
      repeat constructor; simpl; intuition discriminate.
    - rewrite Hkeys. reflexivity.
    - rewrite Hkeys. intros s Hs.
      assert (Hs' : In s (cfg_subjects default_config)) by exact Hs.
      destruct (Hget s Hs') as (_ & ->).
      simpl in Hs'. destruct Hs' as [<-|[<-|[<-|[<-|[<-|[]]]]]].
      + rewrite (omr_count 0 "Mathematics") by (lia || reflexivity).
        rewrite scale_exact by (simpl; lia). reflexivity.
      + rewrite (omr_count 1 "Physics") by (lia || reflexivity).
        rewrite scale_exact by (simpl; lia). reflexivity.
      + rewrite (omr_count 2 "Chemistry") by (lia || reflexivity).
        rewrite scale_exact by (simpl; lia). reflexivity.
      + rewrite (omr_count 3 "Biology") by (lia || reflexivity).
        rewrite scale_exact by (simpl; lia). reflexivity.
      + rewrite (omr_count 4 "English") by (lia || reflexivity).
        rewrite scale_exact by (simpl; lia). reflexivity. }
  rewrite Hd. unfold Py.sum, Py.values. cbn [map snd fold_left Py.add Py.to_float].
  change (Py.float_of_Z 0 + Py.float_of_Z ((agreeing sa ck) 1 21))%float
    with (PrimFloat.add (Py.float_of_Z 0) (Py.float_of_Z ((agreeing sa ck) 1 21))).
  rewrite (add_exact 0 ((agreeing sa ck) 1 21)) by lia.
  rewrite (add_exact (0 + (agreeing sa ck) 1 21) ((agreeing sa ck) 21 41)) by lia.
  rewrite (add_exact (0 + (agreeing sa ck) 1 21 + (agreeing sa ck) 21 41) ((agreeing sa ck) 41 61)) by lia.
  rewrite (add_exact (0 + (agreeing sa ck) 1 21 + (agreeing sa ck) 21 41 + (agreeing sa ck) 41 61) ((agreeing sa ck) 61 81))
    by lia.
  rewrite (add_exact (0 + (agreeing sa ck) 1 21 + (agreeing sa ck) 21 41 + (agreeing sa ck) 41 61 + (agreeing sa ck) 61 81)
                     ((agreeing sa ck) 81 101)) by lia.
  reflexivity.
Qed.

End Agreement.


(** C10. On a sheet and an answer key whose keys are exactly the strings
    ["1"] to ["100"] and whose values are single upper-case letters, both
    scorers return, and the total score of [OMRProcessor] (a float) is the
    total score of [utils] (an integer) converted to float; the two compare
    equal. *)
Theorem C10_scorers_agree_on_total :
  forall (sa : Py.dict OMRProcessor.answer) (ck : Py.dict string),
    Py.wf sa ->
    (forall q, In q (Py.keys sa) <-> In q (map Py.str (Py.range 1 101))) ->
    (forall q, In q (Py.keys ck) <-> In q (map Py.str (Py.range 1 101))) ->
    Forall upper_letter_answer (Py.values sa) ->
    Forall upper_letter (Py.values ck) ->
    exists r1 r2,
      OMRProcessor.calculate_subject_scores OMRProcessor.default_config sa ck = Py.Ok r1
      /\ Utils.calculate_subject_scores sa ck None 20 = Py.Ok r2
      /\ OMRProcessor.total_score r1 = Py.NFloat (Py.float_of_Z (Utils.r_total_score r2))
      /\ Py.num_eqb (OMRProcessor.total_score r1) (Py.NInt (Utils.r_total_score r2)) = true.
Proof.
  intros sa ck Hwf Hsa Hck Hupa Hupk.
  destruct (omr_returns sa ck Hsa) as (r1 & Hr1).
  destruct (utils_total sa ck) as (r2 & Hr2 & Ht2).
  pose proof (omr_total sa ck Hwf Hsa Hck Hupa Hupk r1 Hr1) as Ht1.
  exists r1, r2. split; [exact Hr1|]. split; [exact Hr2|].
  rewrite Ht1, Ht2. split; [reflexivity|].
  unfold Py.num_eqb, Py.to_float.
  pose proof (agreeing_bounds sa ck 1 21) as B0.
  pose proof (agreeing_bounds sa ck 21 41) as B1.
  pose proof (agreeing_bounds sa ck 41 61) as B2.
  pose proof (agreeing_bounds sa ck 61 81) as B3.
  pose proof (agreeing_bounds sa ck 81 101) as B4.
  change (Z.of_nat (Z.to_nat (21 - 1))) with 20 in B0.
  change (Z.of_nat (Z.to_nat (41 - 21))) with 20 in B1.
  change (Z.of_nat (Z.to_nat (61 - 41))) with 20 in B2.
  change (Z.of_nat (Z.to_nat (81 - 61))) with 20 in B3.
  change (Z.of_nat (Z.to_nat (101 - 81))) with 20 in B4.
  assert (H : forall z, 0 <= z < 101 ->
                PrimFloat.eqb (Py.float_of_Z z) (Py.float_of_Z z) = true).
  { apply forallb_range. vm_compute. reflexivity. }
  apply H. lia.
Qed.

Lemma upper_letter_check (l : list string) :
  forallb (fun s => match s with
                    | String c EmptyString =>
                        ((65 <=? nat_of_ascii c)%nat && (nat_of_ascii c <=? 90)%nat)%bool
                    | _ => false
                    end) l = true ->
  Forall upper_letter l.
Proof.
  intro H. apply Forall_forall. intros s Hs.
  rewrite forallb_forall in H. specialize (H s Hs).
  destruct s as [|c [|]]; try discriminate.
  apply andb_true_iff in H. destruct H as (H1 & H2).
  apply Nat.leb_le in H1. apply Nat.leb_le in H2.
  exists c. split; [reflexivity|lia].
Qed.

(** C10, on a key that cycles through A, B, C, D and a sheet that answers
    ["A"] to everything: both totals are 25. *)
Lemma C10_witness :
  exists r1 r2,
    OMRProcessor.calculate_subject_scores OMRProcessor.default_config
      Samples.all_A_sheet Samples.numeric_key = Py.Ok r1
    /\ Utils.calculate_subject_scores Samples.all_A_sheet Samples.numeric_key None 20 = Py.Ok r2
    /\ OMRProcessor.total_score r1 = Py.NFloat 25%float
    /\ Utils.r_total_score r2 = 25.
Proof.
  destruct (C10_scorers_agree_on_total Samples.all_A_sheet Samples.numeric_key)
    as (r1 & r2 & H1 & H2 & Ht & _).
  - unfold Py.wf.
    change (map fst Samples.all_A_sheet) with (map Py.str (Py.range 1 101)).
    apply str_range_nodup. lia.
  - intro q. change (Py.keys Samples.all_A_sheet) with (map Py.str (Py.range 1 101)).
    reflexivity.
  - intro q. change (Py.keys Samples.numeric_key) with (map Py.str (Py.range 1 101)).
    reflexivity.
  - unfold Py.values, Samples.all_A_sheet. rewrite map_map. apply Forall_map.
    apply Forall_forall. intros i _. exists "A". split; [reflexivity|].
    exists "A"%char. split; [reflexivity|vm_compute; lia].
  - apply upper_letter_check. vm_compute. reflexivity.
  - exists r1, r2. split; [exact H1|]. split; [exact H2|].
    assert (E : Utils.r_total_score r2 = 25).
    { vm_compute in H2. inversion H2. reflexivity. }
    rewrite Ht, E. split; reflexivity.
Defined.

(** ** Drawing only adds annotations *)

Section Drawing.

Import OMRProcessor.

Lemma annotated_refl img : annotated img img.
Proof. repeat split. exists []. now rewrite app_nil_r. Qed.

Lemma annotated_trans a b c : annotated a b -> annotated b c -> annotated a c.
Proof.
  intros (S1 & P1 & o1 & D1) (S2 & P2 & o2 & D2).
  split; [congruence|]. split; [congruence|].
  exists (o1 ++ o2). now rewrite D2, D1, app_assoc.
Qed.

Lemma annotates_sret {A} (a : A) : annotates (Py.sret a).
Proof. intro img. apply annotated_refl. Qed.

Lemma annotates_lift {A} (r : Py.result A) : annotates (Py.lift r).
Proof. intro img. apply annotated_refl. Qed.

Lemma annotates_draw op : annotates (draw op).
Proof.
  intro img. unfold draw. destruct (accepted op); simpl.
  - repeat split. now exists [op].
  - apply annotated_refl.
Qed.

Lemma annotates_sbind {A B} (m : Py.stateful image A) (f : A -> Py.stateful image B) :
  annotates m -> (forall a, annotates (f a)) -> annotates (Py.sbind m f).
Proof.
  intros Hm Hf img. unfold Py.sbind. specialize (Hm img).
  destruct (m img) as [[a|e] img1]; simpl in *; [|exact Hm].
  eapply annotated_trans; [exact Hm|apply Hf].
Qed.

Lemma annotates_sfor_each {A X} (body : X -> A -> Py.stateful image X) l :
  (forall x a, annotates (body x a)) -> forall x, annotates (Py.sfor_each body l x).
Proof.
  intro Hb. induction l as [|a l IH]; intro x; simpl.
  - apply annotates_sret.
  - apply annotates_sbind; [apply Hb|exact IH].
Qed.

Lemma annotates_draw_bubble cls u info : annotates (draw_bubble cls u info).
Proof.
  unfold draw_bubble.
  apply annotates_sbind; [apply annotates_lift|]. intro b.
  apply annotates_sbind; [apply annotates_lift|]. intro i.
  apply annotates_sbind.
  - destruct (_ <? _); [|apply annotates_sret].
    apply annotates_sbind; [apply annotates_lift|]. intro f. apply annotates_sret.
  - intros [c t].
    destruct b as [|x [|y [|r [|h [|? ?]]]]];
      first [apply annotates_draw | apply annotates_lift].
Qed.

Lemma annotates_draw_question cls n q : annotates (draw_question cls n q).
Proof.
  unfold draw_question. destruct (_ <? _)%nat; [apply annotates_sret|].
  apply annotates_sbind; [apply annotates_sfor_each; apply annotates_draw_bubble|]. intros _.
  apply annotates_sbind; [|intros _; apply annotates_sret].
  destruct q as [|first rest]; [apply annotates_sret|].
  apply annotates_sbind; [apply annotates_lift|]. intro fb.
  apply annotates_sbind; [apply annotates_lift|]. intro x.
  apply annotates_sbind; [apply annotates_lift|]. intro y.
  apply annotates_sbind; [|intro; apply annotates_draw].
  destruct (_ =? _)%nat; [apply annotates_sret|].
  apply annotates_sbind; [apply annotates_lift|]. intro h. apply annotates_sret.
Qed.

Lemma annotates_draw_grid results rs : annotates (draw_grid results rs).
Proof.
  unfold draw_grid.
  apply annotates_sbind; [apply annotates_lift|]. intro cls.
  apply annotates_sbind; [|intros _; apply annotates_sret].
  apply annotates_sfor_each. intros n row. unfold draw_row.
  apply annotates_sfor_each. apply annotates_draw_question.
Qed.

End Drawing.

(** C5. A grid dictionary that has entries but no ["rows"] entry makes
    the renderer raise [KeyError]: the test of line 142 runs before the
    [try] block of line 145 is entered. A [KeyError] raised inside that
    block, here by bubble entries without a ["bubble"] key, is caught, and
    the overlay is returned with nothing drawn on it. *)
Theorem C5_rowless_grid_raises_outside_try :
  forall (img : OMRProcessor.image) (sa : Py.dict OMRProcessor.answer),
    OMRProcessor.create_overlay_image img Samples.rowless sa = Py.Raise (Py.KeyError "rows")
    /\ OMRProcessor.create_overlay_image img Samples.keyless_bubbles sa
       = Py.Ok (base_overlay img).
Proof.
  intros img sa. split; [reflexivity|].
  unfold OMRProcessor.create_overlay_image. fold (base_overlay img). cbn.
  now destruct (base_overlay img).
Qed.

(** ** Further properties of the scorer and the renderer *)

(** X1. With a positive number of questions per subject, a question number
    [n >= 1] is scored under the subject at position [i] exactly when
    [i*k + 1 <= n <= (i+1)*k], and is skipped, without an exception, when it
    lies past the last subject. *)
Theorem X1_question_ranges_from_one :
  forall (cfg : OMRProcessor.subject_config) (n : Z),
    0 < OMRProcessor.cfg_questions_per_subject cfg ->
    1 <= n ->
    (forall s,
        OMRProcessor.subject_of_number cfg n = Py.Ok (Some s)
        <-> exists i, nth_error (OMRProcessor.cfg_subjects cfg) i = Some s
                      /\ Z.of_nat i * OMRProcessor.cfg_questions_per_subject cfg + 1 <= n
                         <= (Z.of_nat i + 1) * OMRProcessor.cfg_questions_per_subject cfg)
    /\ (Z.of_nat (List.length (OMRProcessor.cfg_subjects cfg))
        * OMRProcessor.cfg_questions_per_subject cfg < n ->
        OMRProcessor.subject_of_number cfg n = Py.Ok None)
    /\ exists o, OMRProcessor.subject_of_number cfg n = Py.Ok o.
Proof.
  intros cfg n Hk Hn. split; [|split].
  - intro s. now apply subject_ranges.
  - now apply subject_of_number_beyond.
  - rewrite (subject_of_number_positive cfg Hk n Hn). now eexists.
Qed.

(** X1, at question 37 of the default configuration: it belongs to the
    second subject, whose range is 21 to 40. *)
Lemma X1_witness :
  OMRProcessor.subject_of_number OMRProcessor.default_config 37 = Py.Ok (Some "Physics").
Proof.
  assert (Hk : 0 < OMRProcessor.cfg_questions_per_subject OMRProcessor.default_config)
    by reflexivity.
  assert (Hn : 1 <= 37) by discriminate.
  apply (proj1 (X1_question_ranges_from_one OMRProcessor.default_config 37 Hk Hn)).
  exists 1%nat. split; [reflexivity|]. simpl. lia.
Defined.

(** X2. With a positive number of questions per subject, the scorer of
    [OMRProcessor] returns on every sheet whose keys shared with the answer
    key carry, once the ['Q'] characters are removed, an integer above
    [- len(subjects) * questions_per_subject] (so on every sheet numbered
    from 1 on). *)
Theorem X2_scorer_returns_on_numbered_keys :
  forall (cfg : OMRProcessor.subject_config)
         (sa : Py.dict OMRProcessor.answer) (ck : Py.dict string),
    0 < OMRProcessor.cfg_questions_per_subject cfg ->
    (forall item, In item sa -> Py.contains ck (fst item) = true ->
       exists n, OMRProcessor.question_number (fst item) = Some n
                 /\ - Z.of_nat (List.length (OMRProcessor.cfg_subjects cfg))
                      * OMRProcessor.cfg_questions_per_subject cfg < n) ->
    exists r, OMRProcessor.calculate_subject_scores cfg sa ck = Py.Ok r.
Proof. intros cfg sa ck Hk H. now apply scorer_returns_on_numbered_keys. Qed.

(** X2, on a sheet with one shared key ["Q5"] and one key the answer key
    lacks. *)
Lemma X2_witness :
  exists r,
    OMRProcessor.calculate_subject_scores OMRProcessor.default_config
      [("Q5", OMRProcessor.ALetter "A"); ("zz", OMRProcessor.ANone)] [("Q5", "A")]
    = Py.Ok r.
Proof.
  apply X2_scorer_returns_on_numbered_keys; [reflexivity|].
  intros item [<-|[<-|[]]] Hc.
  - exists 5. split; [reflexivity|simpl; lia].
  - discriminate Hc.
Defined.

(** X3. When the grid dictionary of the detection result has entries but
    no ["rows"] entry, [create_overlay_image] raises [KeyError('rows')]:
    line 142 is evaluated before the [try] block. *)
Theorem X3_rowless_grid_raises_key_error :
  forall (img : OMRProcessor.image) (results : OMRProcessor.bubble_results)
         (sa : Py.dict OMRProcessor.answer) (g : OMRProcessor.grid),
    OMRProcessor.grid_structure results = Some (Some g) ->
    OMRProcessor.rows g = None ->
    OMRProcessor.other_keys g <> [] ->
    OMRProcessor.create_overlay_image img results sa = Py.Raise (Py.KeyError "rows").
Proof. intros img results sa g Hg Hr Hk. now apply (create_overlay_rowless img results sa g). Qed.

(** X3, on the sample detection result without rows. *)
Lemma X3_witness :
  OMRProcessor.create_overlay_image Samples.gray_image Samples.rowless []
  = Py.Raise (Py.KeyError "rows").
Proof.
  apply (X3_rowless_grid_raises_key_error Samples.gray_image Samples.rowless [] _ eq_refl eq_refl).
  discriminate.
Defined.

(** X21. In every case but that of X3, the renderer raises nothing. When
    the grid structure is missing (no entry, or [None]), is an empty
    dictionary, or has a ["rows"] entry, it returns the base image (the
    original, converted to three channels when it is a two-dimensional
    array) with at most annotations added; when the grid is missing or
    empty, or its list of rows is empty, nothing is drawn at all, and an
    original that is not two-dimensional is returned as it is. *)
Theorem X21_overlay_returns_base_unless_rowless :
  forall (img : OMRProcessor.image) (results : OMRProcessor.bubble_results)
         (sa : Py.dict OMRProcessor.answer),
    (OMRProcessor.grid_structure results = None
     \/ OMRProcessor.grid_structure results = Some None
     \/ exists g, OMRProcessor.grid_structure results = Some (Some g)
                  /\ (OMRProcessor.grid_truthy g = false
                      \/ exists rs, OMRProcessor.rows g = Some rs)) ->
    exists overlay,
      OMRProcessor.create_overlay_image img results sa = Py.Ok overlay
      /\ annotated (base_overlay img) overlay
      /\ ((OMRProcessor.grid_structure results = None
           \/ OMRProcessor.grid_structure results = Some None
           \/ exists g, OMRProcessor.grid_structure results = Some (Some g)
                        /\ (OMRProcessor.grid_truthy g = false
                            \/ OMRProcessor.rows g = Some [])) ->
          overlay = base_overlay img
          /\ OMRProcessor.drawn overlay = OMRProcessor.drawn img
          /\ (List.length (OMRProcessor.shape img) <> 2%nat -> overlay = img)).
Proof.
  intros img results sa H.
  assert (Hbase : forall overlay, overlay = base_overlay img ->
            overlay = base_overlay img
            /\ OMRProcessor.drawn overlay = OMRProcessor.drawn img
            /\ (List.length (OMRProcessor.shape img) <> 2%nat -> overlay = img)).
  { intros overlay ->. split; [reflexivity|]. unfold base_overlay.
    destruct (Nat.eqb_spec (List.length (OMRProcessor.shape img)) 2);
      split; try reflexivity; intro; congruence. }
  assert (Hplain : OMRProcessor.grid_structure results = None
                   \/ OMRProcessor.grid_structure results = Some None
                   \/ (exists g, OMRProcessor.grid_structure results = Some (Some g)
                                 /\ (OMRProcessor.grid_truthy g = false
                                     \/ OMRProcessor.rows g = Some [])) ->
                   exists overlay,
                     OMRProcessor.create_overlay_image img results sa = Py.Ok overlay
                     /\ annotated (base_overlay img) overlay
                     /\ overlay = base_overlay img).
  { intro Hc. destruct (create_overlay_without_rows img results sa Hc) as (E & _).
    exists (base_overlay img). split; [exact E|]. split; [apply annotated_refl|reflexivity]. }
  destruct H as [Hnone|[Hnone|(g & Hg & [Hempty|(rs & Hrs)])]].
  - destruct Hplain as (o & E & Ha & Ho); [now left|].
    exists o. split; [exact E|]. split; [exact Ha|]. intros _. now apply Hbase.
  - destruct Hplain as (o & E & Ha & Ho); [right; now left|].
    exists o. split; [exact E|]. split; [exact Ha|]. intros _. now apply Hbase.
  - destruct Hplain as (o & E & Ha & Ho).
    { right. right. exists g. split; [exact Hg|now left]. }
    exists o. split; [exact E|]. split; [exact Ha|]. intros _. now apply Hbase.
  - destruct rs as [|row rs].
    + destruct Hplain as (o & E & Ha & Ho).
      { right. right. exists g. split; [exact Hg|now right]. }
      exists o. split; [exact E|]. split; [exact Ha|]. intros _. now apply Hbase.
    + assert (Ht : OMRProcessor.grid_truthy g = true)
        by (unfold OMRProcessor.grid_truthy; now rewrite Hrs).
      unfold OMRProcessor.create_overlay_image. fold (base_overlay img).
      rewrite Hg, Ht, Hrs. simpl.
      eexists. split; [reflexivity|]. split; [apply annotates_draw_grid|].
      intros [Hn|[Hn|(g' & Hg' & [Hf|Hr])]]; [congruence|congruence| |];
        inversion Hg'; subst g'; congruence.
Qed.

(** X21, on a grayscale image: without rows the renderer returns its
    unannotated three-channel copy; with the sample grid it returns the copy
    with four bubbles and a label drawn. *)
Lemma X21_witness :
  (exists overlay,
      OMRProcessor.create_overlay_image Samples.gray_image Samples.nothing_detected []
      = Py.Ok overlay
      /\ overlay = OMRProcessor.cvtColor_GRAY2BGR Samples.gray_image
      /\ OMRProcessor.drawn overlay = [])
  /\ (exists overlay,
         OMRProcessor.create_overlay_image Samples.gray_image Samples.detected []
         = Py.Ok overlay
         /\ List.length (OMRProcessor.drawn overlay) = 5%nat).
Proof.
  split.
  - destruct (X21_overlay_returns_base_unless_rowless
                Samples.gray_image Samples.nothing_detected [])
      as (overlay & Ho & _ & Hbase).
    + right. right. eexists. split; [reflexivity|]. right. eexists. reflexivity.
    + exists overlay. split; [exact Ho|].
      destruct Hbase as (E1 & E2 & _).
      * right. right. eexists. split; [reflexivity|]. now right.
      * split; [exact E1|exact E2].
  - destruct (X21_overlay_returns_base_unless_rowless Samples.gray_image Samples.detected [])
      as (overlay & Ho & _ & _).
    + right. right. eexists. split; [reflexivity|]. right. eexists. reflexivity.
    + exists overlay. split; [exact Ho|].
      vm_compute in Ho. inversion Ho. reflexivity.
Defined.

(** ** Further properties of the pipeline *)

Section PipelineMore.

Import OMRProcessor.

Variable c : components.
Variable self : processor.

(** Case analysis over the outcome of every call the pipeline makes. *)
Ltac pipeline_cases :=
  unfold process_omr_sheet, process_steps, score_step, confidence_step, overlay_step,
    Py.sbind, Py.lift, Py.modify, Py.sret, Py.field;
  repeat match goal with
    | |- context [match ?x with _ => _ end] =>
        lazymatch x with
        | context [match _ with _ => _ end] => fail
        | _ => destruct x eqn:?
        end
    end.

Lemma process_outcome image_path version sid :
  let r := process_omr_sheet c self image_path version sid in
  ((success r = true /\ error_message r = None
    /\ fp_processed (r_file_paths r) = Some (Py.replace_char "." "_processed." image_path)
    /\ fp_overlay (r_file_paths r) = Some (Py.replace_char "." "_overlay." image_path)
    /\ bubble_detection r <> None
    /\ r_processing_info r <> None
    /\ scores r <> NoScores)
   \/ (success r = false
       /\ exists e, error_message r
                    = Some ("Error processing OMR sheet: " ++ Py.exn_str e)%string))
  /\ student_id r = sid
  /\ fp_original (r_file_paths r) = image_path
  /\ timestamp r = utcnow_isoformat c
  /\ (forall v, version = Some v -> sheet_version r = Some v)
  /\ (version = None -> sheet_version r = None \/ sheet_version r = Some "A").
Proof.
  cbv zeta. pipeline_cases;
    cbn [success error_message set_success set_error_message student_id r_file_paths
         fp_original fp_processed fp_overlay timestamp sheet_version bubble_detection
         r_processing_info scores set_processing_info set_processed_path set_overlay_path
         set_file_paths set_sheet_version set_bubble_detection set_student_answers
         set_flagged_questions set_scores set_confidence_metrics initial_results];
    (split;
     [ first [ left; repeat split; (reflexivity || discriminate)
             | right; split; [reflexivity|eexists; reflexivity] ]
     | repeat split; intros; subst; try reflexivity; try discriminate; auto ]).
Qed.

(** The body of the [try] block sets [success] only as its last step and
    never sets the error message. *)
Lemma process_steps_outcome image_path version sid :
  let out := process_steps c self image_path version
               (initial_results c image_path version sid) in
  error_message (snd out) = None
  /\ success (snd out) = Py.is_ok (fst out).
Proof.
  cbv zeta.
  unfold process_steps, score_step, confidence_step, overlay_step,
    Py.sbind, Py.lift, Py.modify, Py.sret, Py.field;
  repeat match goal with
    | |- context [match ?x with _ => _ end] =>
        lazymatch x with
        | context [match _ with _ => _ end] => fail
        | _ => destruct x eqn:?
        end
    end;
  split; reflexivity.
Qed.

(** The result of a run, from the outcome of the [try] block. *)
Lemma process_result_outcome image_path version sid :
  let r := process_omr_sheet c self image_path version sid in
  match fst (process_steps c self image_path version
               (initial_results c image_path version sid)) with
  | Py.Ok _ => success r = true /\ error_message r = None
  | Py.Raise e =>
      success r = false
      /\ error_message r = Some ("Error processing OMR sheet: " ++ Py.exn_str e)%string
  end.
Proof.
  cbv zeta. destruct (process_steps_outcome image_path version sid) as (He & Hs).
  unfold process_omr_sheet.
  destruct (process_steps c self image_path version
              (initial_results c image_path version sid)) as [[u|e] res];
    cbn [fst snd Py.is_ok] in *.
  - now split.
  - split; reflexivity.
Qed.

(** The first three stages: what the result holds when one of them
    raises. *)
Lemma early_failures image_path version sid :
  let r := process_omr_sheet c self image_path version sid in
  (forall e,
      preprocess_image c image_path = Py.Raise e ->
      error_message r = Some ("Error processing OMR sheet: " ++ Py.exn_str e)%string
      /\ r_processing_info r = None
      /\ fp_processed (r_file_paths r) = None
      /\ bubble_detection r = None)
  /\ (forall processed_image info e,
         preprocess_image c image_path = Py.Ok (processed_image, info) ->
         imwrite c (Py.replace_char "." "_processed." image_path) processed_image
           = Py.Raise e ->
         error_message r = Some ("Error processing OMR sheet: " ++ Py.exn_str e)%string
         /\ r_processing_info r = Some info
         /\ fp_processed (r_file_paths r) = None
         /\ bubble_detection r = None)
  /\ (forall processed_image info w e,
         preprocess_image c image_path = Py.Ok (processed_image, info) ->
         imwrite c (Py.replace_char "." "_processed." image_path) processed_image
           = Py.Ok w ->
         detect_and_classify_bubbles c processed_image = Py.Raise e ->
         error_message r = Some ("Error processing OMR sheet: " ++ Py.exn_str e)%string
         /\ r_processing_info r = Some info
         /\ fp_processed (r_file_paths r)
            = Some (Py.replace_char "." "_processed." image_path)
         /\ bubble_detection r = None).
Proof.
  cbv zeta. unfold process_omr_sheet, process_steps, Py.sbind, Py.lift, Py.modify, Py.sret.
  split; [|split].
  - intros e ->. repeat split.
  - intros processed_image info e -> ->. repeat split.
  - intros processed_image info w e -> -> Hd.
    destruct version as [v|]; rewrite Hd; repeat split.
Qed.

End PipelineMore.

(** X4. Whatever the collaborators do, [process_omr_sheet] returns a result
    in which [success] is true exactly when no error message is set. When
    the body of the [try] block raises, the result is a failure whose
    message is the text of that very exception after the fixed prefix; in
    particular a failure of the preprocessing, of the first image write or
    of the detection is reported with its own text, together with what the
    stages before it had stored. When the body returns, the result is a
    success, with both written paths, the processing information, the
    detection results and a score section. Every result carries the student
    id, the original path and the time stamp of the call. *)
Theorem X4_result_is_consistent :
  forall (c : OMRProcessor.components) (self : OMRProcessor.processor)
         (image_path : string) (sheet_version student_id : option string),
    let r := OMRProcessor.process_omr_sheet c self image_path sheet_version student_id in
    (OMRProcessor.success r = true <-> OMRProcessor.error_message r = None)
    /\ match fst (OMRProcessor.process_steps c self image_path sheet_version
                    (OMRProcessor.initial_results c image_path sheet_version student_id))
       with
       | Py.Ok _ => OMRProcessor.success r = true
       | Py.Raise e =>
           OMRProcessor.success r = false
           /\ OMRProcessor.error_message r
              = Some ("Error processing OMR sheet: " ++ Py.exn_str e)%string
       end
    /\ (forall e,
           OMRProcessor.preprocess_image c image_path = Py.Raise e ->
           OMRProcessor.error_message r
           = Some ("Error processing OMR sheet: " ++ Py.exn_str e)%string
           /\ OMRProcessor.r_processing_info r = None
           /\ OMRProcessor.fp_processed (OMRProcessor.r_file_paths r) = None
           /\ OMRProcessor.bubble_detection r = None)
    /\ (forall processed_image info e,
           OMRProcessor.preprocess_image c image_path = Py.Ok (processed_image, info) ->
           OMRProcessor.imwrite c (Py.replace_char "." "_processed." image_path)
             processed_image = Py.Raise e ->
           OMRProcessor.error_message r
           = Some ("Error processing OMR sheet: " ++ Py.exn_str e)%string
           /\ OMRProcessor.r_processing_info r = Some info
           /\ OMRProcessor.fp_processed (OMRProcessor.r_file_paths r) = None
           /\ OMRProcessor.bubble_detection r = None)
    /\ (forall processed_image info w e,
           OMRProcessor.preprocess_image c image_path = Py.Ok (processed_image, info) ->
           OMRProcessor.imwrite c (Py.replace_char "." "_processed." image_path)
             processed_image = Py.Ok w ->
           OMRProcessor.detect_and_classify_bubbles c processed_image = Py.Raise e ->
           OMRProcessor.error_message r
           = Some ("Error processing OMR sheet: " ++ Py.exn_str e)%string
           /\ OMRProcessor.r_processing_info r = Some info
           /\ OMRProcessor.fp_processed (OMRProcessor.r_file_paths r)
              = Some (Py.replace_char "." "_processed." image_path)
           /\ OMRProcessor.bubble_detection r = None)
    /\ (OMRProcessor.success r = true ->
        OMRProcessor.fp_processed (OMRProcessor.r_file_paths r)
        = Some (Py.replace_char "." "_processed." image_path)
        /\ OMRProcessor.fp_overlay (OMRProcessor.r_file_paths r)
           = Some (Py.replace_char "." "_overlay." image_path)
        /\ OMRProcessor.bubble_detection r <> None
        /\ OMRProcessor.r_processing_info r <> None
        /\ OMRProcessor.scores r <> OMRProcessor.NoScores)
    /\ OMRProcessor.student_id r = student_id
    /\ OMRProcessor.fp_original (OMRProcessor.r_file_paths r) = image_path
    /\ OMRProcessor.timestamp r = OMRProcessor.utcnow_isoformat c.
Proof.
  intros c self image_path sheet_version student_id r.
  destruct (process_outcome c self image_path sheet_version student_id)
    as (Hcase & F1 & F2 & F3 & _).
  pose proof (process_result_outcome c self image_path sheet_version student_id) as Hout.
  destruct (early_failures c self image_path sheet_version student_id) as (E1 & E2 & E3).
  cbv zeta in Hout. fold r in Hcase, F1, F2, F3, Hout, E1, E2, E3.
  split; [|split; [|split; [|split; [|split; [|split]]]]].
  - destruct Hcase as [(Hs & He & _)|(Hs & e & He)]; rewrite Hs, He;
      split; intro; (reflexivity || discriminate).
  - destruct (fst (OMRProcessor.process_steps c self image_path sheet_version _));
      [exact (proj1 Hout)|exact Hout].
  - exact E1.
  - exact E2.
  - exact E3.
  - destruct Hcase as [(Hs & He & H)|(Hs & _)]; [intros _; exact H|rewrite Hs; discriminate].
  - repeat split; assumption.
Qed.

(** X4, on an image that cannot be read: the failure carries the reader's
    message. *)
Lemma X4_witness :
  let r := OMRProcessor.process_omr_sheet Samples.unreadable OMRProcessor.new_processor
             "lost.png" None (Some "S7") in
  OMRProcessor.success r = false
  /\ OMRProcessor.error_message r
     = Some "Error processing OMR sheet: Could not load image from lost.png"
  /\ OMRProcessor.student_id r = Some "S7".
Proof.
  cbv zeta.
  pose proof (X4_result_is_consistent Samples.unreadable OMRProcessor.new_processor
                "lost.png" None (Some "S7")) as (Hiff & _ & Hpre & _ & _ & _ & Hid & _).
  destruct (Hpre _ eq_refl) as (Hmsg & _).
  split; [|split; [exact Hmsg|exact Hid]].
  destruct (OMRProcessor.success _) eqn:Hs; [|reflexivity].
  pose proof (proj1 Hiff eq_refl) as Hn. rewrite Hmsg in Hn. discriminate Hn.
Defined.

Section Scoring.

Import OMRProcessor.

Variable c : components.

(** A sheet whose stages before step 5 return arrives at the scoring step
    with its answers mapped and nothing scored yet. *)
Lemma reaches_scoring (self : processor) image_path version sid processed_image info w
      results n g cls mapping :
  preprocess_image c image_path = Py.Ok (processed_image, info) ->
  imwrite c (Py.replace_char "." "_processed." image_path) processed_image = Py.Ok w ->
  detect_and_classify_bubbles c processed_image = Py.Ok results ->
  bubbles_detected results = Some n ->
  n <> 0 ->
  grid_structure results = Some g ->
  classifications results = Some cls ->
  map_bubbles_to_answers c g cls = Py.Ok mapping ->
  exists s,
    (student_answers s = answers mapping
     /\ flagged_questions s = am_flagged_questions mapping
     /\ bubble_detection s = Some results
     /\ scores s = NoScores
     /\ error_message s = None
     /\ fp_overlay (r_file_paths s) = None)
    /\ process_omr_sheet c self image_path version sid
       = match Py.sbind
                 (score_step self
                    (match version with
                     | Some v => v
                     | None => detect_sheet_version processed_image
                     end) mapping)
                 (fun _ => Py.sbind (confidence_step c results)
                             (fun _ => overlay_step c image_path results mapping)) s with
         | (Py.Ok _, res) => res
         | (Py.Raise e, res) =>
             set_success false
               (set_error_message ("Error processing OMR sheet: " ++ Py.exn_str e)%string res)
         end.
Proof.
  intros Hpre Hw Hdet Hn Hn0 Hg Hcls Hmap. apply Z.eqb_neq in Hn0.
  unfold process_omr_sheet, process_steps.
  unfold Py.sbind at 1, Py.lift at 1. rewrite Hpre.
  unfold Py.sbind at 1, Py.modify at 1.
  unfold Py.sbind at 1, Py.lift at 1. rewrite Hw.
  unfold Py.sbind at 1, Py.modify at 1.
  unfold Py.sbind at 1.
  set (s1 := set_processed_path _ _).
  assert (Hver : exists s2,
             (match version with
              | Some v => Py.sret v
              | None => Py.sbind
                          (Py.modify (set_sheet_version (detect_sheet_version processed_image)))
                          (fun _ => Py.sret (detect_sheet_version processed_image))
              end) s1
             = (Py.Ok (match version with
                       | Some v => v
                       | None => detect_sheet_version processed_image
                       end), s2)
             /\ error_message s2 = None /\ scores s2 = NoScores
             /\ fp_overlay (r_file_paths s2) = None).
  { destruct version; eexists; split; try reflexivity; repeat split. }
  destruct Hver as (s2 & -> & Herr & Hsc & Hov).
  unfold Py.sbind at 1, Py.lift at 1. rewrite Hdet.
  unfold Py.sbind at 1, Py.modify at 1.
  unfold Py.sbind at 1, Py.lift at 1. rewrite Hn. simpl Py.field. cbv iota.
  rewrite Hn0.
  unfold Py.sbind at 1, Py.lift at 1. rewrite Hg. simpl Py.field. cbv iota.
  unfold Py.sbind at 1, Py.lift at 1. rewrite Hcls. simpl Py.field. cbv iota.
  unfold Py.sbind at 1, Py.lift at 1. rewrite Hmap.
  unfold Py.sbind at 1, Py.modify at 1.
  unfold Py.sbind at 1, Py.modify at 1.
  eexists. split; [|reflexivity].
  repeat split; assumption.
Qed.

End Scoring.

(** X5. After [set_answer_key(version, key)], a sheet of that version
    (declared, or detected when none is declared) whose stages before step 5
    return is scored against [key]: when the scorer returns, its dictionary
    is the result's score section and the sheet succeeds exactly when the
    remaining steps do; when the scorer raises, the sheet fails with the
    exception's message, keeps its mapped answers and has no scores and no
    overlay. *)
Theorem X5_registered_key_scores_the_sheet :
  forall (c : OMRProcessor.components) (self : OMRProcessor.processor)
         image_path sheet_version student_id processed_image info w results n g cls mapping
         (key : Py.dict string),
    OMRProcessor.preprocess_image c image_path = Py.Ok (processed_image, info) ->
    OMRProcessor.imwrite c (Py.replace_char "." "_processed." image_path) processed_image
      = Py.Ok w ->
    OMRProcessor.detect_and_classify_bubbles c processed_image = Py.Ok results ->
    OMRProcessor.bubbles_detected results = Some n ->
    n <> 0 ->
    OMRProcessor.grid_structure results = Some g ->
    OMRProcessor.classifications results = Some cls ->
    OMRProcessor.map_bubbles_to_answers c g cls = Py.Ok mapping ->
    let version :=
      match sheet_version with
      | Some v => v
      | None => OMRProcessor.detect_sheet_version processed_image
      end in
    let r := OMRProcessor.process_omr_sheet c (OMRProcessor.set_answer_key self version key)
               image_path sheet_version student_id in
    OMRProcessor.student_answers r = OMRProcessor.answers mapping
    /\ match OMRProcessor.calculate_subject_scores (OMRProcessor.subject_config_of self)
               (OMRProcessor.answers mapping) key with
       | Py.Ok s =>
           OMRProcessor.scores r = OMRProcessor.Scored s
           /\ OMRProcessor.success r
              = Py.is_ok (fst (Py.sbind (OMRProcessor.confidence_step c results)
                                 (fun _ => OMRProcessor.overlay_step c image_path results mapping)
                                 (OMRProcessor.initial_results c image_path sheet_version
                                    student_id)))
       | Py.Raise e =>
           OMRProcessor.success r = false
           /\ OMRProcessor.error_message r
              = Some ("Error processing OMR sheet: " ++ Py.exn_str e)%string
           /\ OMRProcessor.scores r = OMRProcessor.NoScores
           /\ OMRProcessor.fp_overlay (OMRProcessor.r_file_paths r) = None
       end.
Proof.
  intros c self image_path sheet_version student_id processed_image info w results n g cls
         mapping key Hpre Hw Hdet Hn Hn0 Hg Hcls Hmap version r.
  destruct (reaches_scoring c (OMRProcessor.set_answer_key self version key)
              image_path sheet_version student_id processed_image info w results n g cls
              mapping Hpre Hw Hdet Hn Hn0 Hg Hcls Hmap)
    as (s & (E1 & E2 & E3 & E4 & E5 & E6) & Hr).
  fold version in Hr. fold r in Hr. clearbody r.
  unfold Py.sbind at 1, OMRProcessor.score_step in Hr.
  unfold Py.contains, Py.getitem, OMRProcessor.set_answer_key in Hr.
  cbn [OMRProcessor.answer_keys OMRProcessor.subject_config_of] in Hr.
  rewrite get_set_eq in Hr.
  unfold Py.sbind at 1, Py.lift at 1 in Hr.
  unfold Py.sbind at 1, Py.lift at 1 in Hr.
  destruct (OMRProcessor.calculate_subject_scores (OMRProcessor.subject_config_of self)
              (OMRProcessor.answers mapping) key) as [sc|e].
  - unfold Py.modify at 1 in Hr.
    set (s3 := OMRProcessor.set_scores (OMRProcessor.Scored sc) s) in Hr.
    pose proof (later_steps_frame c image_path results mapping s3) as Hframe.
    pose proof (later_steps_outcome c image_path results mapping s3
                  (OMRProcessor.initial_results c image_path sheet_version student_id)) as Hout.
    cbv zeta in Hframe. rewrite <- Hout.
    assert (F1 : OMRProcessor.scores s3 = OMRProcessor.Scored sc) by reflexivity.
    assert (F2 : OMRProcessor.student_answers s3 = OMRProcessor.answers mapping) by exact E1.
    clearbody s3.
    destruct (Py.sbind (OMRProcessor.confidence_step c results) _ s3) as [[[]|e] s4];
      cbn [fst snd] in Hframe; cbv beta iota in Hr; subst r;
      destruct Hframe as (H1 & H2 & _ & _ & H5).
    + destruct (H5 eq_refl) as (H6 & _). rewrite H1, H2, H6, F1, F2. repeat split.
    + unfold OMRProcessor.set_success, OMRProcessor.set_error_message.
      cbn [OMRProcessor.scores OMRProcessor.student_answers OMRProcessor.success fst Py.is_ok].
      rewrite H1, H2, F1, F2. repeat split.
  - cbv beta iota in Hr. subst r.
    unfold OMRProcessor.set_success, OMRProcessor.set_error_message.
    cbn [OMRProcessor.scores OMRProcessor.student_answers OMRProcessor.success
         OMRProcessor.error_message OMRProcessor.r_file_paths].
    rewrite E1, E4, E6. repeat split.
Qed.

(** X5, on a sheet declared as version ["B"] whose key is registered just
    before: the one mapped answer is scored. *)
Lemma X5_witness :
  let r := OMRProcessor.process_omr_sheet Samples.collaborators
             (OMRProcessor.set_answer_key OMRProcessor.new_processor "B" [("1", "a")])
             "a.png" (Some "B") None in
  OMRProcessor.success r = true
  /\ exists s, OMRProcessor.scores r = OMRProcessor.Scored s
               /\ OMRProcessor.correct_answers s = 1.
Proof.
  assert (H40 : 4 <> 0) by discriminate.
  pose proof (X5_registered_key_scores_the_sheet
                Samples.collaborators OMRProcessor.new_processor
                "a.png" (Some "B") None _ _ _ _ 4 _ _ _ [("1", "a")]
                eq_refl eq_refl eq_refl eq_refl H40 eq_refl eq_refl eq_refl) as (_ & H).
  cbv zeta in H.
  destruct (OMRProcessor.calculate_subject_scores _ _ _) as [s|e] eqn:E in H;
    [|vm_compute in E; discriminate E].
  destruct H as (Hs & Hok). split; [exact Hok|].
  exists s. split; [exact Hs|]. vm_compute in E. inversion E. reflexivity.
Defined.

(** ** The names of the written images *)

Section Paths.

Lemma replace_char_without c new s :
  without_char c s -> Py.replace_char c new s = s.
Proof.
  unfold without_char. induction s as [|a r IH]; simpl; [reflexivity|].
  intro H. apply andb_true_iff in H. destruct H as (Ha & Hr).
  destruct (Ascii.eqb a c); [discriminate|]. now rewrite IH.
Qed.

Lemma replace_char_app c new s t :
  Py.replace_char c new (s ++ t)%string
  = (Py.replace_char c new s ++ Py.replace_char c new t)%string.
Proof.
  induction s as [|a r IH]; simpl; [reflexivity|].
  destruct (Ascii.eqb a c); rewrite IH; [|reflexivity].
  generalize (Py.replace_char c new r) (Py.replace_char c new t). clear.
  intros x y. induction new as [|b new IH]; simpl; [reflexivity|]. now rewrite IH.
Qed.

Lemma replace_dot_in_name new stem ext :
  without_char "." stem -> without_char "." ext ->
  Py.replace_char "." new (stem ++ "." ++ ext)%string = (stem ++ new ++ ext)%string.
Proof.
  intros Hs He. rewrite replace_char_app, (replace_char_without _ _ _ Hs). simpl.
  now rewrite (replace_char_without _ _ _ He).
Qed.

End Paths.

(** X6. The names of the two written images come from replacing every
    dot of the image path. A successful run on a path [stem.ext] with no
    other dot records [stem_processed.ext] and [stem_overlay.ext]. On a path
    without any dot the name is the image path itself, so the processed
    image is written over the original name: when the writer refuses that
    name (OpenCV refuses a name without extension) the sheet fails with the
    writer's message and records no written path. *)
Theorem X6_written_paths :
  forall (c : OMRProcessor.components) (self : OMRProcessor.processor)
         (image_path : string) (sheet_version student_id : option string),
    let r := OMRProcessor.process_omr_sheet c self image_path sheet_version student_id in
    (forall stem ext,
        without_char "." stem -> without_char "." ext ->
        image_path = (stem ++ "." ++ ext)%string ->
        OMRProcessor.success r = true ->
        OMRProcessor.fp_processed (OMRProcessor.r_file_paths r)
        = Some (stem ++ "_processed." ++ ext)%string
        /\ OMRProcessor.fp_overlay (OMRProcessor.r_file_paths r)
           = Some (stem ++ "_overlay." ++ ext)%string)
    /\ (forall processed_image info e,
           without_char "." image_path ->
           OMRProcessor.preprocess_image c image_path = Py.Ok (processed_image, info) ->
           OMRProcessor.imwrite c image_path processed_image = Py.Raise e ->
           OMRProcessor.success r = false
           /\ OMRProcessor.error_message r
              = Some ("Error processing OMR sheet: " ++ Py.exn_str e)%string
           /\ OMRProcessor.fp_processed (OMRProcessor.r_file_paths r) = None
           /\ OMRProcessor.fp_overlay (OMRProcessor.r_file_paths r) = None).
Proof.
  intros c self image_path sheet_version student_id r.
  split.
  - intros stem ext H1 H2 -> Hs.
    destruct (process_outcome c self (stem ++ "." ++ ext)%string sheet_version student_id)
      as (Hcase & _).
    fold r in Hcase.
    destruct Hcase as [(_ & _ & Hp & Ho & _)|(Hf & _)]; [|congruence].
    now rewrite Hp, Ho, !replace_dot_in_name.
  - intros processed_image info e Hd Hpre Hw. subst r.
    unfold OMRProcessor.process_omr_sheet, OMRProcessor.process_steps,
      Py.sbind, Py.lift, Py.modify, Py.sret.
    rewrite Hpre, (replace_char_without _ _ _ Hd), Hw. repeat split.
Qed.

(** X6, on the paths ["a.png"] and ["scan"] with the sample writer. *)
Lemma X6_witness :
  OMRProcessor.fp_overlay
    (OMRProcessor.r_file_paths
       (OMRProcessor.process_omr_sheet Samples.collaborators OMRProcessor.new_processor
          "a.png" None None)) = Some "a_overlay.png"
  /\ OMRProcessor.success
       (OMRProcessor.process_omr_sheet Samples.collaborators OMRProcessor.new_processor
          "scan" None None) = false
  /\ OMRProcessor.fp_processed
       (OMRProcessor.r_file_paths
          (OMRProcessor.process_omr_sheet Samples.collaborators OMRProcessor.new_processor
             "scan" None None)) = None.
Proof.
  split.
  - apply (proj1 (X6_written_paths Samples.collaborators OMRProcessor.new_processor
                    "a.png" None None) "a" "png"); reflexivity.
  - destruct (proj2 (X6_written_paths Samples.collaborators OMRProcessor.new_processor
                       "scan" None None) _ _ _ eq_refl eq_refl eq_refl)
      as (Hs & _ & Hp & _).
    split; [exact Hs|exact Hp].
Defined.

(** ** Dictionaries that count *)

Section CountingDict.

Context {A : Type}.
Variable key : A -> string.
Variable keep : A -> bool.
Variable step : Py.dict Z -> A -> Py.dict Z.

(** [step] counts a kept element under its key:
    [d[k] = d.get(k, 0) + 1]. *)
Hypothesis step_counts :
  forall d a, step d a = if keep a then Py.set d (key a) (count_of d (key a) + 1) else d.

Lemma count_of_set (d : Py.dict Z) k v k' :
  count_of (Py.set d k v) k' = if String.eqb k k' then v else count_of d k'.
Proof.
  unfold count_of. destruct (String.eqb_spec k k') as [->|Hne].
  - now rewrite get_set_eq.
  - now rewrite get_set_ne.
Qed.

Lemma fold_step_count l :
  forall d k,
    count_of (fold_left step l d) k
    = count_of d k
      + Z.of_nat (List.length (filter (fun a => keep a && String.eqb (key a) k) l)).
Proof.
  induction l as [|a l IH]; intros d k; simpl; [lia|].
  rewrite IH, step_counts.
  destruct (keep a); simpl; [|lia].
  rewrite count_of_set.
  destruct (String.eqb (key a) k) eqn:E; simpl List.length; [|lia].
  apply String.eqb_eq in E. subst k. lia.
Qed.

Lemma fold_step_positive l :
  forall d, Forall (fun n => 1 <= n) (Py.values d) ->
            Forall (fun n => 1 <= n) (Py.values (fold_left step l d)).
Proof.
  induction l as [|a l IH]; intros d Hd; simpl; [exact Hd|].
  apply IH. rewrite step_counts. destruct (keep a); [|exact Hd].
  apply values_set_forall; [exact Hd|].
  unfold count_of. destruct (Py.get d (key a)) as [n|] eqn:E; [|lia].
  pose proof (get_values_forall _ d (key a) n Hd E). simpl in *. lia.
Qed.

(** The counts started from the empty dictionary: every key holds the
    number of kept elements with that key, and only keys that occur are
    present. *)
Lemma fold_step_from_empty l k :
  count_of (fold_left step l []) k
  = Z.of_nat (List.length (filter (fun a => keep a && String.eqb (key a) k) l))
  /\ (In k (Py.keys (fold_left step l []))
      <-> exists a, In a l /\ keep a = true /\ key a = k).
Proof.
  pose proof (fold_step_count l [] k) as Hc. change (count_of [] k) with 0 in Hc.
  split; [lia|].
  split.
  - intro Hin. apply in_keys_get in Hin. destruct Hin as (n & Hn).
    assert (Hpos : 1 <= n).
    { eapply get_values_forall; [|exact Hn]. apply fold_step_positive. constructor. }
    unfold count_of in Hc. rewrite Hn in Hc.
    destruct (filter _ l) as [|a rest] eqn:E; [simpl in Hc; lia|].
    assert (Ha : In a (filter (fun a => keep a && String.eqb (key a) k) l))
      by (rewrite E; now left).
    apply filter_In in Ha. destruct Ha as (Ha & Hk).
    apply andb_true_iff in Hk. destruct Hk as (Hk1 & Hk2).
    exists a. repeat split; [exact Ha|exact Hk1|now apply String.eqb_eq].
  - intros (a & Ha & Hk1 & Hk2).
    assert (Hf : In a (filter (fun a => keep a && String.eqb (key a) k) l)).
    { apply filter_In. split; [exact Ha|]. rewrite Hk1, Hk2. apply String.eqb_refl. }
    destruct (Py.get (fold_left step l []) k) as [n|] eqn:E.
    + eapply get_some_in_keys; eauto.
    + unfold count_of in Hc. rewrite E in Hc.
      destruct (filter _ l); [contradiction|simpl in Hc; lia].
Qed.

End CountingDict.

(** X7. Whenever [generate_summary_report] returns, the sheets it counts
    add up ([total_sheets] is the number of results and
    [successful + failed = total]), every issue is counted as often as it is
    flagged on the successful sheets and on no others, an issue is listed
    only if it occurs there, and without a successful sheet the average is
    the integer 0. It returns whenever [np.mean] does, and on the results of
    a batch [total_sheets] is the number of image paths. *)
Theorem X7_summary_counts :
  forall (c : OMRProcessor.components),
    (forall (batch_results : list OMRProcessor.processing_result) s,
        OMRProcessor.generate_summary_report c batch_results = Py.Ok s ->
        OMRProcessor.total_sheets s = Z.of_nat (List.length batch_results)
        /\ OMRProcessor.successful_processing s
           = Z.of_nat (List.length (filter OMRProcessor.success batch_results))
        /\ OMRProcessor.successful_processing s + OMRProcessor.failed_processing s
           = OMRProcessor.total_sheets s
        /\ 0 <= OMRProcessor.failed_processing s
        /\ (forall issue,
               count_of (OMRProcessor.common_issues s) issue
               = occurrences OMRProcessor.fq_issue issue
                   (flat_map OMRProcessor.flagged_questions
                      (filter OMRProcessor.success batch_results))
               /\ (In issue (Py.keys (OMRProcessor.common_issues s))
                   <-> 0 < occurrences OMRProcessor.fq_issue issue
                             (flat_map OMRProcessor.flagged_questions
                                (filter OMRProcessor.success batch_results))))
        /\ (filter OMRProcessor.success batch_results = [] ->
            OMRProcessor.average_score s = Py.NInt 0))
    /\ (forall batch_results,
           (forall l, exists m, OMRProcessor.np_mean c l = Py.Ok m) ->
           exists s, OMRProcessor.generate_summary_report c batch_results = Py.Ok s)
    /\ (forall self image_paths sheet_versions student_ids s,
           OMRProcessor.generate_summary_report c
             (OMRProcessor.batch_process_omr_sheets c self image_paths sheet_versions
                student_ids) = Py.Ok s ->
           OMRProcessor.total_sheets s = Z.of_nat (List.length image_paths)).
Proof.
  intro c.
  assert (Hstep : forall d a,
             OMRProcessor.count_issue d a
             = if (fun _ : OMRProcessor.flagged_question => true) a
               then Py.set d (OMRProcessor.fq_issue a) (count_of d (OMRProcessor.fq_issue a) + 1)
               else d) by reflexivity.
  assert (Hmain : forall batch_results s,
             OMRProcessor.generate_summary_report c batch_results = Py.Ok s ->
             OMRProcessor.total_sheets s = Z.of_nat (List.length batch_results)
             /\ OMRProcessor.successful_processing s
                = Z.of_nat (List.length (filter OMRProcessor.success batch_results))
             /\ OMRProcessor.failed_processing s
                = Z.of_nat (List.length batch_results)
                  - Z.of_nat (List.length (filter OMRProcessor.success batch_results))
             /\ OMRProcessor.common_issues s
                = fold_left OMRProcessor.count_issue
                    (flat_map OMRProcessor.flagged_questions
                       (filter OMRProcessor.success batch_results)) []
             /\ (filter OMRProcessor.success batch_results = [] ->
                 OMRProcessor.average_score s = Py.NInt 0)).
  { intros batch_results s. unfold OMRProcessor.generate_summary_report.
    destruct (filter OMRProcessor.success batch_results) as [|r0 rs] eqn:E.
    - intros [= <-]. simpl. repeat split.
    - destruct (OMRProcessor.total_scores_of (r0 :: rs)) as [|t ts].
      + simpl. intros [= <-]. simpl. repeat split; discriminate.
      + destruct (OMRProcessor.np_mean c _) as [m|e]; simpl; [|discriminate].
        intros [= <-]. simpl. repeat split; discriminate. }
  split; [|split].
  - intros batch_results s Hs.
    destruct (Hmain batch_results s Hs) as (H1 & H2 & H3 & H4 & H5).
    pose proof (filter_length_le OMRProcessor.success batch_results) as Hle.
    split; [exact H1|]. split; [exact H2|]. split; [lia|]. split; [lia|].
    split; [|exact H5].
    intro issue. rewrite H4.
    destruct (fold_step_from_empty OMRProcessor.fq_issue (fun _ => true)
                OMRProcessor.count_issue Hstep
                (flat_map OMRProcessor.flagged_questions
                   (filter OMRProcessor.success batch_results)) issue) as (Hc & Hk).
    unfold occurrences. simpl in Hc. split; [exact Hc|].
    rewrite Hk. split.
    + intros (a & Ha & _ & Hka).
      assert (Hin : In a (filter (fun a => String.eqb (OMRProcessor.fq_issue a) issue)
                            (flat_map OMRProcessor.flagged_questions
                               (filter OMRProcessor.success batch_results)))).
      { apply filter_In. split; [exact Ha|]. rewrite Hka. apply String.eqb_refl. }
      destruct (filter (fun a => String.eqb (OMRProcessor.fq_issue a) issue) _);
        [contradiction|simpl List.length; lia].
    + intro Hpos.
      destruct (filter (fun a => String.eqb (OMRProcessor.fq_issue a) issue) _)
        as [|a rest] eqn:E; [simpl in Hpos; lia|].
      assert (Hin : In a (filter (fun a => String.eqb (OMRProcessor.fq_issue a) issue)
                            (flat_map OMRProcessor.flagged_questions
                               (filter OMRProcessor.success batch_results))))
        by (rewrite E; now left).
      apply filter_In in Hin. destruct Hin as (Ha & Hk').
      exists a. repeat split; [exact Ha|now apply String.eqb_eq].
  - intros batch_results Hmean. unfold OMRProcessor.generate_summary_report.
    destruct (filter OMRProcessor.success batch_results) as [|r0 rs]; [now eexists|].
    destruct (OMRProcessor.total_scores_of (r0 :: rs)) as [|t ts]; [now eexists|].
    destruct (Hmean (map Py.to_float (t :: ts))) as (m & ->). now eexists.
  - intros self image_paths sheet_versions student_ids s Hs.
    destruct (Hmain _ s Hs) as (H1 & _). rewrite H1. f_equal. apply batch_length.
Qed.

(** X7, on the batch of three sheets whose second one is blank: two
    successes, one failure, no flags. *)
Lemma X7_witness :
  exists s,
    OMRProcessor.generate_summary_report Samples.collaborators
      (OMRProcessor.batch_process_omr_sheets Samples.collaborators OMRProcessor.new_processor
         ["a.png"; "blank.png"; "c.png"] None None) = Py.Ok s
    /\ OMRProcessor.total_sheets s = 3
    /\ OMRProcessor.successful_processing s = 2
    /\ OMRProcessor.failed_processing s = 1.
Proof.
  destruct (proj1 (proj2 (X7_summary_counts Samples.collaborators))
              (OMRProcessor.batch_process_omr_sheets Samples.collaborators
                 OMRProcessor.new_processor ["a.png"; "blank.png"; "c.png"] None None))
    as (s & Hs).
  - intro l. now eexists.
  - exists s. split; [exact Hs|].
    destruct (proj1 (X7_summary_counts Samples.collaborators) _ s Hs)
      as (H1 & H2 & H3 & _).
    assert (E2 : OMRProcessor.successful_processing s = 2) by (rewrite H2; reflexivity).
    assert (E1 : OMRProcessor.total_sheets s = 3) by (rewrite H1; reflexivity).
    split; [exact E1|]. split; [exact E2|]. lia.
Defined.

(** ** The answer distribution of [validate_answer_key] *)

Section Distribution.

Import Utils.

Lemma in_valid_answers_iff a : in_valid_answers a = true <-> In a valid_answers.
Proof.
  unfold in_valid_answers. rewrite existsb_exists. split.
  - intros (x & Hx & E). apply String.eqb_eq in E. now subst.
  - intro H. exists a. split; [exact H|apply String.eqb_refl].
Qed.

Lemma validate_answer_key_fields answer_key n :
  exists v,
    validate_answer_key answer_key n = Py.Ok v
    /\ answer_distribution v = fold_left count_answer (Py.values answer_key) []
    /\ v_total_questions v = Z.of_nat (List.length answer_key).
Proof.
  destruct (validate_answer_key_returns answer_key n) as (v & Hv & _).
  exists v. split; [exact Hv|].
  unfold validate_answer_key in Hv.
  destruct (match fold_left count_answer (Py.values answer_key) [] with
            | [] => Py.Ok []
            | _ :: _ => _
            end) as [ws|e]; simpl in Hv; [|discriminate].
  injection Hv as <-. split; reflexivity.
Qed.

End Distribution.

(** X8. [validate_answer_key] always returns; [total_questions] of its
    result is the number of entries of the key, whatever count was
    expected; [answer_distribution] holds, for each of the letters A to D
    that occurs as a value, the number of entries with that value, and has
    no other key: an invalid value is reported as an error but never
    counted. *)
Theorem X8_answer_distribution_counts :
  forall (answer_key : Py.dict string) (total_questions : Z),
  exists v,
    Utils.validate_answer_key answer_key total_questions = Py.Ok v
    /\ Utils.v_total_questions v = Z.of_nat (List.length answer_key)
    /\ (forall a,
           count_of (Utils.answer_distribution v) a
           = if Utils.in_valid_answers a then occurrences snd a answer_key else 0)
    /\ (forall a,
           In a (Py.keys (Utils.answer_distribution v))
           <-> In a ["A"; "B"; "C"; "D"] /\ In a (Py.values answer_key)).
Proof.
  intros answer_key total_questions.
  destruct (validate_answer_key_fields answer_key total_questions) as (v & Hv & Hd & Ht).
  exists v. split; [exact Hv|]. split; [exact Ht|].
  assert (Hstep : forall d a,
             Utils.count_answer d a
             = if Utils.in_valid_answers a
               then Py.set d ((fun x : string => x) a) (count_of d ((fun x : string => x) a) + 1)
               else d) by reflexivity.
  rewrite Hd. split.
  - intro a.
    destruct (fold_step_from_empty (fun x : string => x) Utils.in_valid_answers
                Utils.count_answer Hstep (Py.values answer_key) a) as (Hc & _).
    rewrite Hc. unfold occurrences, Py.values. rewrite filter_length_map.
    destruct (Utils.in_valid_answers a) eqn:Ea.
    + f_equal. apply filter_length_ext_in. intros [q x] _. simpl.
      destruct (String.eqb_spec x a) as [->|_]; [now rewrite Ea|apply andb_false_r].
    + rewrite filter_none; [reflexivity|].
      intros [q x] _. simpl.
      destruct (String.eqb_spec x a) as [->|_]; [now rewrite Ea|apply andb_false_r].
  - intro a.
    destruct (fold_step_from_empty (fun x : string => x) Utils.in_valid_answers
                Utils.count_answer Hstep (Py.values answer_key) a) as (_ & Hk).
    rewrite Hk. split.
    + intros (x & Hx & Hvalid & ->). split; [|exact Hx].
      now apply in_valid_answers_iff.
    + intros (Hvalid & Hin). exists a. split; [exact Hin|]. split; [|reflexivity].
      now apply in_valid_answers_iff.
Qed.

(** ** [sorted(l, key=int)] *)

Section SortedByInt.

Import Utils.

Lemma int_keys_spec l ks :
  int_keys l = Py.Ok ks ->
  map snd ks = l /\ Forall (fun p => Py.int_opt (snd p) = Some (fst p)) ks.
Proof.
  revert ks. induction l as [|x l IH]; intros ks; simpl.
  - intros [= <-]. split; [reflexivity|constructor].
  - unfold Py.int. destruct (Py.int_opt x) as [k|] eqn:E; simpl; [|discriminate].
    destruct (int_keys l) as [ks'|]; simpl; [|discriminate].
    intros [= <-]. destruct (IH ks' eq_refl) as (Hm & Hf).
    split; [simpl; now rewrite Hm|constructor; [exact E|exact Hf]].
Qed.

Lemma insert_by_key_perm a l : Permutation (insert_by_key a l) (a :: l).
Proof.
  induction l as [|b l IH]; simpl; [apply Permutation_refl|].
  destruct (fst b <? fst a); [|apply Permutation_refl].
  eapply Permutation_trans; [apply perm_skip, IH|apply perm_swap].
Qed.

Lemma insertion_sort_perm ks : Permutation (fold_right insert_by_key [] ks) ks.
Proof.
  induction ks as [|a ks IH]; simpl; [constructor|].
  eapply Permutation_trans; [apply insert_by_key_perm|now apply perm_skip].
Qed.

Lemma insert_by_key_sorted a l :
  StronglySorted (fun p q : Z * string => fst p <= fst q) l ->
  StronglySorted (fun p q : Z * string => fst p <= fst q) (insert_by_key a l).
Proof.
  induction 1 as [|b l Hs IH Hb]; simpl; [repeat constructor|].
  destruct (Z.ltb_spec (fst b) (fst a)) as [Hlt|Hge].
  - constructor; [exact IH|].
    apply Forall_forall. intros x Hx.
    apply (Permutation_in _ (insert_by_key_perm a l)) in Hx.
    destruct Hx as [<-|Hx]; [lia|].
    rewrite Forall_forall in Hb. now apply Hb.
  - constructor; [constructor; assumption|].
    constructor; [exact Hge|].
    eapply Forall_impl; [|exact Hb]. simpl. intros x Hx. lia.
Qed.

Lemma insertion_sort_sorted ks :
  StronglySorted (fun p q : Z * string => fst p <= fst q) (fold_right insert_by_key [] ks).
Proof.
  induction ks as [|a ks IH]; simpl; [constructor|now apply insert_by_key_sorted].
Qed.

Lemma map_snd_sorted ks :
  Forall (fun p => Py.int_opt (snd p) = Some (fst p)) ks ->
  StronglySorted (fun p q : Z * string => fst p <= fst q) ks ->
  StronglySorted int_le (map snd ks).
Proof.
  intros Hf. induction 1 as [|b l Hs IH Hb]; simpl; [constructor|].
  inversion Hf as [|? ? Hb0 Hf']; subst.
  constructor; [now apply IH|].
  apply Forall_forall. intros x Hx. apply in_map_iff in Hx.
  destruct Hx as (p & <- & Hp).
  rewrite Forall_forall in Hb, Hf'.
  unfold int_le. rewrite Hb0, (Hf' p Hp). now apply Hb.
Qed.

(** What [sorted(l, key=int)] returns is [l] rearranged, in increasing
    order of the integers. *)
Lemma sorted_by_int_spec l r :
  sorted_by_int l = Py.Ok r -> Permutation r l /\ StronglySorted int_le r.
Proof.
  unfold sorted_by_int. destruct (int_keys l) as [ks|] eqn:E; simpl; [|discriminate].
  intros [= <-]. destruct (int_keys_spec l ks E) as (Hm & Hf). split.
  - rewrite <- Hm. apply Permutation_map, insertion_sort_perm.
  - apply map_snd_sorted; [|apply insertion_sort_sorted].
    apply Forall_forall. intros p Hp.
    apply (Permutation_in _ (insertion_sort_perm ks)) in Hp.
    rewrite Forall_forall in Hf. now apply Hf.
Qed.

Lemma low_confidence_in cs t q :
  In q (low_confidence cs t) <-> exists c, In (q, c) cs /\ PrimFloat.ltb c t = true.
Proof.
  unfold low_confidence. rewrite in_map_iff. split.
  - intros ([q' c] & <- & Hin). apply filter_In in Hin. now exists c.
  - intros (c & Hin & Hlt). exists (q, c). split; [reflexivity|].
    apply filter_In. split; assumption.
Qed.

Lemma unanswered_in sa q :
  In q (unanswered sa)
  <-> exists n, 1 <= n <= 100 /\ q = Py.str n
                /\ (Py.get sa q = None \/ Py.get sa q = Some (OMRProcessor.ALetter "")).
Proof.
  unfold unanswered. rewrite filter_In, in_map_iff.
  assert (Hemp : forall a, answer_eqb a "" = true <-> a = OMRProcessor.ALetter "").
  { intros [| |s]; simpl; split; try discriminate.
    - intro H. apply String.eqb_eq in H. now subst.
    - intros [= ->]. reflexivity. }
  split.
  - intros ((n & <- & Hn) & Hg). apply in_range in Hn.
    exists n. split; [lia|]. split; [reflexivity|].
    destruct (Py.get sa (Py.str n)) as [a|]; [right|now left].
    f_equal. now apply Hemp.
  - intros (n & Hn & -> & Hg). split.
    + exists n. split; [reflexivity|]. apply in_range. lia.
    + destruct Hg as [-> | ->]; reflexivity.
Qed.

End SortedByInt.

(** X9. [identify_flagged_questions] returns exactly when every key of
    [confidence_scores] whose confidence is below the threshold is an
    integer literal (otherwise [int] raises in the sort). What it returns
    has no duplicates, is in increasing order of the question numbers, and
    holds exactly the questions below the threshold and the questions 1 to
    100 that have no entry in [student_answers] or the empty string as
    answer. *)
Theorem X9_flagged_questions_characterised :
  forall (sa : Py.dict OMRProcessor.answer) (cs : Py.dict float) (t : float),
    ((exists l, Utils.identify_flagged_questions sa cs t = Py.Ok l)
     <-> (forall q c, In (q, c) cs -> PrimFloat.ltb c t = true -> Py.int_opt q <> None))
    /\ (forall l,
           Utils.identify_flagged_questions sa cs t = Py.Ok l ->
           NoDup l
           /\ StronglySorted int_le l
           /\ (forall q,
                  In q l
                  <-> (exists c, In (q, c) cs /\ PrimFloat.ltb c t = true)
                      \/ (exists n, 1 <= n <= 100 /\ q = Py.str n
                                    /\ (Py.get sa q = None
                                        \/ Py.get sa q = Some (OMRProcessor.ALetter ""))))).
Proof.
  intros sa cs t. unfold Utils.identify_flagged_questions. split.
  - split.
    + intros (l & Hl) q c Hin Hlt.
      apply sorted_by_int_parsed in Hl. rewrite Forall_forall in Hl.
      apply Hl, dedup_in, in_or_app. left. apply low_confidence_in. now exists c.
    + intro H. apply sorted_by_int_ok. apply Forall_forall. intros q Hq.
      apply (proj1 (dedup_in _ _)) in Hq. apply in_app_or in Hq. destruct Hq as [Hq|Hq].
      * apply low_confidence_in in Hq. destruct Hq as (c & Hin & Hlt). eapply H; eauto.
      * pose proof (unanswered_parsed sa) as Hu. rewrite Forall_forall in Hu. now apply Hu.
  - intros l Hl. destruct (sorted_by_int_spec _ _ Hl) as (Hperm & Hsorted).
    split; [|split; [exact Hsorted|]].
    + eapply Permutation_NoDup; [apply Permutation_sym, Hperm|apply dedup_nodup].
    + intro q. rewrite <- low_confidence_in, <- unanswered_in, <- in_app_iff.
      split; intro H.
      * apply (proj1 (dedup_in _ _)). eapply Permutation_in; [exact Hperm|exact H].
      * eapply Permutation_in; [apply Permutation_sym, Hperm|]. now apply dedup_in.
Qed.

(** X9, on a sheet that answers every question but 3 and 42, with a low
    confidence on question 10: the three are flagged, in order. *)
Lemma X9_witness :
  exists l,
    Utils.identify_flagged_questions
      (map (fun i => (Py.str i, OMRProcessor.ALetter (if i =? 42 then "" else "B")))
           (Py.range 1 3 ++ Py.range 4 101))
      [("10", 0.5%float); ("2", 0.875%float)] 0.75%float = Py.Ok l
    /\ NoDup l /\ StronglySorted int_le l /\ l = ["3"; "10"; "42"].
Proof.
  destruct (proj2 (proj1 (X9_flagged_questions_characterised
                     (map (fun i => (Py.str i,
                                     OMRProcessor.ALetter (if i =? 42 then "" else "B")))
                          (Py.range 1 3 ++ Py.range 4 101))
                     [("10", 0.5%float); ("2", 0.875%float)] 0.75%float)))
    as (l & Hl).
  - intros q c [[= <- <-]|[[= <- <-]|[]]] _; discriminate.
  - exists l. split; [exact Hl|].
    destruct (proj2 (X9_flagged_questions_characterised _ _ _) l Hl) as (Hnd & Hs & _).
    split; [exact Hnd|]. split; [exact Hs|].
    vm_compute in Hl. now inversion Hl.
Defined.

(** ** The scorer of [utils] on arbitrary input *)

Section UtilsScorer.

Import OMRProcessor Utils.

Variable sa : Py.dict answer.
Variable ck : Py.dict string.

Lemma in_keys_set {V} (d : Py.dict V) k v k' :
  In k' (Py.keys (Py.set d k v)) <-> k' = k \/ In k' (Py.keys d).
Proof.
  destruct (String.eqb_spec k k') as [->|Hne].
  - split; [now left|]. intros _. eapply get_some_in_keys, get_set_eq.
  - split.
    + intro H. apply in_keys_get in H. destruct H as (x & Hx).
      rewrite get_set_ne in Hx by exact Hne. right. eapply get_some_in_keys; eauto.
    + intros [->|H]; [contradiction|].
      apply in_keys_get in H. destruct H as (x & Hx).
      apply (get_some_in_keys _ _ x). now rewrite get_set_ne.
Qed.

Lemma count_questions_bounds l :
  forall c t c' t',
    fold_left (count_question sa ck) l (c, t) = (c', t') ->
    0 <= c' - c <= t' - t /\ t' - t <= Z.of_nat (List.length l).
Proof.
  induction l as [|n l IH]; intros c t c' t'; cbn [fold_left].
  - intros [= <- <-]. simpl. lia.
  - destruct (count_question sa ck (c, t) n) as [c1 t1] eqn:E.
    intro H. apply IH in H.
    assert (Hc : 0 <= c1 - c <= t1 - t /\ t1 - t <= 1).
    { unfold count_question in E.
      destruct (Py.get sa (Py.str n)) as [a|], (Py.get ck (Py.str n)) as [k|];
        try (inversion E; lia).
      destruct (answer_eqb a k); inversion E; lia. }
    simpl List.length. rewrite Nat2Z.inj_succ. lia.
Qed.

Lemma score_subject_spec q st i s :
  exists c t p,
    score_subject sa ck q st (i, s)
    = Py.Ok {| rs_subject_scores :=
                 Py.set (rs_subject_scores st) s
                   {| score := c; s_total := t; s_percentage := p |};
               rs_total_correct := rs_total_correct st + c;
               rs_total_questions := rs_total_questions st + t |}
    /\ 0 <= c <= t /\ t <= Z.max 0 q.
Proof.
  unfold score_subject.
  pose proof (count_questions_bounds (Py.range (i * q + 1) ((i + 1) * q + 1)) 0 0) as Hb.
  destruct (fold_left _ _ _) as [c t]. specialize (Hb c t eq_refl).
  rewrite range_length in Hb.
  destruct (percentage_of_returns c t) as (p & ->). simpl.
  exists c, t, p. split; [reflexivity|]. lia.
Qed.

Lemma enumerate_snd {A} (l : list A) : map snd (enumerate l) = l.
Proof.
  unfold enumerate. generalize 0%nat. induction l as [|a l IH]; intro n; simpl;
    [reflexivity|]. now rewrite IH.
Qed.

End UtilsScorer.

(** X10. The scorer of [utils] returns for every pair of answer maps,
    every list of subjects and every [questions_per_subject] (zero and
    negative included: no division by zero). The total score lies between 0
    and the number of questions counted, which is at most
    [len(subjects) * max(0, questions_per_subject)]; the reported subjects
    are the given ones, each with [0 <= score <= total]; and when no
    question was counted the overall percentage is the integer 0. *)
Theorem X10_utils_scorer_returns_within_bounds :
  forall (sa : Py.dict OMRProcessor.answer) (ck : Py.dict string)
         (subjects : option (list string)) (questions_per_subject : Z),
  exists r,
    Utils.calculate_subject_scores sa ck subjects questions_per_subject = Py.Ok r
    /\ 0 <= Utils.r_total_score r <= Utils.r_total_questions r
    /\ Utils.r_total_questions r
       <= Z.of_nat (List.length (match subjects with
                                 | Some l => l
                                 | None => Utils.default_subjects
                                 end))
          * Z.max 0 questions_per_subject
    /\ (forall s, In s (Py.keys (Utils.r_subject_scores r))
                  <-> In s (match subjects with
                            | Some l => l
                            | None => Utils.default_subjects
                            end))
    /\ (forall s sc, Py.get (Utils.r_subject_scores r) s = Some sc ->
                     0 <= Utils.score sc <= Utils.s_total sc
                     /\ Utils.s_total sc <= Z.max 0 questions_per_subject)
    /\ (Utils.r_total_questions r = 0 -> Utils.r_overall_percentage r = Py.NInt 0).
Proof.
  intros sa ck subjects q. unfold Utils.calculate_subject_scores.
  set (subjects' := match subjects with Some l => l | None => Utils.default_subjects end).
  set (st0 := {| Utils.rs_subject_scores := []; Utils.rs_total_correct := 0;
                 Utils.rs_total_questions := 0 |}).
  destruct (for_each_total (Utils.score_subject sa ck q) (fun _ => True)
              (fun done st =>
                 0 <= Utils.rs_total_correct st <= Utils.rs_total_questions st
                 /\ Utils.rs_total_questions st <= Z.of_nat (List.length done) * Z.max 0 q
                 /\ (forall s, In s (Py.keys (Utils.rs_subject_scores st))
                               <-> In s (map snd done))
                 /\ (forall s sc, Py.get (Utils.rs_subject_scores st) s = Some sc ->
                                  0 <= Utils.score sc <= Utils.s_total sc
                                  /\ Utils.s_total sc <= Z.max 0 q))) with
    (l := Utils.enumerate subjects') (done := @nil (Z * string)) (st := st0)
    as (st & Hst & Hc & Hq & Hk & Hs).
  - intros done [i s] st _ (Hc & Hq & Hk & Hs).
    destruct (score_subject_spec sa ck q st i s) as (c & t & p & -> & Hct & Ht).
    eexists. split; [reflexivity|]. cbn [Utils.rs_total_correct Utils.rs_total_questions
                                           Utils.rs_subject_scores].
    split; [lia|]. split; [rewrite length_app; simpl List.length; nia|]. split.
    + intro s'. rewrite in_keys_set, map_app, in_app_iff, Hk. simpl. intuition.
    + intros s' sc. destruct (String.eqb_spec s s') as [->|Hne].
      * rewrite get_set_eq. intros [= <-]. simpl. lia.
      * rewrite get_set_ne by exact Hne. apply Hs.
  - apply Forall_forall. intros; exact I.
  - simpl. split; [lia|]. split; [lia|]. split; [tauto|discriminate].
  - rewrite Hst. cbn [Py.bind].
    destruct (percentage_of_returns (Utils.rs_total_correct st) (Utils.rs_total_questions st))
      as (p & Hp).
    rewrite Hp. cbn [Py.bind]. eexists. split; [reflexivity|].
    cbn [Utils.r_total_score Utils.r_total_questions Utils.r_subject_scores
           Utils.r_overall_percentage].
    rewrite app_nil_l in *.
    split; [exact Hc|]. split.
    { rewrite <- (enumerate_snd subjects') at 1. rewrite length_map. exact Hq. }
    split.
    { intro s. rewrite Hk, enumerate_snd. tauto. }
    split; [exact Hs|].
    intro H0. unfold Utils.percentage_of in Hp. rewrite H0 in Hp. simpl in Hp.
    now inversion Hp.
Qed.

(** ** [compare_answer_keys] *)

Section Compare.

Import Utils.

Variables key1 key2 : Py.dict string.

Lemma common_questions_in q :
  In q (common_questions key1 key2) <-> In q (Py.keys key1) /\ In q (Py.keys key2).
Proof.
  unfold common_questions. now rewrite filter_In, dedup_in, contains_in_keys.
Qed.

Lemma keys_only_in_in q :
  In q (keys_only_in key1 key2) <-> In q (Py.keys key1) /\ ~ In q (Py.keys key2).
Proof.
  unfold keys_only_in. rewrite filter_In, dedup_in.
  pose proof (contains_in_keys key2 q) as Hc.
  destruct (Py.contains key2 q); simpl; split.
  - intros (_ & H). discriminate H.
  - intros (_ & H). exfalso. apply H, Hc. reflexivity.
  - intros (H & _). split; [exact H|]. intro H2. apply Hc in H2. discriminate H2.
  - intros (H & _). split; [exact H|reflexivity].
Qed.

Lemma common_questions_nodup : NoDup (common_questions key1 key2).
Proof. apply NoDup_filter, dedup_nodup. Qed.

Lemma keys_only_in_nodup : NoDup (keys_only_in key1 key2).
Proof. apply NoDup_filter, dedup_nodup. Qed.

Lemma compare_questions l :
  (forall q, In q l -> In q (Py.keys key1) /\ In q (Py.keys key2)) ->
  forall acc,
    OMRProcessor.for_each (compare_question key1 key2) l acc
    = Py.Ok (acc ++ flat_map (difference_at key1 key2) l).
Proof.
  induction l as [|q l IH]; intros Hl acc; simpl; [now rewrite app_nil_r|].
  destruct (Hl q (or_introl eq_refl)) as (H1 & H2).
  apply in_keys_get in H1, H2. destruct H1 as (a1 & H1), H2 as (a2 & H2).
  unfold compare_question, difference_at, Py.getitem. rewrite H1, H2. simpl.
  destruct (negb (String.eqb a1 a2)); simpl.
  - rewrite IH by (intros; apply Hl; now right). now rewrite <- app_assoc.
  - apply IH. intros; apply Hl; now right.
Qed.

Lemma difference_at_in l d :
  In d (flat_map (difference_at key1 key2) l)
  <-> In (d_question d) l
      /\ Py.get key1 (d_question d) = Some (key1_answer d)
      /\ Py.get key2 (d_question d) = Some (key2_answer d)
      /\ key1_answer d <> key2_answer d.
Proof.
  rewrite in_flat_map. unfold difference_at. split.
  - intros (q & Hq & Hd).
    destruct (Py.get key1 q) as [a1|] eqn:E1; [|contradiction].
    destruct (Py.get key2 q) as [a2|] eqn:E2; [|contradiction].
    destruct (String.eqb_spec a1 a2) as [->|Hne]; simpl in Hd; [contradiction|].
    destruct Hd as [<-|[]]. simpl. repeat split; assumption.
  - intros (Hq & H1 & H2 & Hne). exists (d_question d). split; [exact Hq|].
    rewrite H1, H2. destruct (String.eqb_spec (key1_answer d) (key2_answer d));
      [contradiction|]. simpl. left. now destruct d.
Qed.

Lemma difference_questions_sorted l :
  StronglySorted int_le l ->
  StronglySorted int_le (map d_question (flat_map (difference_at key1 key2) l)).
Proof.
  induction 1 as [|q l Hs IH Hq]; simpl; [constructor|].
  rewrite map_app.
  assert (Hall : Forall (int_le q) (map d_question (flat_map (difference_at key1 key2) l))).
  { apply Forall_forall. intros x Hx. apply in_map_iff in Hx. destruct Hx as (d & <- & Hd).
    apply difference_at_in in Hd. rewrite Forall_forall in Hq. now apply Hq. }
  unfold difference_at at 1.
  destruct (Py.get key1 q); [|exact IH]. destruct (Py.get key2 q); [|exact IH].
  destruct (negb _); [|exact IH]. simpl. constructor; assumption.
Qed.

Lemma difference_questions_nodup l :
  NoDup l -> NoDup (map d_question (flat_map (difference_at key1 key2) l)).
Proof.
  induction 1 as [|q l Hq Hnd IH]; simpl; [constructor|].
  rewrite map_app.
  assert (Hnot : ~ In q (map d_question (flat_map (difference_at key1 key2) l))).
  { intro Hx. apply in_map_iff in Hx. destruct Hx as (d & <- & Hd).
    apply difference_at_in in Hd. now apply Hq. }
  unfold difference_at at 1.
  destruct (Py.get key1 q); [|exact IH]. destruct (Py.get key2 q); [|exact IH].
  destruct (negb _); [|exact IH]. simpl. constructor; assumption.
Qed.

Lemma sorted_if_any_spec l r :
  sorted_if_any l = Py.Ok r -> Permutation r l /\ StronglySorted int_le r.
Proof.
  destruct l as [|x l]; [intros [= <-]; split; constructor|].
  apply sorted_by_int_spec.
Qed.

Lemma sorted_if_any_parsed l r :
  sorted_if_any l = Py.Ok r -> Forall (fun x => Py.int_opt x <> None) l.
Proof.
  destruct l as [|x l]; [constructor|]. apply sorted_by_int_parsed.
Qed.

Lemma sorted_if_any_ok l :
  Forall (fun x => Py.int_opt x <> None) l -> exists r, sorted_if_any l = Py.Ok r.
Proof.
  destruct l as [|x l]; [now eexists|]. apply sorted_by_int_ok.
Qed.

End Compare.

Section CompareResult.

Import Utils.

Variables key1 key2 : Py.dict string.

Lemma compare_answer_keys_spec r :
  compare_answer_keys key1 key2 = Py.Ok r ->
  exists sc,
    sorted_by_int (common_questions key1 key2) = Py.Ok sc
    /\ sorted_if_any (keys_only_in key1 key2) = Py.Ok (only_in_key1 r)
    /\ sorted_if_any (keys_only_in key2 key1) = Py.Ok (only_in_key2 r)
    /\ differences r = flat_map (difference_at key1 key2) sc
    /\ total_differences r = Z.of_nat (List.length (differences r))
    /\ (common_questions key1 key2 = [] -> similarity_percentage r = Py.NInt 0).
Proof.
  unfold compare_answer_keys.
  destruct (sorted_by_int (common_questions key1 key2)) as [sc|] eqn:Esc;
    cbn [Py.bind]; [|discriminate].
  rewrite compare_questions.
  2:{ intros q Hq. apply common_questions_in.
      eapply Permutation_in; [apply (sorted_by_int_spec _ _ Esc)|exact Hq]. }
  cbn [Py.bind app].
  destruct (sorted_if_any (keys_only_in key1 key2)) as [s1|]; cbn [Py.bind]; [|discriminate].
  destruct (sorted_if_any (keys_only_in key2 key1)) as [s2|]; cbn [Py.bind]; [|discriminate].
  destruct (common_questions key1 key2) as [|q0 l0].
  - cbn [Py.bind]. intros [= <-]. exists sc. cbn. repeat split.
  - destruct (Py.truediv _ _) as [ratio|]; cbn [Py.bind]; [|discriminate].
    intros [= <-]. exists sc. cbn. repeat split. discriminate.
Qed.

Lemma compare_answer_keys_returns :
  Forall (fun q => Py.int_opt q <> None) (Py.keys key1 ++ Py.keys key2) ->
  exists r, compare_answer_keys key1 key2 = Py.Ok r.
Proof.
  intro H. rewrite Forall_forall in H.
  unfold compare_answer_keys.
  destruct (sorted_by_int_ok (common_questions key1 key2)) as (sc & Esc).
  { apply Forall_forall. intros q Hq. apply common_questions_in in Hq.
    apply H, in_or_app. now left. }
  rewrite Esc. cbn [Py.bind].
  rewrite compare_questions.
  2:{ intros q Hq. apply common_questions_in.
      eapply Permutation_in; [apply (sorted_by_int_spec _ _ Esc)|exact Hq]. }
  cbn [Py.bind app].
  destruct (sorted_if_any_ok (keys_only_in key1 key2)) as (s1 & ->).
  { apply Forall_forall. intros q Hq. apply keys_only_in_in in Hq.
    apply H, in_or_app. now left. }
  destruct (sorted_if_any_ok (keys_only_in key2 key1)) as (s2 & ->).
  { apply Forall_forall. intros q Hq. apply keys_only_in_in in Hq.
    apply H, in_or_app. now right. }
  cbn [Py.bind].
  destruct (common_questions key1 key2) as [|q0 l0]; [now eexists|].
  unfold Py.truediv. simpl List.length.
  destruct (Z.eqb_spec (Z.of_nat (S (List.length l0))) 0) as [E|_]; [lia|].
  cbn [Py.bind]. now eexists.
Qed.

End CompareResult.

Section CompareSymmetry.

Import Utils.

Lemma flat_map_length_perm {A B} (f g : A -> list B) l l' :
  Permutation l l' ->
  (forall a, List.length (f a) = List.length (g a)) ->
  List.length (flat_map f l) = List.length (flat_map g l').
Proof.
  intros Hp Hfg. rewrite <- (Permutation_length (Permutation_flat_map g Hp)).
  clear Hp. induction l as [|a l IH]; simpl; [reflexivity|].
  now rewrite !length_app, IH, Hfg.
Qed.

Lemma difference_at_sym key1 key2 q :
  List.length (difference_at key1 key2 q) = List.length (difference_at key2 key1 q).
Proof.
  unfold difference_at.
  destruct (Py.get key1 q) as [a1|], (Py.get key2 q) as [a2|]; try reflexivity.
  rewrite (String.eqb_sym a2 a1). now destruct (String.eqb a1 a2).
Qed.

Lemma common_questions_sym key1 key2 :
  Permutation (common_questions key1 key2) (common_questions key2 key1).
Proof.
  apply NoDup_Permutation; try apply common_questions_nodup.
  intro q. rewrite !common_questions_in. tauto.
Qed.

End CompareSymmetry.

(** X11. [compare_answer_keys] returns exactly when every key of both
    dictionaries is an integer literal (a key such as ["Q1"] makes the sort
    raise [ValueError]). When it returns: [total_differences] is the length
    of [differences]; [differences] lists, once each and in increasing order
    of the question number, exactly the questions that both keys answer
    differently, with the two answers; [only_in_key1] and [only_in_key2] hold,
    sorted and without duplicates, the questions of one key that the other
    lacks; the count of differences does not depend on the order of the two
    arguments; and with no common question the similarity is the integer
    0. *)
Theorem X11_compare_answer_keys_characterised :
  forall (key1 key2 : Py.dict string),
    ((exists r, Utils.compare_answer_keys key1 key2 = Py.Ok r)
     <-> Forall (fun q => Py.int_opt q <> None) (Py.keys key1 ++ Py.keys key2))
    /\ (forall r,
           Utils.compare_answer_keys key1 key2 = Py.Ok r ->
           Utils.total_differences r = Z.of_nat (List.length (Utils.differences r))
           /\ (forall d,
                  In d (Utils.differences r)
                  <-> Py.get key1 (Utils.d_question d) = Some (Utils.key1_answer d)
                      /\ Py.get key2 (Utils.d_question d) = Some (Utils.key2_answer d)
                      /\ Utils.key1_answer d <> Utils.key2_answer d)
           /\ StronglySorted int_le (map Utils.d_question (Utils.differences r))
           /\ NoDup (map Utils.d_question (Utils.differences r))
           /\ (forall q, In q (Utils.only_in_key1 r)
                         <-> In q (Py.keys key1) /\ ~ In q (Py.keys key2))
           /\ (forall q, In q (Utils.only_in_key2 r)
                         <-> In q (Py.keys key2) /\ ~ In q (Py.keys key1))
           /\ StronglySorted int_le (Utils.only_in_key1 r) /\ NoDup (Utils.only_in_key1 r)
           /\ StronglySorted int_le (Utils.only_in_key2 r) /\ NoDup (Utils.only_in_key2 r)
           /\ (forall r', Utils.compare_answer_keys key2 key1 = Py.Ok r' ->
                          Utils.total_differences r' = Utils.total_differences r)
           /\ ((forall q, In q (Py.keys key1) -> ~ In q (Py.keys key2)) ->
               Utils.similarity_percentage r = Py.NInt 0)).
Proof.
  intros key1 key2. split.
  - split; [|apply compare_answer_keys_returns].
    intros (r & Hr). destruct (compare_answer_keys_spec key1 key2 r Hr)
      as (sc & Hsc & H1 & H2 & _).
    apply sorted_by_int_parsed in Hsc. apply sorted_if_any_parsed in H1, H2.
    rewrite Forall_forall in Hsc, H1, H2.
    apply Forall_forall. intros q Hq. apply in_app_or in Hq.
    destruct (in_dec string_dec q (Py.keys key1)) as [Hin1|Hout1];
      destruct (in_dec string_dec q (Py.keys key2)) as [Hin2|Hout2].
    + apply Hsc, common_questions_in. now split.
    + apply H1, keys_only_in_in. now split.
    + apply H2, keys_only_in_in. now split.
    + tauto.
  - intros r Hr.
    destruct (compare_answer_keys_spec key1 key2 r Hr)
      as (sc & Hsc & H1 & H2 & Hd & Ht & Hsim).
    destruct (sorted_by_int_spec _ _ Hsc) as (Hperm & Hsorted).
    destruct (sorted_if_any_spec _ _ H1) as (Hperm1 & Hsorted1).
    destruct (sorted_if_any_spec _ _ H2) as (Hperm2 & Hsorted2).
    split; [exact Ht|]. split.
    { intro d. rewrite Hd, difference_at_in. split; [tauto|].
      intros (Hg1 & Hg2 & Hne). split; [|tauto].
      eapply Permutation_in; [apply Permutation_sym, Hperm|].
      apply common_questions_in. split; eapply get_some_in_keys; eauto. }
    split; [rewrite Hd; now apply difference_questions_sorted|].
    split.
    { rewrite Hd. apply difference_questions_nodup.
      eapply Permutation_NoDup; [apply Permutation_sym, Hperm|apply common_questions_nodup]. }
    split.
    { intro q. rewrite <- keys_only_in_in. split; intro H.
      - eapply Permutation_in; [exact Hperm1|exact H].
      - eapply Permutation_in; [apply Permutation_sym, Hperm1|exact H]. }
    split.
    { intro q. rewrite <- keys_only_in_in. split; intro H.
      - eapply Permutation_in; [exact Hperm2|exact H].
      - eapply Permutation_in; [apply Permutation_sym, Hperm2|exact H]. }
    split; [exact Hsorted1|]. split.
    { eapply Permutation_NoDup; [apply Permutation_sym, Hperm1|apply keys_only_in_nodup]. }
    split; [exact Hsorted2|]. split.
    { eapply Permutation_NoDup; [apply Permutation_sym, Hperm2|apply keys_only_in_nodup]. }
    split.
    { intros r' Hr'.
      destruct (compare_answer_keys_spec key2 key1 r' Hr')
        as (sc' & Hsc' & _ & _ & Hd' & Ht' & _).
      destruct (sorted_by_int_spec _ _ Hsc') as (Hperm' & _).
      rewrite Ht, Ht', Hd, Hd'. f_equal.
      apply flat_map_length_perm; [|intro; apply difference_at_sym].
      eapply Permutation_trans; [exact Hperm'|].
      eapply Permutation_trans; [apply common_questions_sym|].
      apply Permutation_sym, Hperm. }
    intro Hdisj. apply Hsim.
    destruct (Utils.common_questions key1 key2) as [|q l] eqn:E; [reflexivity|].
    assert (Hq : In q (Utils.common_questions key1 key2)) by (rewrite E; now left).
    apply common_questions_in in Hq. destruct Hq as (Hq1 & Hq2).
    exfalso. exact (Hdisj q Hq1 Hq2).
Qed.

(** X11, on two keys that share questions 1 and 2 and disagree on
    question 1. *)
Lemma X11_witness :
  exists r,
    Utils.compare_answer_keys [("1", "A"); ("2", "B"); ("3", "C")]
                              [("2", "B"); ("1", "D"); ("4", "A")] = Py.Ok r
    /\ Utils.total_differences r = 1
    /\ Utils.differences r
       = [{| Utils.d_question := "1"; Utils.key1_answer := "A"; Utils.key2_answer := "D" |}]
    /\ Utils.only_in_key1 r = ["3"] /\ Utils.only_in_key2 r = ["4"]
    /\ NoDup (map Utils.d_question (Utils.differences r)).
Proof.
  destruct (proj2 (proj1 (X11_compare_answer_keys_characterised
                            [("1", "A"); ("2", "B"); ("3", "C")]
                            [("2", "B"); ("1", "D"); ("4", "A")])))
    as (r & Hr).
  - repeat constructor; discriminate.
  - exists r. split; [exact Hr|].
    destruct (proj2 (X11_compare_answer_keys_characterised _ _) r Hr)
      as (_ & _ & _ & Hnd & _).
    vm_compute in Hr. inversion Hr as [Hr']. subst r.
    repeat split; try reflexivity. exact Hnd.
Defined.

(** ** [validate_student_id] *)

Section StudentId.

Import Utils.

Lemma all_chars_stripped s :
  Py.all_chars Py.is_alnum (Py.replace_char "_" "" (Py.replace_char "-" "" s))
  = Py.all_chars (fun a => Py.is_alnum a || Ascii.eqb a "-" || Ascii.eqb a "_") s.
Proof.
  induction s as [|a r IH]; [reflexivity|].
  cbn [Py.replace_char Py.all_chars].
  destruct (Ascii.eqb_spec a "-") as [->|Hd].
  - cbn. exact IH.
  - cbn [Py.replace_char].
    destruct (Ascii.eqb_spec a "_") as [->|Hu].
    + cbn. exact IH.
    + cbn [Py.all_chars]. rewrite IH. now rewrite !orb_false_r.
Qed.

Lemma stripped_empty s :
  Py.replace_char "_" "" (Py.replace_char "-" "" s) = EmptyString
  <-> Py.all_chars (fun a => Ascii.eqb a "-" || Ascii.eqb a "_") s = true.
Proof.
  induction s as [|a r IH]; [split; reflexivity|].
  cbn [Py.replace_char Py.all_chars].
  destruct (Ascii.eqb_spec a "-") as [->|Hd].
  - cbn. exact IH.
  - cbn [Py.replace_char].
    destruct (Ascii.eqb_spec a "_") as [->|Hu].
    + cbn. exact IH.
    + cbn. split; discriminate.
Qed.

Lemma isalnum_stripped s :
  Py.isalnum (Py.replace_char "_" "" (Py.replace_char "-" "" s))
  = Py.all_chars (fun a => Py.is_alnum a || Ascii.eqb a "-" || Ascii.eqb a "_") s
    && negb (Py.all_chars (fun a => Ascii.eqb a "-" || Ascii.eqb a "_") s).
Proof.
  rewrite <- all_chars_stripped.
  pose proof (stripped_empty s) as He.
  destruct (Py.replace_char "_" "" (Py.replace_char "-" "" s)) as [|a r] eqn:E.
  - rewrite (proj1 He eq_refl). reflexivity.
  - destruct (Py.all_chars (fun a => Ascii.eqb a "-" || Ascii.eqb a "_") s).
    + discriminate (proj2 He eq_refl).
    + unfold Py.isalnum. now rewrite andb_true_r.
Qed.

End StudentId.

(** X12. For an ASCII string, [validate_student_id] reports
    [valid = true] exactly when the identifier has 3 to 20 characters, all of
    them letters, digits, hyphens or underscores, and at least one of them a
    letter or a digit: an identifier made of hyphens and underscores only is
    rejected, because [isalnum] of the empty string is false. The verdict is
    [true] exactly when no error is listed, and at most one error is ever
    listed. *)
Theorem X12_student_id_validity :
  forall (student_id : string),
    ascii_only student_id ->
    (Utils.id_valid (Utils.validate_student_id student_id) = true
     <-> 3 <= Z.of_nat (String.length student_id) <= 20
         /\ Py.all_chars (fun a => Py.is_alnum a || Ascii.eqb a "-" || Ascii.eqb a "_")
              student_id = true
         /\ Py.all_chars (fun a => Ascii.eqb a "-" || Ascii.eqb a "_") student_id = false)
    /\ (Utils.id_valid (Utils.validate_student_id student_id) = true
        <-> Utils.id_errors (Utils.validate_student_id student_id) = [])
    /\ (List.length (Utils.id_errors (Utils.validate_student_id student_id)) <= 1)%nat.
Proof.
  intros s _. unfold Utils.validate_student_id.
  rewrite isalnum_stripped.
  destruct s as [|a r].
  - cbn. split; [|split; [split; discriminate|lia]].
    split; [discriminate|]. intros (H & _). lia.
  - cbv zeta. set (len := Z.of_nat (String.length (String a r))). clearbody len.
    destruct (Z.ltb_spec len 3) as [H3|H3].
    { cbn. split; [|split; [split; discriminate|lia]].
      split; [discriminate|]. intros (H & _). lia. }
    destruct (Z.ltb_spec 20 len) as [H20|H20].
    { cbn. split; [|split; [split; discriminate|lia]].
      split; [discriminate|]. intros (H & _). lia. }
    destruct (Py.all_chars (fun a => Py.is_alnum a || Ascii.eqb a "-" || Ascii.eqb a "_")
                (String a r));
      destruct (Py.all_chars (fun a => Ascii.eqb a "-" || Ascii.eqb a "_") (String a r));
      cbn; (split; [|split; [split; (reflexivity || discriminate)|lia]]);
      (split; [first [discriminate | (intros _; repeat split; lia)]
              | first [reflexivity | (intros (_ & H1 & H2); discriminate)]]).
Qed.

(** X12, on an ordinary identifier and on one of hyphens only. *)
Lemma X12_witness :
  Utils.id_valid (Utils.validate_student_id "AB-2024_07") = true
  /\ Utils.id_valid (Utils.validate_student_id "-----") = false.
Proof.
  split.
  - apply (proj1 (X12_student_id_validity "AB-2024_07" eq_refl)).
    split; [cbn; lia|]. split; reflexivity.
  - destruct (Utils.id_valid (Utils.validate_student_id "-----")) eqn:E; [|reflexivity].
    apply (proj1 (X12_student_id_validity "-----" eq_refl)) in E.
    destruct E as (_ & _ & E). discriminate E.
Defined.

(** ** The validators of [schemas.py] *)

Section SchemaValidators.

Import Schemas.

Lemma for_each_unit {A} (body : unit -> A -> Py.result unit) l :
  OMRProcessor.for_each body l tt = Py.Ok tt <-> Forall (fun a => body tt a = Py.Ok tt) l.
Proof.
  induction l as [|a l IH]; simpl; [split; [constructor|reflexivity]|].
  destruct (body tt a) as [[]|e] eqn:E; simpl.
  - rewrite IH. split; [now constructor|]. intro H. now inversion H.
  - split; [discriminate|]. intro H. inversion H; congruence.
Qed.

Lemma for_each_raises {A S} (body : S -> A -> Py.result S) (P : Py.exn -> Prop) l :
  (forall st a e, body st a = Py.Raise e -> P e) ->
  forall st e, OMRProcessor.for_each body l st = Py.Raise e -> P e.
Proof.
  intro Hb. induction l as [|a l IH]; intros st e; simpl; [discriminate|].
  destruct (body st a) as [st'|e'] eqn:E; simpl.
  - apply IH.
  - intros [= <-]. eapply Hb; eauto.
Qed.

Lemma in_letters a :
  existsb (String.eqb a) ["A"; "B"; "C"; "D"] = true <-> In a ["A"; "B"; "C"; "D"].
Proof.
  rewrite existsb_exists. split.
  - intros (x & Hx & E). apply String.eqb_eq in E. now subst.
  - intro H. exists a. split; [exact H|apply String.eqb_refl].
Qed.

Lemma check_answer_ok item :
  check_answer tt item = Py.Ok tt <-> In (snd item) ["A"; "B"; "C"; "D"].
Proof.
  destruct item as [q a]. unfold check_answer. rewrite <- in_letters. simpl snd.
  destruct (existsb (String.eqb a) ["A"; "B"; "C"; "D"]); simpl; split;
    (reflexivity || discriminate).
Qed.

Lemma check_version_ok item :
  check_version tt item = Py.Ok tt
  <-> Z.of_nat (List.length (snd item)) = 100
      /\ Forall (fun a => In a ["A"; "B"; "C"; "D"]) (Py.values (snd item)).
Proof.
  destruct item as [version answers]. unfold check_version. simpl snd.
  destruct (Z.eqb_spec (Z.of_nat (List.length answers)) 100) as [E|E]; simpl.
  - rewrite for_each_unit. unfold Py.values. rewrite Forall_map.
    split.
    + intro H. split; [exact E|]. eapply Forall_impl; [|exact H].
      intros a Ha. now apply check_answer_ok.
    + intros (_ & H). eapply Forall_impl; [|exact H].
      intros a Ha. now apply check_answer_ok.
  - split; [discriminate|]. intros (H & _). contradiction.
Qed.

Lemma check_question_number_ok q :
  check_question_number q = Py.Ok tt
  <-> exists z, Py.int_opt q = Some z /\ 1 <= z <= 100.
Proof.
  unfold check_question_number, Py.int.
  destruct (Py.int_opt q) as [z|]; simpl.
  - destruct (Z.ltb_spec z 1); simpl.
    + split; [discriminate|]. intros (z' & [= <-] & Hz). lia.
    + destruct (Z.ltb_spec 100 z); simpl.
      * split; [discriminate|]. intros (z' & [= <-] & Hz). lia.
      * split; [|reflexivity]. intros _. exists z. split; [reflexivity|lia].
  - split; [discriminate|]. intros (z & Hz & _). discriminate.
Qed.

Lemma check_question_number_raises q e :
  check_question_number q = Py.Raise e ->
  e = Py.ValueError ("Invalid question number format: " ++ q).
Proof.
  unfold check_question_number, Py.int.
  destruct (Py.int_opt q) as [z|]; simpl.
  - destruct (_ || _); simpl; [|discriminate]. now intros [= <-].
  - now intros [= <-].
Qed.

Lemma check_numbered_answer_ok item :
  check_numbered_answer tt item = Py.Ok tt
  <-> (exists z, Py.int_opt (fst item) = Some z /\ 1 <= z <= 100)
      /\ In (snd item) ["A"; "B"; "C"; "D"].
Proof.
  destruct item as [q a]. unfold check_numbered_answer. simpl fst. simpl snd.
  rewrite <- check_question_number_ok, <- in_letters.
  destruct (check_question_number q) as [[]|e]; cbn [Py.bind].
  - destruct (existsb (String.eqb a) ["A"; "B"; "C"; "D"]); cbn [negb];
      intuition (try discriminate; try congruence).
  - intuition (try discriminate; try congruence).
Qed.

Lemma check_numbered_answer_raises st item e :
  check_numbered_answer st item = Py.Raise e ->
  e = Py.ValueError ("Invalid question number format: " ++ fst item)
  \/ e = Py.ValueError ("Invalid answer '" ++ snd item ++ "' for question " ++ fst item).
Proof.
  destruct item as [q a]. unfold check_numbered_answer. simpl fst. simpl snd.
  destruct (check_question_number q) as [[]|e'] eqn:E; simpl.
  - destruct (negb _); [|discriminate]. intros [= <-]. now right.
  - intros [= <-]. left. now apply check_question_number_raises.
Qed.

Lemma validate_answer_keys_iff (v : Py.dict (Py.dict string)) :
  validate_answer_keys v = Py.Ok v
  <-> Forall (fun item =>
                Z.of_nat (List.length (snd item)) = 100
                /\ Forall (fun a => In a ["A"; "B"; "C"; "D"]) (Py.values (snd item)))
             v.
Proof.
  unfold validate_answer_keys.
  pose proof (for_each_unit check_version v) as Hu.
  destruct (OMRProcessor.for_each check_version v tt) as [[]|e] eqn:E; simpl.
  - split; intro H; [|reflexivity].
    eapply Forall_impl; [|apply Hu; reflexivity].
    intros item Hitem. now apply check_version_ok.
  - split; [discriminate|]. intro H.
    assert (Hok : Py.Raise e = Py.Ok tt :> Py.result unit); [|discriminate Hok].
    apply Hu. eapply Forall_impl; [|exact H].
    intros item Hitem. now apply check_version_ok.
Qed.

Lemma validate_answers_iff (v : Py.dict string) :
  validate_answers v = Py.Ok v
  <-> Z.of_nat (List.length v) = 100
      /\ Forall (fun item =>
                   (exists z, Py.int_opt (fst item) = Some z /\ 1 <= z <= 100)
                   /\ In (snd item) ["A"; "B"; "C"; "D"])
                v.
Proof.
  unfold validate_answers.
  pose proof (for_each_unit check_numbered_answer v) as Hu.
  destruct (Z.eqb_spec (Z.of_nat (List.length v)) 100) as [E100|E100]; simpl.
  - destruct (OMRProcessor.for_each check_numbered_answer v tt) as [[]|e] eqn:E; simpl.
    + split; intro H; [|reflexivity]. split; [exact E100|].
      eapply Forall_impl; [|apply Hu; reflexivity].
      intros item Hitem. now apply check_numbered_answer_ok.
    + split; [discriminate|]. intros (_ & H).
      assert (Hok : Py.Raise e = Py.Ok tt :> Py.result unit); [|discriminate Hok].
      apply Hu. eapply Forall_impl; [|exact H].
      intros item Hitem. now apply check_numbered_answer_ok.
  - split; [discriminate|]. intros (H & _). contradiction.
Qed.

End SchemaValidators.

(** X13. The validator of [answer_keys] returns its argument unchanged,
    and does so exactly when every version has exactly 100 entries whose
    values are all among A, B, C, D; otherwise it raises [ValueError]. The
    question keys are never inspected: any 100 distinct strings pass. *)
Theorem X13_schema_answer_keys_accepts :
  forall (v : Py.dict (Py.dict string)),
    (Schemas.validate_answer_keys v = Py.Ok v
     <-> Forall (fun item =>
                   Z.of_nat (List.length (snd item)) = 100
                   /\ Forall (fun a => In a ["A"; "B"; "C"; "D"]) (Py.values (snd item)))
                v)
    /\ (forall r, Schemas.validate_answer_keys v = Py.Ok r -> r = v)
    /\ (forall e, Schemas.validate_answer_keys v = Py.Raise e -> exists m, e = Py.ValueError m).
Proof.
  intro v. split; [apply validate_answer_keys_iff|].
  unfold Schemas.validate_answer_keys. split.
  - intro r. destruct (OMRProcessor.for_each _ _ _); simpl; [|discriminate].
    now intros [= <-].
  - intro e. destruct (OMRProcessor.for_each Schemas.check_version v tt) as [u|e'] eqn:E;
      simpl; [discriminate|]. intros [= <-].
    eapply (for_each_raises _ (fun e => exists m, e = Py.ValueError m)); [|exact E].
    clear. intros st [version answers] e.
    unfold Schemas.check_version.
    destruct (negb _); [intros [= <-]; now eexists|].
    intro H. eapply (for_each_raises _ (fun e => exists m, e = Py.ValueError m)); [|exact H].
    clear. intros st [q a] e. unfold Schemas.check_answer.
    destruct (negb _); [intros [= <-]; now eexists|discriminate].
Qed.

(** X14. The validator of one answer key returns its argument unchanged,
    exactly when the key has 100 entries, each with an integer literal
    between 1 and 100 as question and one of A, B, C, D as answer. Otherwise
    it raises [ValueError]; the message is never the one about a question
    number out of range, which is raised inside the [try] and replaced by
    the handler. *)
Theorem X14_schema_answers_accepts :
  forall (v : Py.dict string),
    (Schemas.validate_answers v = Py.Ok v
     <-> Z.of_nat (List.length v) = 100
         /\ Forall (fun item =>
                      (exists z, Py.int_opt (fst item) = Some z /\ 1 <= z <= 100)
                      /\ In (snd item) ["A"; "B"; "C"; "D"])
                   v)
    /\ (forall r, Schemas.validate_answers v = Py.Ok r -> r = v)
    /\ (forall e, Schemas.validate_answers v = Py.Raise e ->
                  exists m, e = Py.ValueError m
                            /\ forall q, m <> ("Question number " ++ q
                                               ++ " out of range (1-100)")%string).
Proof.
  intro v. split; [apply validate_answers_iff|].
  unfold Schemas.validate_answers.
  destruct (Z.eqb_spec (Z.of_nat (List.length v)) 100) as [E100|E100]; simpl.
  - split.
    + intro r. destruct (OMRProcessor.for_each _ _ _); simpl; [|discriminate].
      now intros [= <-].
    + intro e.
      destruct (OMRProcessor.for_each Schemas.check_numbered_answer v tt) as [u|e'] eqn:E;
        simpl; [discriminate|]. intros [= <-].
      eapply (for_each_raises _
                (fun e => exists m, e = Py.ValueError m
                                    /\ forall q, m <> ("Question number " ++ q
                                                       ++ " out of range (1-100)")%string));
        [|exact E].
      clear. intros st item e He.
      apply check_numbered_answer_raises in He.
      destruct He as [-> | ->]; eexists; (split; [reflexivity|]); intro q; discriminate.
  - split.
    + discriminate.
    + intros e [= <-]. eexists. split; [reflexivity|]. intro q. discriminate.
Qed.

(** X15. The three validators of an answer key are ordered by
    strictness. A key that [validate_answer_key] of [utils] finds valid for
    100 questions is accepted by [validate_answers], and a key that
    [validate_answers] accepts is accepted, under any version name, by the
    validator of [answer_keys]. The first of these cannot be reversed: the
    key that spells question 1 as ["01"] and as ["1"] and lacks question 100
    is a dictionary that [validate_answers] accepts and [validate_answer_key]
    rejects. *)
Theorem X15_validators_ordered_by_strictness :
  (forall (k : Py.dict string),
      (forall r, Utils.validate_answer_key k 100 = Py.Ok r ->
                 Utils.valid r = true ->
                 Schemas.validate_answers k = Py.Ok k)
      /\ (Schemas.validate_answers k = Py.Ok k ->
          forall version,
            Schemas.validate_answer_keys [(version, k)] = Py.Ok [(version, k)]))
  /\ (Py.wf Samples.padded_key
      /\ Schemas.validate_answers Samples.padded_key = Py.Ok Samples.padded_key
      /\ exists r, Utils.validate_answer_key Samples.padded_key 100 = Py.Ok r
                   /\ Utils.valid r = false).
Proof.
  split.
  - intro k. split.
    + intros r Hr Hvalid.
      destruct (validate_answer_key_returns k 100) as (v & Hv & Herr & Hval).
      rewrite Hr in Hv. injection Hv as <-.
      rewrite Hval in Hvalid.
      destruct (Utils.errors r) as [|e l] eqn:E; [clear Hvalid|discriminate].
      symmetry in Herr. apply app_eq_nil in Herr. destruct Herr as (E12 & _).
      apply app_eq_nil in E12. destruct E12 as (E1 & E2).
      apply validate_answers_iff. split.
      * destruct (Z.eqb_spec (Z.of_nat (List.length k)) 100); [assumption|discriminate].
      * apply flat_map_nil in E2. eapply Forall_impl; [|exact E2].
        intros [q a] H. now apply entry_errors_nil in H.
    + intros Hk version. apply validate_answers_iff in Hk. destruct Hk as (Hlen & Hall).
      apply validate_answer_keys_iff. constructor; [|constructor]. simpl snd.
      split; [exact Hlen|]. unfold Py.values. rewrite Forall_map.
      eapply Forall_impl; [|exact Hall]. intros item (_ & H). exact H.
  - split; [|split].
    + unfold Py.wf, Samples.padded_key. cbn [map fst]. constructor.
      * rewrite map_map. cbn [fst]. intro Hin. apply in_map_iff in Hin.
        destruct Hin as (i & Hi & Hr). apply in_range in Hr.
        assert (Hint : Py.int_opt (Py.str i) = Some 1) by (rewrite Hi; reflexivity).
        rewrite int_opt_str in Hint by lia. injection Hint as ->. discriminate Hi.
      * rewrite map_map. cbn [fst]. apply str_range_nodup. lia.
    + vm_compute. reflexivity.
    + eexists. split; [vm_compute; reflexivity|reflexivity].
Qed.

(** X15, on the key that cycles through the four letters. *)
Lemma X15_witness :
  Schemas.validate_answers Samples.numeric_key = Py.Ok Samples.numeric_key
  /\ Schemas.validate_answer_keys [("A", Samples.numeric_key)]
     = Py.Ok [("A", Samples.numeric_key)].
Proof.
  assert (H : Schemas.validate_answers Samples.numeric_key = Py.Ok Samples.numeric_key).
  { destruct (validate_answer_key_returns Samples.numeric_key 100) as (r & Hr & _).
    apply (proj1 (proj1 X15_validators_ordered_by_strictness Samples.numeric_key) r Hr).
    vm_compute in Hr. injection Hr as <-. reflexivity. }
  split; [exact H|].
  exact (proj2 (proj1 X15_validators_ordered_by_strictness Samples.numeric_key) H "A").
Defined.

(** X16. A batch returns one result per image path, in the order of the
    paths, and the result at position [j] is the result of
    [process_omr_sheet] on path [j], called with the version and the student
    id at position [j] of their lists: it carries that path, that id and,
    when one is given, that version. A list of ids or versions shorter than
    the list of paths raises nothing: the sheets beyond its end are processed
    with [None]. *)
Theorem X16_batch_results_follow_the_paths :
  forall (c : OMRProcessor.components) (self : OMRProcessor.processor)
         (image_paths : list string) (sheet_versions student_ids : option (list string))
         (j : nat) (p : string),
    nth_error image_paths j = Some p ->
    exists r,
      nth_error (OMRProcessor.batch_process_omr_sheets c self image_paths sheet_versions
                   student_ids) j = Some r
      /\ r = OMRProcessor.process_omr_sheet c self p
               (OMRProcessor.nth_or_none sheet_versions j)
               (OMRProcessor.nth_or_none student_ids j)
      /\ List.length (OMRProcessor.batch_process_omr_sheets c self image_paths sheet_versions
                        student_ids) = List.length image_paths
      /\ OMRProcessor.fp_original (OMRProcessor.r_file_paths r) = p
      /\ OMRProcessor.student_id r = OMRProcessor.nth_or_none student_ids j
      /\ (forall v, OMRProcessor.nth_or_none sheet_versions j = Some v ->
                    OMRProcessor.sheet_version r = Some v)
      /\ (forall ids, student_ids = Some ids -> (List.length ids <= j)%nat ->
                      OMRProcessor.student_id r = None
                      /\ r = OMRProcessor.process_omr_sheet c self p
                                (OMRProcessor.nth_or_none sheet_versions j) None)
      /\ (forall versions, sheet_versions = Some versions ->
                           (List.length versions <= j)%nat ->
                           r = OMRProcessor.process_omr_sheet c self p None
                                 (OMRProcessor.nth_or_none student_ids j)).
Proof.
  intros c self image_paths sheet_versions student_ids j p Hj.
  eexists. split; [apply batch_nth; exact Hj|].
  split; [reflexivity|].
  split; [apply batch_length|].
  destruct (process_outcome c self p (OMRProcessor.nth_or_none sheet_versions j)
              (OMRProcessor.nth_or_none student_ids j)) as (_ & Hid & Hpath & _ & Hv & _).
  split; [exact Hpath|]. split; [exact Hid|]. split; [exact Hv|]. split.
  - intros ids -> Hlen. rewrite Hid. simpl.
    rewrite (proj2 (nth_error_None ids j) Hlen). now split.
  - intros versions -> Hlen. simpl.
    now rewrite (proj2 (nth_error_None versions j) Hlen).
Qed.

(** X16, on three sheets with a single student id. *)
Lemma X16_witness :
  exists r,
    nth_error (OMRProcessor.batch_process_omr_sheets Samples.collaborators
                 OMRProcessor.new_processor ["a.png"; "blank.png"; "c.png"] None
                 (Some ["S1"])) 2 = Some r
    /\ r = OMRProcessor.process_omr_sheet Samples.collaborators OMRProcessor.new_processor
             "c.png" None None
    /\ OMRProcessor.fp_original (OMRProcessor.r_file_paths r) = "c.png"
    /\ OMRProcessor.student_id r = None.
Proof.
  destruct (X16_batch_results_follow_the_paths Samples.collaborators
              OMRProcessor.new_processor ["a.png"; "blank.png"; "c.png"] None
              (Some ["S1"]) 2 "c.png" eq_refl)
    as (r & Hr & _ & _ & Hp & _ & _ & Hid & _).
  exists r. split; [exact Hr|].
  destruct (Hid ["S1"] eq_refl) as (Hnone & Heq); [simpl; lia|].
  split; [exact Heq|]. split; [exact Hp|exact Hnone].
Defined.

(** ** File names *)

Section FileNames.

Import Utils.








End FileNames.



(** ** What the renderer draws on a grid *)

Section Rendering.

Import OMRProcessor.

Variable cls : list bool.

Lemma with_drawn_nil img : with_drawn img [] = img.
Proof. destruct img. unfold with_drawn. simpl. now rewrite app_nil_r. Qed.

Lemma with_drawn_app img ops ops' :
  with_drawn (with_drawn img ops) ops' = with_drawn img (ops ++ ops').
Proof. unfold with_drawn. simpl. now rewrite app_assoc. Qed.

Lemma draw_accepted op img :
  accepted op = true -> draw op img = (Py.Ok tt, with_drawn img [op]).
Proof. intro H. unfold draw. now rewrite H. Qed.

Lemma fits_int_range v : - 2147483648 <= v < 2147483648 -> fits_int v = true.
Proof.
  intro H. unfold fits_int. change (2 ^ 31) with 2147483648.
  apply andb_true_iff. split; [apply Z.leb_le|apply Z.ltb_lt]; lia.
Qed.

Lemma within_bounds v : within v -> - 1073741824 <= v < 1073741824.
Proof. unfold within. change (2 ^ 30) with 1073741824. lia. Qed.

Lemma accepted_circle x y r c t :
  within x -> within y -> within r -> 0 <= r -> accepted (DCircle (x, y) r c t) = true.
Proof.
  intros Hx Hy Hr H0. apply within_bounds in Hx, Hy, Hr. unfold accepted.
  rewrite !fits_int_range by lia. now apply Z.leb_le in H0 as ->.
Qed.

Lemma accepted_rectangle x y w h c t :
  within x -> within y -> within w -> within h ->
  accepted (DRectangle (x, y) (x + w, y + h) c t) = true.
Proof.
  intros Hx Hy Hw Hh. apply within_bounds in Hx, Hy, Hw, Hh. unfold accepted.
  now rewrite !fits_int_range by lia.
Qed.

Lemma accepted_label s x y h c :
  within x -> within y -> within h ->
  accepted (DText s (x - 30, y) c) = true
  /\ accepted (DText s (x - 30, y + h / 2) c) = true.
Proof.
  intros Hx Hy Hh. apply within_bounds in Hx, Hy, Hh. unfold accepted.
  assert (Hd : - 1073741824 <= h / 2 < 1073741824)
    by (pose proof (Z.div_mod h 2); pose proof (Z.mod_pos_bound h 2); lia).
  split; now rewrite !fits_int_range by lia.
Qed.

Lemma draw_bubble_drawable u info img :
  drawable info ->
  draw_bubble cls u info img = (Py.Ok tt, with_drawn img (outline cls info)).
Proof.
  intros (b & i & Hb & Hi & Hpos & Hin & Hshape).
  unfold draw_bubble, outline. rewrite Hb, Hi.
  unfold Py.sbind at 1, Py.lift at 1. cbn [Py.field].
  unfold Py.sbind at 1, Py.lift at 1. cbn [Py.field].
  unfold Py.sbind at 1.
  assert (Hstyle : exists c t,
             (if i <? Z.of_nat (List.length cls)
              then Py.sbind (Py.lift (Py.list_get cls i))
                     (fun is_filled : bool =>
                        Py.sret (if is_filled then (0, 255, 0, 3) else (255, 0, 0, 1)))
              else Py.sret (128, 128, 128, 1)) img = (Py.Ok (c, t), img)
             /\ (if i <? Z.of_nat (List.length cls)
                 then match nth_error cls (Z.to_nat i) with
                      | Some true => (0, 255, 0, 3)
                      | _ => (255, 0, 0, 1)
                      end
                 else (128, 128, 128, 1)) = (c, t)).
  { destruct (Z.ltb_spec i (Z.of_nat (List.length cls))) as [Hlt|Hge].
    - destruct (list_get_nonneg cls i (conj Hpos Hlt)) as (f & Hf & ->).
      unfold Py.sbind, Py.lift, Py.sret. rewrite Hf. destruct f; now eexists _, _.
    - now eexists _, _. }
  destruct Hstyle as (c & t & -> & ->).
  destruct b as [|x [|y [|r [|h [|z b]]]]]; try contradiction.
  - inversion Hin as [|? ? Hx Hin1]; subst. inversion Hin1 as [|? ? Hy Hin2]; subst.
    inversion Hin2 as [|? ? Hr _]; subst.
    apply draw_accepted. now apply accepted_circle.
  - inversion Hin as [|? ? Hx Hin1]; subst. inversion Hin1 as [|? ? Hy Hin2]; subst.
    inversion Hin2 as [|? ? Hr Hin3]; subst. inversion Hin3 as [|? ? Hh _]; subst.
    apply draw_accepted. now apply accepted_rectangle.
Qed.

Lemma draw_bubbles_drawable group :
  Forall drawable group ->
  forall img,
    Py.sfor_each (draw_bubble cls) group tt img
    = (Py.Ok tt, with_drawn img (flat_map (outline cls) group)).
Proof.
  induction 1 as [|info group Hinfo _ IH]; intro img; simpl.
  - unfold Py.sret. now rewrite with_drawn_nil.
  - unfold Py.sbind. rewrite (draw_bubble_drawable tt info img Hinfo).
    now rewrite IH, with_drawn_app.
Qed.

Lemma draw_question_drawable k group img :
  Forall drawable group ->
  draw_question cls k group img
  = if complete group
    then (Py.Ok (k + 1), with_drawn img (flat_map (outline cls) group ++ label k group))
    else (Py.Ok k, img).
Proof.
  intro Hg. unfold draw_question, complete.
  destruct (List.length group <? options_per_question)%nat eqn:E; [reflexivity|].
  cbn [negb]. unfold Py.sbind at 1. unfold Py.sbind at 1.
  rewrite (draw_bubbles_drawable group Hg img).
  destruct group as [|first rest]; [discriminate E|].
  inversion Hg as [|? ? (b & i & Hb & _ & _ & Hin & Hshape) _]; subst.
  unfold label. rewrite Hb.
  unfold Py.sbind at 1, Py.lift at 1. cbn [Py.field].
  destruct b as [|x [|y [|r [|h [|z b]]]]]; try contradiction.
  - inversion Hin as [|? ? Hx Hin1]; subst. inversion Hin1 as [|? ? Hy Hin2]; subst.
    inversion Hin2 as [|? ? Hr _]; subst.
    destruct (accepted_label ("Q" ++ Py.str k) x y r (0, 0, 255) Hx Hy Hr) as (Ha & _).
    unfold Py.sbind, Py.lift, Py.sret. simpl.
    rewrite (draw_accepted _ _ Ha). now rewrite with_drawn_app.
  - inversion Hin as [|? ? Hx Hin1]; subst. inversion Hin1 as [|? ? Hy Hin2]; subst.
    inversion Hin2 as [|? ? Hr Hin3]; subst. inversion Hin3 as [|? ? Hh _]; subst.
    destruct (accepted_label ("Q" ++ Py.str k) x y h (0, 0, 255) Hx Hy Hh) as (_ & Ha).
    unfold Py.sbind, Py.lift, Py.sret. simpl.
    rewrite (draw_accepted _ _ Ha). now rewrite with_drawn_app.
Qed.

Lemma draw_questions_drawable groups :
  Forall (Forall drawable) groups ->
  forall k img,
    Py.sfor_each (draw_question cls) groups k img
    = (Py.Ok (k + Z.of_nat (List.length (filter complete groups))),
       with_drawn img (question_drawings cls k groups)).
Proof.
  induction 1 as [|group groups Hg _ IH]; intros k img; simpl.
  - unfold Py.sret. now rewrite with_drawn_nil, Z.add_0_r.
  - unfold Py.sbind. rewrite (draw_question_drawable k group img Hg).
    destruct (complete group).
    + rewrite IH, with_drawn_app, <- app_assoc. simpl List.length.
      rewrite Nat2Z.inj_succ. do 2 f_equal. lia.
    + apply IH.
Qed.

Lemma groups_of_4_concat {A} (row : list A) : List.concat (groups_of_4 row) = row.
Proof.
  assert (H : forall n (row : list A), (List.length row <= n)%nat ->
                                       List.concat (groups_of_4 row) = row).
  { clear. induction n as [|n IH]; intros row Hn.
    - destruct row; [reflexivity|simpl in Hn; lia].
    - destruct row as [|a [|b [|c [|d rest]]]]; try reflexivity.
      simpl. rewrite IH; [reflexivity|]. simpl in Hn. lia. }
  apply (H (List.length row)). lia.
Qed.

Lemma groups_of_4_drawable row :
  Forall drawable row -> Forall (Forall drawable) (groups_of_4 row).
Proof. intro H. apply Forall_concat. now rewrite groups_of_4_concat. Qed.

Lemma draw_questions_app groups later :
  Forall (Forall drawable) groups ->
  forall k img,
    Py.sfor_each (draw_question cls) (groups ++ later) k img
    = Py.sfor_each (draw_question cls) later
        (k + Z.of_nat (List.length (filter complete groups)))
        (with_drawn img (question_drawings cls k groups)).
Proof.
  induction 1 as [|group groups Hg _ IH]; intros k img.
  - cbn [app filter List.length question_drawings].
    now rewrite with_drawn_nil, Z.add_0_r.
  - cbn [app filter question_drawings Py.sfor_each].
    unfold Py.sbind at 1. rewrite (draw_question_drawable k group img Hg).
    destruct (complete group).
    + rewrite IH, with_drawn_app, <- app_assoc. cbn [List.length].
      rewrite Nat2Z.inj_succ.
      replace (k + Z.succ (Z.of_nat (List.length (filter complete groups))))
        with (k + 1 + Z.of_nat (List.length (filter complete groups))) by lia.
      reflexivity.
    + apply IH.
Qed.

Lemma draw_rows_drawable rs :
  Forall (Forall drawable) rs ->
  forall k img,
    Py.sfor_each (draw_row cls) rs k img
    = Py.sfor_each (draw_question cls) (flat_map groups_of_4 rs) k img.
Proof.
  induction 1 as [|row rs Hrow _ IH]; intros k img; [reflexivity|].
  cbn [flat_map Py.sfor_each].
  unfold Py.sbind at 1. unfold draw_row at 1.
  pose proof (groups_of_4_drawable row Hrow) as Hgs.
  rewrite (draw_questions_drawable _ Hgs), IH.
  now rewrite (draw_questions_app _ _ Hgs).
Qed.

Lemma range_cons k n : 0 <= n -> Py.range k (k + n + 1) = k :: Py.range (k + 1) (k + n + 1).
Proof.
  intro Hn. rewrite (range_split k (k + 1) (k + n + 1)) by lia.
  unfold Py.range at 1. replace (k + 1 - k) with 1 by lia. simpl.
  now rewrite Z.add_0_r.
Qed.

Lemma label_texts_app ops ops' : label_texts (ops ++ ops') = label_texts ops ++ label_texts ops'.
Proof. unfold label_texts. apply flat_map_app. Qed.

Lemma outline_no_text group : label_texts (flat_map (outline cls) group) = [].
Proof.
  induction group as [|info group IH]; [reflexivity|].
  simpl. rewrite label_texts_app, IH, app_nil_r.
  unfold outline. destruct (bubble info) as [b|]; [|reflexivity].
  destruct (index info) as [i|]; [|reflexivity].
  destruct (if i <? _ then _ else _) as [c t].
  destruct b as [|x [|y [|r [|h [|z b]]]]]; reflexivity.
Qed.

Lemma label_text k group :
  Forall drawable group -> complete group = true ->
  label_texts (label k group) = [("Q" ++ Py.str k)%string].
Proof.
  intros Hg Hc. destruct group as [|first rest]; [discriminate Hc|].
  inversion Hg as [|? ? (b & i & Hb & _ & _ & _ & Hshape) _]; subst.
  unfold label. rewrite Hb.
  destruct b as [|x [|y [|r [|h [|z b]]]]]; try contradiction; reflexivity.
Qed.

Lemma question_labels groups :
  Forall (Forall drawable) groups ->
  forall k,
    label_texts (question_drawings cls k groups)
    = map (fun j => ("Q" ++ Py.str j)%string)
          (Py.range k (k + Z.of_nat (List.length (filter complete groups)))).
Proof.
  induction 1 as [|group groups Hg _ IH]; intro k; simpl.
  - rewrite Z.add_0_r. unfold Py.range. now rewrite Z.sub_diag.
  - destruct (complete group) eqn:Hc.
    + rewrite !label_texts_app, outline_no_text, (label_text k group Hg Hc), IH.
      simpl List.length. rewrite Nat2Z.inj_succ.
      replace (k + Z.succ (Z.of_nat (List.length (filter complete groups))))
        with (k + Z.of_nat (List.length (filter complete groups)) + 1) by lia.
      rewrite range_cons by lia. simpl. do 3 f_equal. lia.
    + apply IH.
Qed.

End Rendering.

(** X18. On a grid with at least one row, whose entries are all circles
    [(x, y, r)] with a radius that is not negative or rectangles
    [(x, y, w, h)], of numbers below [2^30] in magnitude and with an index
    that is not negative, no drawing call is rejected: the renderer raises
    nothing and returns the original image
    (in three channels if it was grayscale) on which it has drawn, group of
    four after group of four along the rows, the four outlines of the group
    and then its label: green and thick for a bubble classified as filled,
    red for one that is not, gray when the classifications end before its
    index. The labels are [Q1], [Q2], ... without gaps: a last group of fewer
    than four bubbles draws nothing and takes no number. The student's
    answers play no part. *)
Theorem X18_overlay_drawings :
  forall (original_image : OMRProcessor.image) (results : OMRProcessor.bubble_results)
         (student_answers : Py.dict OMRProcessor.answer)
         (g : OMRProcessor.grid) (rs : list (list OMRProcessor.bubble_info))
         (cls : list bool),
    OMRProcessor.grid_structure results = Some (Some g) ->
    OMRProcessor.rows g = Some rs ->
    rs <> [] ->
    OMRProcessor.classifications results = Some cls ->
    Forall (Forall drawable) rs ->
    OMRProcessor.create_overlay_image original_image results student_answers
    = Py.Ok (with_drawn (base_overlay original_image)
               (question_drawings cls 1 (flat_map OMRProcessor.groups_of_4 rs)))
    /\ label_texts (question_drawings cls 1 (flat_map OMRProcessor.groups_of_4 rs))
       = map (fun k => ("Q" ++ Py.str k)%string)
             (Py.range 1 (1 + Z.of_nat (List.length
                                          (filter complete
                                             (flat_map OMRProcessor.groups_of_4 rs))))).
Proof.
  intros img results sa g rs cls Hg Hrows Hne Hcls Hall.
  assert (Hgroups : Forall (Forall drawable) (flat_map OMRProcessor.groups_of_4 rs)).
  { rewrite flat_map_concat_map. apply Forall_concat. apply Forall_map.
    eapply Forall_impl; [|exact Hall]. intros row Hrow. now apply groups_of_4_drawable. }
  split; [|now apply question_labels].
  unfold OMRProcessor.create_overlay_image. rewrite Hg.
  assert (Ht : OMRProcessor.grid_truthy g = true)
    by (unfold OMRProcessor.grid_truthy; now rewrite Hrows).
  rewrite Ht, Hrows. cbn [negb Py.field Py.bind].
  destruct rs as [|row rs']; [contradiction|].
  f_equal. unfold OMRProcessor.draw_grid, Py.sbind, Py.lift. rewrite Hcls. cbn [Py.field].
  rewrite (draw_rows_drawable cls _ Hall), (draw_questions_drawable cls _ Hgroups).
  reflexivity.
Qed.

(** X18, on a row of one question and a half. *)
Lemma X18_witness :
  exists overlay,
    OMRProcessor.create_overlay_image Samples.gray_image Samples.six_bubble_detection []
    = Py.Ok overlay
    /\ label_texts (OMRProcessor.drawn overlay) = ["Q1"]
    /\ List.length (OMRProcessor.drawn overlay) = 5%nat.
Proof.
  eexists. split.
  - apply (X18_overlay_drawings Samples.gray_image Samples.six_bubble_detection []
             Samples.six_bubble_grid [Samples.six_bubbles] [false; true]
             eq_refl eq_refl); [discriminate|reflexivity|].
    constructor; [|constructor].
    apply Forall_forall. intros info Hin. apply in_map_iff in Hin.
    destruct Hin as (i & <- & Hi). apply in_range in Hi.
    exists [10 * i; 5; 2], i.
    split; [reflexivity|]. split; [reflexivity|]. split; [lia|].
    split; [|lia].
    unfold within. change (2 ^ 30) with 1073741824.
    repeat constructor; lia.
  - split; reflexivity.
Defined.


(** X19. In a score dictionary that [calculate_subject_scores] returns,
    [total_questions] is the number of entries of the sheet whose key is in
    the answer key and whose number falls to a subject, and
    [correct_answers] is the number of those that match the key, case apart;
    so [0 <= correct_answers <= total_questions <= len(student_answers)].
    The two counters do not depend on the second loop. *)
Theorem X19_scorer_counters :
  forall (cfg : OMRProcessor.subject_config) (sa : Py.dict OMRProcessor.answer)
         (ck : Py.dict string) (r : OMRProcessor.score_result),
    OMRProcessor.calculate_subject_scores cfg sa ck = Py.Ok r ->
    OMRProcessor.total_questions r = Z.of_nat (List.length (filter (scored cfg ck) sa))
    /\ OMRProcessor.correct_answers r
       = Z.of_nat (List.length
                     (filter (fun item => scored cfg ck item && answered_correctly ck item) sa))
    /\ 0 <= OMRProcessor.correct_answers r <= OMRProcessor.total_questions r
    /\ OMRProcessor.total_questions r <= Z.of_nat (List.length sa).
Proof.
  intros cfg sa ck r Hr. destruct (scorer_counters cfg ck sa r Hr) as (Hq & Hc).
  split; [exact Hq|]. split; [exact Hc|]. rewrite Hq, Hc.
  pose proof (filter_length_le (scored cfg ck) sa) as H1.
  assert (H2 : (List.length (filter (fun item => scored cfg ck item
                                                  && answered_correctly ck item) sa)
                <= List.length (filter (scored cfg ck) sa))%nat).
  { clear. induction sa as [|item sa IH]; [simpl; lia|]. cbn [filter].
    destruct (scored cfg ck item), (answered_correctly ck item); cbn [andb List.length]; lia. }
  lia.
Qed.

(** X19, on the sheet of the self-test. *)
Lemma X19_witness :
  exists r,
    OMRProcessor.calculate_subject_scores OMRProcessor.default_config
      Samples.full_marks_sheet Samples.sample_answer_key = Py.Ok r
    /\ OMRProcessor.total_questions r = 100
    /\ OMRProcessor.correct_answers r = 100.
Proof.
  assert (E : exists r,
             OMRProcessor.calculate_subject_scores OMRProcessor.default_config
               Samples.full_marks_sheet Samples.sample_answer_key = Py.Ok r)
    by (eexists; vm_compute; reflexivity).
  destruct E as (r & E). exists r. split; [exact E|].
  destruct (X19_scorer_counters _ _ _ r E) as (H1 & H2 & _).
  rewrite H1, H2. split; vm_compute; reflexivity.
Defined.

(** ** The two scorers on arbitrary sheets *)

Section ScorersCompared.

Import OMRProcessor.

Variable sa : Py.dict answer.
Variable ck : Py.dict string.

Lemma agreeing_1_101 :
  agreeing sa ck 1 21 + agreeing sa ck 21 41 + agreeing sa ck 41 61
  + agreeing sa ck 61 81 + agreeing sa ck 81 101
  = agreeing sa ck 1 101.
Proof.
  unfold agreeing.
  rewrite (range_split 1 21 101), (range_split 21 41 101), (range_split 41 61 101),
    (range_split 61 81 101) by lia.
  rewrite !filter_app, !length_app. lia.
Qed.

Lemma subject_1_100 :
  forall n, 1 <= n < 101 ->
    match subject_of_number default_config n with
    | Py.Ok (Some _) => true
    | _ => false
    end = true.
Proof. apply forallb_range. vm_compute. reflexivity. Qed.

(** A question on which the sheet and the key agree exactly is an entry
    that the scorer of [OMRProcessor] counts as correct. *)
Lemma agree_credited n :
  1 <= n < 101 -> agree sa ck n = true ->
  In (entry sa n) sa
  /\ scored default_config ck (entry sa n) && answered_correctly ck (entry sa n) = true.
Proof.
  intros Hn Ha. unfold agree in Ha. unfold entry.
  destruct (Py.get sa (Py.str n)) as [a|] eqn:Ea; [|discriminate].
  destruct (Py.get ck (Py.str n)) as [k|] eqn:Ek; [|discriminate].
  split; [now apply get_some_in|].
  unfold scored, answered_correctly, assigned_subject, Py.contains, Py.int. cbn [fst snd].
  rewrite Ek. cbn [negb].
  pose proof (key_number n Hn) as Hq. unfold question_number in Hq. rewrite Hq.
  cbn [Py.bind].
  pose proof (subject_1_100 n Hn) as Hs.
  destruct (subject_of_number default_config n) as [[s|]|e]; try discriminate.
  cbn [andb].
  destruct a as [| |s']; try discriminate. cbn in Ha.
  apply String.eqb_eq in Ha. subst s'. cbn. apply String.eqb_refl.
Qed.

Lemma agreeing_le_credited :
  agreeing sa ck 1 101
  <= Z.of_nat (List.length
                 (filter (fun item => scored default_config ck item
                                      && answered_correctly ck item) sa)).
Proof.
  unfold agreeing. apply inj_le.
  rewrite <- (length_map (entry sa) (filter (agree sa ck) (Py.range 1 101))).
  apply NoDup_incl_length.
  - apply Finite.Injective_map_NoDup_in; [|apply NoDup_filter, range_nodup].
    intros x y Hx Hy H. apply filter_In in Hx, Hy.
    destruct Hx as (Hx & _), Hy as (Hy & _). apply in_range in Hx, Hy.
    unfold entry in H. inversion H as [[H1 H2]]. apply str_inj in H1; lia.
  - intros item Hitem. apply in_map_iff in Hitem. destruct Hitem as (n & <- & Hn).
    apply filter_In in Hn. destruct Hn as (Hn & Ha). apply in_range in Hn.
    destruct (agree_credited n Hn Ha) as (Hin & Hc).
    apply filter_In. split; assumption.
Qed.

End ScorersCompared.

(** X20. Under the default configuration the scorer of [utils] never
    credits more than the scorer of [OMRProcessor]: for every sheet and
    answer key on which the latter returns, [total_score] of the first is at
    most [correct_answers] of the second. The first compares the answers of
    the keys ["1"] to ["100"] exactly; the second also credits answers that
    differ in case and keys written otherwise, such as ["Q7"]. *)
Theorem X20_utils_credits_no_more :
  forall (sa : Py.dict OMRProcessor.answer) (ck : Py.dict string)
         (r1 : OMRProcessor.score_result),
    OMRProcessor.calculate_subject_scores OMRProcessor.default_config sa ck = Py.Ok r1 ->
    exists r2,
      Utils.calculate_subject_scores sa ck None 20 = Py.Ok r2
      /\ Utils.r_total_score r2 <= OMRProcessor.correct_answers r1.
Proof.
  intros sa ck r1 H1.
  destruct (utils_total sa ck) as (r2 & H2 & Ht).
  exists r2. split; [exact H2|].
  rewrite Ht, agreeing_1_101.
  rewrite (proj2 (scorer_counters OMRProcessor.default_config ck sa r1 H1)).
  apply agreeing_le_credited.
Qed.

(** X20, on a sheet that answers question 1 in lower case: one scorer
    credits it, the other does not. *)
Lemma X20_witness :
  exists r1 r2,
    OMRProcessor.calculate_subject_scores OMRProcessor.default_config
      [("1", OMRProcessor.ALetter "a")] [("1", "A")] = Py.Ok r1
    /\ Utils.calculate_subject_scores [("1", OMRProcessor.ALetter "a")] [("1", "A")] None 20
       = Py.Ok r2
    /\ Utils.r_total_score r2 <= OMRProcessor.correct_answers r1
    /\ Utils.r_total_score r2 = 0
    /\ OMRProcessor.correct_answers r1 = 1.
Proof.
  assert (E : exists r,
             OMRProcessor.calculate_subject_scores OMRProcessor.default_config
               [("1", OMRProcessor.ALetter "a")] [("1", "A")] = Py.Ok r)
    by (eexists; vm_compute; reflexivity).
  destruct E as (r1 & E1).
  destruct (X20_utils_credits_no_more _ _ r1 E1) as (r2 & E2 & Hle).
  exists r1, r2. split; [exact E1|]. split; [exact E2|]. split; [exact Hle|].
  vm_compute in E1, E2. injection E1 as <-. injection E2 as <-. split; reflexivity.
Defined.
